(** * ai-sales-agent: the session, cart and orchestration core

    A shallow embedding of the Python backend (agents/sales_agent.py,
    services/context_manager.py, services/channel_adapters.py,
    agents/inventory_agent.py, agents/orchestrator.py,
    agents/payment_agent.py) and the properties of it that the design
    document states, followed by further properties of the code. *)

From Stdlib Require Import ZArith List String Ascii Bool Lia Floats.
From stdpp Require Import base option list gmap strings pretty.

Set Warnings "-register-all".
Open Scope string_scope.

(** ** Python primitives used by the code *)

Module Py.

(** Text is modelled by its bytes. [str.lower] on one of them: the ASCII
    capitals have a lower-case form, every other byte is kept. *)
Definition lower_ascii (c : ascii) : ascii :=
  let n := nat_of_ascii c in
  if (65 <=? n)%nat && (n <=? 90)%nat then ascii_of_nat (n + 32) else c.

(** [s.lower()] *)
Fixpoint lower (s : string) : string :=
  match s with
  | EmptyString => EmptyString
  | String c r => String (lower_ascii c) (lower r)
  end.

(** [s.startswith(p)] *)
Fixpoint startswith (p s : string) : bool :=
  match p, s with
  | EmptyString, _ => true
  | String _ _, EmptyString => false
  | String a p', String b s' => if Ascii.eqb a b then startswith p' s' else false
  end.

(** [needle in hay] for two strings: substring search. *)
Fixpoint contains (needle hay : string) : bool :=
  startswith needle hay ||
  match hay with
  | EmptyString => false
  | String _ r => contains needle r
  end.

(** [any(word in s for word in words)] *)
Definition any_in (words : list string) (s : string) : bool :=
  existsb (fun word => contains word s) words.

(** [lst.remove(x)]: drops the first element equal to [x]. *)
Fixpoint list_remove `{EqDecision A} (x : A) (l : list A) : list A :=
  match l with
  | [] => []
  | y :: r => if decide (y = x) then r else y :: list_remove x r
  end.

(** [sum(...)] over integers. *)
Definition int_sum (l : list Z) : Z := fold_left Z.add l 0%Z.

(** [s[:n]] on a string. *)
Fixpoint str_take (n : nat) (s : string) : string :=
  match n, s with
  | S k, String c r => String c (str_take k r)
  | _, _ => EmptyString
  end.

(** The JSON-shaped values the agents pass around in [Dict[str, Any]]. A
    dict keeps its entries in insertion order, one per key. *)
Inductive value : Type :=
  | VNone
  | VBool (b : bool)
  | VInt (z : Z)
  | VFloat (f : float)
  | VStr (s : string)
  | VList (l : list value)
  | VDict (d : list (string * value)).

Abbreviation dict := (list (string * value)).

(** [type(v).__name__] *)
Definition type_name (v : value) : string :=
  match v with
  | VNone => "NoneType"
  | VBool _ => "bool"
  | VInt _ => "int"
  | VFloat _ => "float"
  | VStr _ => "str"
  | VList _ => "list"
  | VDict _ => "dict"
  end.

(** The exceptions the modelled code can meet; all derive from [Exception]. *)
Inductive exn : Type :=
  | KeyError (key : string)
  | AttributeError (type attr : string)
  | TypeError (message : string)
  | OperationalError (detail : string).

Inductive result (A : Type) : Type :=
  | Ok (a : A)
  | Raise (e : exn).
Arguments Ok {A} a.
Arguments Raise {A} e.

Definition rbind {A B} (m : result A) (k : A -> result B) : result B :=
  match m with
  | Ok a => k a
  | Raise e => Raise e
  end.

(** [try: body except Exception as e: handler(e)] *)
Definition try_except {A} (body : result A) (handler : exn -> result A) : result A :=
  match body with
  | Ok a => Ok a
  | Raise e => handler e
  end.

(** Truth value of an object, as [if v:] tests it. *)
Definition truthy (v : value) : bool :=
  match v with
  | VNone => false
  | VBool b => b
  | VInt z => negb (z =? 0)%Z
  | VFloat f => negb (PrimFloat.eqb f 0%float)
  | VStr s => negb (String.eqb s "")
  | VList l => negb (Nat.eqb (length l) 0)
  | VDict d => negb (Nat.eqb (length d) 0)
  end.

(** Lookup of a key in a dict. *)
Fixpoint dict_get (k : string) (d : dict) : option value :=
  match d with
  | [] => None
  | (k', v) :: r => if String.eqb k' k then Some v else dict_get k r
  end.

(** Lookup in a table keyed by strings. *)
Fixpoint table_get {A} (k : string) (t : list (string * A)) : option A :=
  match t with
  | [] => None
  | (k', v) :: r => if String.eqb k' k then Some v else table_get k r
  end.

(** [d[k] = v]: overwrites the entry of [k] in place, or adds it last. *)
Fixpoint dict_set (k : string) (v : value) (d : dict) : dict :=
  match d with
  | [] => [(k, v)]
  | (k', v') :: r =>
      if String.eqb k' k then (k, v) :: r else (k', v') :: dict_set k v r
  end.

(** The dict without the entry of [k]. *)
Definition dict_remove (k : string) (d : dict) : dict :=
  filter (fun kv => fst kv <> k) d.

(** [{**a, **b}] *)
Definition dict_update (a b : dict) : dict :=
  fold_left (fun acc kv => dict_set (fst kv) (snd kv) acc) b a.

(** [v.get(k, default)]; only a dict has the method. *)
Definition get (v : value) (k : string) (fallback : value) : result value :=
  match v with
  | VDict d => Ok (default fallback (dict_get k d))
  | _ => Raise (AttributeError (type_name v) "get")
  end.

(** [v[k]] with a string key. *)
Definition item (v : value) (k : string) : result value :=
  match v with
  | VDict d =>
      match dict_get k d with
      | Some x => Ok x
      | None => Raise (KeyError k)
      end
  | VList _ => Raise (TypeError "list indices must be integers or slices, not str")
  | VStr _ => Raise (TypeError "string indices must be integers, not 'str'")
  | _ => Raise (TypeError ("'" ++ type_name v ++ "' object is not subscriptable"))
  end.

(** [v[k] = x] with a string key. *)
Definition set_item (v : value) (k : string) (x : value) : result value :=
  match v with
  | VDict d => Ok (VDict (dict_set k x d))
  | VList _ => Raise (TypeError "list indices must be integers or slices, not str")
  | _ => Raise (TypeError ("'" ++ type_name v
                            ++ "' object does not support item assignment"))
  end.

(** [v == "literal"] *)
Definition is_str (v : value) (s : string) : bool :=
  match v with
  | VStr t => String.eqb t s
  | _ => false
  end.

(** The characters of a string, as [for c in s] yields them. *)
Fixpoint chars (s : string) : list value :=
  match s with
  | EmptyString => []
  | String c r => VStr (String c EmptyString) :: chars r
  end.

(** The elements [for x in v] runs through. *)
Definition iter (v : value) : result (list value) :=
  match v with
  | VList l => Ok l
  | VStr s => Ok (chars s)
  | VDict d => Ok ((fun kv => VStr (fst kv)) <$> d)
  | _ => Raise (TypeError ("'" ++ type_name v ++ "' object is not iterable"))
  end.

(** ["literal" in v] *)
Definition str_in (s : string) (v : value) : result bool :=
  match v with
  | VList l => Ok (existsb (fun x => is_str x s) l)
  | VStr t => Ok (contains s t)
  | VDict d => Ok (bool_decide (is_Some (dict_get s d)))
  | _ => Raise (TypeError ("argument of type '" ++ type_name v ++ "' is not iterable"))
  end.

(** [v[:n]]. A dict has no slices: up to CPython 3.11 the slice object
    cannot be hashed (later versions hash it and miss the key). *)
Definition slice_to (n : nat) (v : value) : result value :=
  match v with
  | VList l => Ok (VList (take n l))
  | VStr s => Ok (VStr (str_take n s))
  | VDict _ => Raise (TypeError "unhashable type: 'slice'")
  | _ => Raise (TypeError ("'" ++ type_name v ++ "' object is not subscriptable"))
  end.

(** [v == 0] *)
Definition eq_zero (v : value) : bool :=
  match v with
  | VInt z => (z =? 0)%Z
  | VBool b => negb b
  | VFloat f => PrimFloat.eqb f 0%float
  | _ => false
  end.

(** [v > 0] *)
Definition gt_zero (v : value) : result bool :=
  match v with
  | VInt z => Ok (0 <? z)%Z
  | VBool b => Ok b
  | VFloat f => Ok (PrimFloat.ltb 0%float f)
  | _ => Raise (TypeError ("'>' not supported between instances of '"
                            ++ type_name v ++ "' and 'int'"))
  end.

(** What [repr] prints for floats, lists and dicts is left to the
    interpreter. *)
Class Repr : Type := {
  repr_float : float -> string;
  repr_list : list value -> string;
  repr_dict : dict -> string }.

(** [str(v)], also what an f-string field prints. *)
Definition str {repr : Repr} (v : value) : string :=
  match v with
  | VNone => "None"
  | VBool true => "True"
  | VBool false => "False"
  | VInt z => pretty z
  | VFloat f => repr_float f
  | VStr s => s
  | VList l => repr_list l
  | VDict d => repr_dict d
  end.

(** [str(e)] for an exception. *)
Definition exn_str (e : exn) : string :=
  match e with
  | KeyError key => "'" ++ key ++ "'"
  | AttributeError type attr =>
      "'" ++ type ++ "' object has no attribute '" ++ attr ++ "'"
  | TypeError message => message
  | OperationalError detail => detail
  end.

(** The newline character and the double quote. *)
Definition nl : string := String (ascii_of_nat 10) EmptyString.
Definition dq : string := String (ascii_of_nat 34) EmptyString.

(** [[f(x) for x in l]] where [f] may raise. *)
Fixpoint mapM {A B} (f : A -> result B) (l : list A) : result (list B) :=
  match l with
  | [] => Ok []
  | x :: r =>
      rbind (f x) (fun y => rbind (mapM f r) (fun ys => Ok (y :: ys)))
  end.

(** [enumerate(l, start)] *)
Fixpoint enumerate {A} (start : Z) (l : list A) : list (Z * A) :=
  match l with
  | [] => []
  | x :: r => (start, x) :: enumerate (start + 1) r
  end.

(** [s.replace(old, new)] for a non-empty [old]: the occurrences are taken
    left to right, without overlap. [skip] counts the characters of a
    replaced occurrence still to pass over. *)
Fixpoint replace_from (old new : string) (skip : nat) (s : string) : string :=
  match s with
  | EmptyString => EmptyString
  | String c r =>
      match skip with
      | S k => replace_from old new k r
      | O =>
          if startswith old s
          then new ++ replace_from old new (String.length old - 1) r
          else String c (replace_from old new 0 r)
      end
  end.

Definition replace (old new s : string) : string := replace_from old new 0 s.

End Py.

Notation "'let*' x := m 'in' k" := (Py.rbind m (fun x => k))
  (at level 10, x name, m at level 100, k at level 200).

(** ** agents/sales_agent.py *)

Module SalesAgent.
Import Py.

(** The labels [_detect_intent] returns (string literals in the source). *)
Inductive intent : Type :=
  | view_cart | purchase_intent | browsing | needs_help
  | greeting | complaint | general.

Definition intent_name (i : intent) : string :=
  match i with
  | view_cart => "view_cart"
  | purchase_intent => "purchase_intent"
  | browsing => "browsing"
  | needs_help => "needs_help"
  | greeting => "greeting"
  | complaint => "complaint"
  | general => "general"
  end.

Definition cart_words : list string :=
  ["cart"; "basket"; "bag"; "what did i add"; "show cart"; "view cart"; "my items"].
Definition purchase_words : list string := ["buy"; "purchase"; "checkout"; "order"].
Definition browsing_words : list string :=
  ["looking"; "browse"; "show"; "find"; "search"; "need"].
Definition help_words : list string :=
  ["help"; "question"; "how"; "what"; "where"; "when"; "available"; "stock"].
Definition greeting_words : list string :=
  ["hi"; "hello"; "hey"; "good morning"; "good afternoon"].
Definition complaint_words : list string :=
  ["problem"; "issue"; "wrong"; "broken"; "return"; "refund"].

(** [SalesAgent._detect_intent] *)
Definition _detect_intent (message : string) : intent :=
  let message_lower := lower message in
  if any_in cart_words message_lower then view_cart
  else if any_in purchase_words message_lower then purchase_intent
  else if any_in browsing_words message_lower then browsing
  else if any_in help_words message_lower then needs_help
  else if any_in greeting_words message_lower then greeting
  else if any_in complaint_words message_lower then complaint
  else general.

(** [SalesAgent._needs_worker_agents] *)
Definition _needs_worker_agents (i : intent) : list string :=
  match i with
  | browsing | general => ["recommendation"; "inventory"]
  | purchase_intent => ["inventory"; "loyalty"; "payment"]
  | needs_help => ["inventory"]
  | _ => []
  end.

(** The classifier as the design document words it: an ordered list of
    (label, keyword set) pairs, the label of the first set with a match in
    the lower-cased text, else the default. *)
Fixpoint first_match (table : list (intent * list string)) (default : intent)
    (text : string) : intent :=
  match table with
  | [] => default
  | (label, words) :: rest =>
      if any_in words text then label else first_match rest default text
  end.

Definition priority_table : list (intent * list string) :=
  [ (view_cart, cart_words); (purchase_intent, purchase_words);
    (browsing, browsing_words); (needs_help, help_words);
    (greeting, greeting_words); (complaint, complaint_words) ].

(** [SalesAgent._extract_suggestions] *)
Definition _extract_suggestions (ai_response : value) (i : intent) : result value :=
  match ai_response with
  | VStr text =>
      let response_lower := lower text in
      let suggestions : list string :=
        ((if contains "dress" response_lower then ["Browse Dresses"] else [])
         ++ (if contains "shoes" response_lower || contains "footwear" response_lower
             then ["Browse Shoes"] else [])
         ++ (if contains "accessories" response_lower || contains "jewelry" response_lower
             then ["Browse Accessories"] else [])
         ++ match i with
            | browsing => ["See Recommendations"]
            | purchase_intent => ["View Cart"; "Checkout"]
            | needs_help => ["Talk to Specialist"]
            | _ => []
            end)%list in
      Ok (VList (VStr <$> take 3 suggestions))
  | _ => Raise (AttributeError (type_name ai_response) "lower")
  end.

(** [SalesAgent._determine_next_actions] *)
Definition _determine_next_actions (i : intent) : list string :=
  match i with
  | browsing => ["get_recommendations"; "check_inventory"]
  | purchase_intent => ["prepare_checkout"; "apply_discounts"]
  | needs_help => ["check_inventory"; "get_product_details"]
  | _ => []
  end.

(** The fixed part of the system prompt. *)
Definition base_prompt : string :=
  String.concat nl
    ["You are an expert sales associate for a premium retail brand.";
     "";
     "Your goals:";
     "1. Understand customer needs through friendly, open-ended questions";
     "2. Suggest products that match their style, occasion, and budget";
     "3. Create gentle urgency without being pushy";
     "4. Naturally upsell complementary items";
     "5. Guide customers toward purchase decisions";
     "6. Handle objections with empathy and alternatives";
     "";
     "Conversation style:";
     "- Warm, enthusiastic, and helpful";
     "- Ask one question at a time";
     "- Listen carefully to preferences";
     "- Suggest specific items with compelling reasons";
     "- Use social proof (" ++ dq ++ "This is our bestseller..." ++ dq ++ ")";
     "- Create FOMO when appropriate (" ++ dq ++ "Only a few left..." ++ dq ++ ")";
     "";
     "Remember: Your goal is to help them find the perfect items and "
       ++ "increase their cart value naturally."].

Section Conversation.
Context {repr : Repr}.

(** [BaseAgent._call_ai] with the sales agent's temperature and token
    limit: the reply of the language model to a system prompt and a user
    message. It catches its own failures and returns a text for them; the
    content of a reply can be [None]. *)
Variable _call_ai : string -> value -> value.

(** [SalesAgent._build_system_prompt] *)
Definition _build_system_prompt (customer_info : value) : result string :=
  if truthy customer_info then
    let line (key before after : string) (text : string) : result string :=
      let* v := get customer_info key VNone in
      if truthy v then
        let* x := item customer_info key in
        Ok (text ++ nl ++ before ++ str x ++ after)
      else Ok text in
    let context_addition := nl ++ nl ++ "Customer Information:" in
    let* context_addition := line "name" "- Name: " "" context_addition in
    let* context_addition :=
      line "loyalty_tier" "- Loyalty Status: " " member" context_addition in
    let* context_addition := line "preferences" "- Preferences: " "" context_addition in
    let* context_addition := line "budget" "- Budget: $" "" context_addition in
    Ok (base_prompt ++ context_addition)
  else Ok base_prompt.

(** [SalesAgent.execute] *)
Definition execute (context : value) : result value :=
  let* message := get context "message" (VStr "") in
  let* customer_info := get context "customer_info" (VDict []) in
  let* conversation_history := get context "conversation_history" (VList []) in
  let* system_prompt := _build_system_prompt customer_info in
  let ai_response := _call_ai system_prompt message in
  let* i :=
    match message with
    | VStr text => Ok (_detect_intent text)
    | _ => Raise (AttributeError (type_name message) "lower")
    end in
  let* suggestions := _extract_suggestions ai_response i in
  Ok (VDict [("response", ai_response);
             ("intent", VStr (intent_name i));
             ("suggestions", suggestions);
             ("next_actions", VList (VStr <$> _determine_next_actions i));
             ("requires_worker_agents", VList (VStr <$> _needs_worker_agents i))]).

End Conversation.

End SalesAgent.

(** ** services/context_manager.py *)

Module CartLine.
(** One entry of the [cart] JSON list of a chat session. *)
Record t : Type := mk { product_id : Z; quantity : Z; added_at : string }.

#[global] Instance eq_dec : EqDecision t.
Proof. solve_decision. Defined.

Definition set_quantity (q : Z) (item : t) : t :=
  {| product_id := product_id item; quantity := q; added_at := added_at item |}.
End CartLine.

Module Message.
Record t : Type := mk { role : string; content : string; timestamp : string }.
End Message.

Module ChatSession.
(** A row of [chat_sessions]; the row is keyed by its [session_id]. The
    free-form [context] map is kept as a list of key/value strings. *)
Record t : Type := mk {
  customer_id : option Z;
  channel : string;
  context : list (string * string);
  messages : list Message.t;
  cart : list CartLine.t;
  is_active : bool }.

(** The row with its [cart] column replaced. *)
Definition set_cart (c : list CartLine.t) (s : t) : t :=
  {| customer_id := customer_id s; channel := channel s; context := context s;
     messages := messages s; cart := c; is_active := is_active s |}.
End ChatSession.

Module Product.
(** The columns of [products] that the cart reads; the row is keyed by [id]. *)
Record t (F : Type) : Type := mk {
  name : string;
  brand : option string;
  price : F;
  images : list string }.
Arguments mk {F}.
Arguments name {F}.
Arguments brand {F}.
Arguments price {F}.
Arguments images {F}.
End Product.

(** Python's float arithmetic as [get_cart] uses it, as an interface:
    [float(price) * quantity], [sum] over floats, [round(x, 2)] and the
    literal [0.0]. [round(sum([]), 2)] is [0], which Python equates with
    [0.0]. *)
Class PyFloat (F : Type) : Type := {
  float_zero : F;
  float_mul_int : F -> Z -> F;
  float_sum : list F -> F;
  round2 : F -> F;
  round2_sum_nil : round2 (float_sum []) = float_zero }.

Module CartItem.
(** One entry of the priced cart [get_cart] returns. *)
Record t (F : Type) : Type := mk {
  product_id : Z;
  name : string;
  price : F;
  brand : option string;
  image : option string;
  quantity : Z;
  subtotal : F }.
Arguments mk {F}.
Arguments product_id {F}.
Arguments name {F}.
Arguments price {F}.
Arguments brand {F}.
Arguments image {F}.
Arguments quantity {F}.
Arguments subtotal {F}.
End CartItem.

Module ContextManager.
Import Py.

Section Store.
Context {F : Type} {arith : PyFloat F}.

(** The database: the two tables the context manager touches. It answers
    every query and takes every commit. *)
Record DB : Type := mkDB {
  chat_sessions : gmap string ChatSession.t;
  products : gmap Z (Product.t F) }.

(** Code that reads and writes the database threads it through. *)
Definition M (A : Type) : Type := DB -> A * DB.
Definition ret {A} (a : A) : M A := fun db => (a, db).
Definition bind {A B} (m : M A) (k : A -> M B) : M B :=
  fun db => let (a, db') := m db in k a db'.

(** [db.query(ChatSession).filter(ChatSession.session_id == sid).first()] *)
Definition query_session (sid : string) : M (option ChatSession.t) :=
  fun db => (chat_sessions db !! sid, db).

(** [db.query(Product).filter(Product.id == pid).first()] *)
Definition query_product (pid : Z) : M (option (Product.t F)) :=
  fun db => (products db !! pid, db).

(** Assigning the row's attributes and [db.commit()]. *)
Definition commit_session (sid : string) (s : ChatSession.t) : M unit :=
  fun db => (tt, {| chat_sessions := <[sid := s]> (chat_sessions db);
                    products := products db |}).

(** The database once the row [s] of [sid] is stored with the cart [cart]. *)
Definition committed (sid : string) (s : ChatSession.t)
    (cart : list CartLine.t) (db : DB) : DB :=
  {| chat_sessions := <[sid := ChatSession.set_cart cart s]> (chat_sessions db);
     products := products db |}.

(** [ContextManager.create_session]; the fresh token comes from [uuid4]. *)
Definition create_session (token : string) (customer_id : option Z)
    (channel : string) : M string :=
  let session_id := "session-" ++ token in
  bind (commit_session session_id
          (ChatSession.mk customer_id channel [] [] [] true))
       (fun _ => ret session_id).

(** [ContextManager.get_session] *)
Definition get_session (session_id : string) : M (option ChatSession.t) :=
  query_session session_id.

(** [ContextManager.update_session]: each argument that is not [None]
    replaces the field. *)
Definition update_session (session_id : string)
    (context : option (list (string * string)))
    (messages : option (list Message.t))
    (cart : option (list CartLine.t))
    (channel : option string) : M bool :=
  bind (query_session session_id) (fun session =>
  match session with
  | None => ret false
  | Some s =>
      bind (commit_session session_id
              (ChatSession.mk (ChatSession.customer_id s)
                 (default (ChatSession.channel s) channel)
                 (default (ChatSession.context s) context)
                 (default (ChatSession.messages s) messages)
                 (default (ChatSession.cart s) cart)
                 (ChatSession.is_active s)))
           (fun _ => ret true)
  end).

(** What the cart mutations return: the not-found record, or the updated
    cart with its counts. *)
Inductive cart_reply : Type :=
  | Failure (message : string)
  | CartState (success : bool) (cart : list CartLine.t)
              (cart_count : nat) (total_items : Z).

Definition cart_state (success : bool) (cart : list CartLine.t) : cart_reply :=
  CartState success cart (length cart) (int_sum (CartLine.quantity <$> cart)).

(** [item["product_id"] == product_id] *)
Definition is_line_of (product_id : Z) (item : CartLine.t) : Prop :=
  CartLine.product_id item = product_id.

#[global] Instance is_line_of_dec product_id item :
  Decision (is_line_of product_id item).
Proof. unfold is_line_of. apply _. Defined.

(** The entries of a product in a cart. *)
Definition lines_of (product_id : Z) (cart : list CartLine.t) : list CartLine.t :=
  filter (is_line_of product_id) cart.

(** The invariant of the data model: at most one entry per product. *)
Definition one_line_per_product (cart : list CartLine.t) : Prop :=
  NoDup (CartLine.product_id <$> cart).

(** The cart after [add_to_cart]'s update: the first entry of the product
    is changed in place, or a new entry is appended. *)
Definition add_line (now : string) (product_id quantity : Z)
    (cart : list CartLine.t) : list CartLine.t :=
  match list_find (is_line_of product_id) cart with
  | Some (i, existing_item) =>
      alter (CartLine.set_quantity (CartLine.quantity existing_item + quantity)) i cart
  | None => cart ++ [CartLine.mk product_id quantity now]
  end.

(** [ContextManager.add_to_cart]; [now] is [datetime.now().isoformat()]. *)
Definition add_to_cart (now : string) (session_id : string)
    (product_id quantity : Z) : M cart_reply :=
  bind (get_session session_id) (fun session =>
  match session with
  | None => ret (Failure "Session not found")
  | Some s =>
      let cart := add_line now product_id quantity (ChatSession.cart s) in
      bind (update_session session_id None None (Some cart) None) (fun success =>
      ret (cart_state success cart))
  end).

(** [ContextManager.remove_from_cart] *)
Definition remove_from_cart (session_id : string) (product_id : Z) : M cart_reply :=
  bind (get_session session_id) (fun session =>
  match session with
  | None => ret (Failure "Session not found")
  | Some s =>
      let cart := filter (fun item => ~ is_line_of product_id item) (ChatSession.cart s) in
      bind (update_session session_id None None (Some cart) None) (fun success =>
      ret (cart_state success cart))
  end).

(** The loop of [update_cart_quantity]: it stops at the first entry of the
    product, which it removes with [cart.remove(item)] or overwrites. *)
Definition set_line (product_id quantity : Z)
    (cart : list CartLine.t) : list CartLine.t :=
  match list_find (is_line_of product_id) cart with
  | Some (i, item) =>
      if (quantity <=? 0)%Z then list_remove item cart
      else alter (CartLine.set_quantity quantity) i cart
  | None => cart
  end.

(** [ContextManager.update_cart_quantity] *)
Definition update_cart_quantity (session_id : string)
    (product_id quantity : Z) : M cart_reply :=
  bind (get_session session_id) (fun session =>
  match session with
  | None => ret (Failure "Session not found")
  | Some s =>
      let cart := set_line product_id quantity (ChatSession.cart s) in
      bind (update_session session_id None None (Some cart) None) (fun success =>
      ret (cart_state success cart))
  end).

(** What [get_cart] returns: the not-found record or the priced view. *)
Inductive view_reply : Type :=
  | NoView (message : string)
  | CartView (cart : list (CartItem.t F)) (cart_count : nat)
             (total_items : Z) (subtotal : F).

(** The entry [get_cart] builds for a cart line whose product was found. *)
Definition priced (item : CartLine.t) (product : Product.t F) : CartItem.t F :=
  {| CartItem.product_id := CartLine.product_id item;
     CartItem.name := Product.name product;
     CartItem.price := Product.price product;
     CartItem.brand := Product.brand product;
     CartItem.image := head (Product.images product);
     CartItem.quantity := CartLine.quantity item;
     CartItem.subtotal :=
       float_mul_int (Product.price product) (CartLine.quantity item) |}.

(** The [for item in cart] loop of [get_cart], one product query per line. *)
Fixpoint price_lines (cart : list CartLine.t)
    (cart_with_details : list (CartItem.t F)) : M (list (CartItem.t F)) :=
  match cart with
  | [] => ret cart_with_details
  | item :: rest =>
      bind (query_product (CartLine.product_id item)) (fun product =>
      match product with
      | Some p => price_lines rest (cart_with_details ++ [priced item p])
      | None => price_lines rest cart_with_details
      end)
  end.

(** [ContextManager.get_cart] *)
Definition get_cart (session_id : string) : M view_reply :=
  bind (get_session session_id) (fun session =>
  match session with
  | None => ret (NoView "Session not found")
  | Some s =>
      match ChatSession.cart s with
      | [] => ret (CartView [] 0 0 float_zero)
      | cart =>
          bind (price_lines cart []) (fun cart_with_details =>
          let total := float_sum (CartItem.subtotal <$> cart_with_details) in
          ret (CartView cart_with_details (length cart_with_details)
                 (int_sum (CartItem.quantity <$> cart_with_details))
                 (round2 total)))
      end
  end).

(** [ContextManager.clear_cart] *)
Definition clear_cart (session_id : string) : M bool :=
  update_session session_id None None (Some []) None.

(** [ContextManager.add_message]; [now] is [datetime.now().isoformat()]. *)
Definition add_message (now : string) (session_id role content : string) : M bool :=
  bind (get_session session_id) (fun session =>
  match session with
  | None => ret false
  | Some s =>
      let messages := (ChatSession.messages s ++ [Message.mk role content now])%list in
      update_session session_id None (Some messages) None None
  end).

(** What [switch_channel] returns. *)
Inductive switch_reply : Type :=
  | SwitchFailed (message : string)
  | Switched (message session_id new_channel : string)
             (cart_items conversation_messages : nat).

(** [ContextManager.switch_channel] *)
Definition switch_channel (session_id new_channel : string) : M switch_reply :=
  bind (get_session session_id) (fun session =>
  match session with
  | None => ret (SwitchFailed "Session not found")
  | Some s =>
      let old_channel := ChatSession.channel s in
      bind (update_session session_id None None None (Some new_channel)) (fun success =>
      ret (if success : bool
           then Switched ("Switched from " ++ old_channel ++ " to " ++ new_channel)
                  session_id new_channel (length (ChatSession.cart s))
                  (length (ChatSession.messages s))
           else SwitchFailed "Channel switch failed"))
  end).

(** [ContextManager.end_session] *)
Definition end_session (session_id : string) : M bool :=
  bind (query_session session_id) (fun session =>
  match session with
  | Some s =>
      bind (commit_session session_id
              (ChatSession.mk (ChatSession.customer_id s) (ChatSession.channel s)
                 (ChatSession.context s) (ChatSession.messages s)
                 (ChatSession.cart s) false))
           (fun _ => ret true)
  | None => ret false
  end).

(** One call of a session or cart operation of the context manager, as the
    HTTP layer and the orchestrator make them. *)
Inductive call : DB -> DB -> Prop :=
  | call_create_session token customer_id channel db :
      call db (create_session token customer_id channel db).2
  | call_add_message now sid role content db :
      call db (add_message now sid role content db).2
  | call_add_to_cart now sid product_id quantity db :
      call db (add_to_cart now sid product_id quantity db).2
  | call_remove_from_cart sid product_id db :
      call db (remove_from_cart sid product_id db).2
  | call_update_cart_quantity sid product_id quantity db :
      call db (update_cart_quantity sid product_id quantity db).2
  | call_get_cart sid db : call db (get_cart sid db).2
  | call_switch_channel sid new_channel db :
      call db (switch_channel sid new_channel db).2
  | call_clear_cart sid db : call db (clear_cart sid db).2
  | call_end_session sid db : call db (end_session sid db).2.

(** Every stored cart has at most one entry per product. *)
Definition carts_well_formed (db : DB) : Prop :=
  forall sid s, chat_sessions db !! sid = Some s ->
                one_line_per_product (ChatSession.cart s).

(** The databases these calls lead to from one without sessions. *)
Inductive reachable : DB -> Prop :=
  | reachable_start catalog : reachable {| chat_sessions := ∅; products := catalog |}
  | reachable_call db db' : reachable db -> call db db' -> reachable db'.

End Store.
End ContextManager.

(** ** IEEE binary64, the floats of CPython *)

Module Binary64.

(** [float(n)] for an integer: the nearest binary64, ties to even. (An
    integer beyond the binary64 range gives an infinity here; Python refuses
    to convert it.) *)
Definition float_of_Z (z : Z) : float :=
  SF2Prim (binary_normalize prec emax z 0 false).

(** [a * 2^e] rounded to an integer, ties to even. *)
Definition round_half_even (a e : Z) : Z :=
  match e with
  | Zneg p =>
      let d := Z.pow_pos 2 p in
      let (q, r) := Z.div_eucl a d in
      match (2 * r ?= d)%Z with
      | Lt => q
      | Gt => (q + 1)%Z
      | Eq => if Z.even q then q else (q + 1)%Z
      end
  | _ => (a * 2 ^ e)%Z
  end.

(** [round(x, 2)] on a float: the exact value of [x] is rounded to a
    multiple of 1/100, ties to even, and that decimal is read back as the
    nearest binary64. Infinities and NaN are returned as they are. *)
Definition round_2dp (x : float) : float :=
  match Prim2SF x with
  | S754_finite s m e =>
      match round_half_even (Zpos m * 100) e with
      | Zpos k =>
          SF2Prim (SFdiv prec emax (S754_finite s k 0) (S754_finite false 100 0))
      | _ => SF2Prim (S754_zero s)
      end
  | _ => x
  end.

(** [sum(xs)] from the integer [0], adding left to right. (CPython 3.12
    and later compensate the rounding errors of the partial sums; the two
    agree whenever the partial sums are exact.) *)
Definition sum_floats (xs : list float) : float :=
  fold_left PrimFloat.add xs 0%float.

#[global] Instance py_float : PyFloat float.
Proof.
  refine {| float_zero := 0%float;
            float_mul_int := fun p q => PrimFloat.mul p (float_of_Z q);
            float_sum := sum_floats;
            round2 := round_2dp |}.
  vm_compute. reflexivity.
Defined.

End Binary64.

(** ** services/channel_adapters.py *)

Module ChannelAdapters.
Import Py.

(** [BaseChannelAdapter._truncate_text]. [len] and slicing count the
    characters of the model's strings. *)
Definition _truncate_text (text : value) (max_length : nat) : result value :=
  match text with
  | VStr s =>
      Ok (VStr (if (String.length s <=? max_length)%nat then s
                else str_take (max_length - 3) s ++ "..."))
  | VList l =>
      if (length l <=? max_length)%nat then Ok text
      else Raise (TypeError ("can only concatenate list (not " ++ dq ++ "str"
                             ++ dq ++ ") to list"))
  | VDict d =>
      if (length d <=? max_length)%nat then Ok text
      else Raise (TypeError "unhashable type: 'slice'")
  | _ => Raise (TypeError ("object of type '" ++ type_name text ++ "' has no len()"))
  end.

Definition button (type label : string) : value :=
  VDict [("type", VStr type); ("label", VStr label)].

(** [if ai_response.get(key): formatted[out] = render(ai_response[key])] *)
Definition when_present (ai_response : value) (key out : string)
    (render : value -> result value) (formatted : dict) : result dict :=
  let* v := get ai_response key VNone in
  if truthy v then
    let* r := render v in
    Ok (dict_set out r formatted)
  else Ok formatted.

(** [[render(x) for x in v[:n]]] *)
Definition render_first (n : nat) (render : value -> result value)
    (v : value) : result value :=
  let* first := slice_to n v in
  let* l := iter first in
  let* rendered := mapM render l in
  Ok (VList rendered).

(** [[render(x) for x in v]] *)
Definition render_all (render : value -> result value) (v : value) : result value :=
  let* l := iter v in
  let* rendered := mapM render l in
  Ok (VList rendered).

Module WebChatAdapter.

(** One product card of [format_recommendations]. *)
Definition product_card (rec : value) : result value :=
  let* product_id := get rec "product_id" VNone in
  let* image := get rec "image" (VStr "/placeholder.jpg") in
  let* name := get rec "name" VNone in
  let* brand := get rec "brand" VNone in
  let* price := get rec "price" VNone in
  let* original_price := get rec "original_price" VNone in
  let* rating := get rec "rating" VNone in
  let* reason_text := get rec "reason" (VStr "") in
  let* reason := _truncate_text reason_text 100 in
  let* in_stock := get rec "in_stock" (VBool true) in
  Ok (VDict [("product_id", product_id); ("image", image); ("name", name);
             ("brand", brand); ("price", price);
             ("original_price", original_price); ("rating", rating);
             ("reason", reason); ("in_stock", in_stock);
             ("actions", VList [button "view_details" "View Details";
                                button "add_to_cart" "Add to Cart"])]).

(** [WebChatAdapter.format_recommendations]: [for rec in recommendations[:6]]. *)
Definition format_recommendations (recommendations : value) : result value :=
  render_first 6 product_card recommendations.

(** [WebChatAdapter.format_cart] *)
Definition format_cart (cart_data : value) : result value :=
  let* items := get cart_data "cart" (VList []) in
  let* count := get cart_data "cart_count" (VInt 0) in
  let* subtotal := get cart_data "subtotal" (VInt 0) in
  Ok (VDict [("items", items); ("count", count); ("subtotal", subtotal);
             ("actions", VList [button "view_cart" "View Cart";
                                button "checkout" "Checkout"])]).

Definition quick_reply (suggestion : value) : result value :=
  Ok (VDict [("type", VStr "button"); ("text", suggestion);
             ("action", VStr "send_message"); ("payload", suggestion)]).

Definition action_button (action : value) : result value :=
  let* type := get action "type" VNone in
  let* label := get action "label" VNone in
  let* description := get action "description" VNone in
  Ok (VDict [("type", type); ("label", label); ("description", description)]).

Definition loyalty_badge (loyalty_info : value) : result value :=
  let* tier := get loyalty_info "tier" VNone in
  let* points := get loyalty_info "points" VNone in
  Ok (VDict [("tier", tier); ("points", points)]).

(** [WebChatAdapter.format_message] *)
Definition format_message (ai_response : value) : result value :=
  let* message := get ai_response "message" (VStr "") in
  let* timestamp := get ai_response "timestamp" VNone in
  let* intent := get ai_response "intent" VNone in
  let formatted :=
    [("type", VStr "chat_message"); ("channel", VStr "web");
     ("message", message); ("timestamp", timestamp); ("intent", intent)] in
  let* formatted :=
    when_present ai_response "suggestions" "quick_replies"
      (render_first 4 quick_reply) formatted in
  let* formatted :=
    when_present ai_response "recommendations" "product_cards"
      format_recommendations formatted in
  let* formatted :=
    when_present ai_response "cart" "cart_widget" format_cart formatted in
  let* formatted :=
    when_present ai_response "loyalty_info" "loyalty_badge" loyalty_badge formatted in
  let* formatted :=
    when_present ai_response "actions" "action_buttons"
      (render_all action_button) formatted in
  Ok (VDict formatted).

End WebChatAdapter.

Module InStoreAdapter.

(** [InStoreAdapter._simplify_for_voice] *)
Definition _simplify_for_voice (text : value) : result value :=
  match text with
  | VStr s =>
      Ok (VStr (replace "💰" "" (replace "✨" "" (replace "*" "" (replace "**" "" s)))))
  | _ => Raise (AttributeError (type_name text) "replace")
  end.

(** [InStoreAdapter._generate_aisle_location]: a lookup in a dict keyed by
    the integers 1, 2 and 3, which [True] and the floats of the same value
    also hit; a list or dict cannot be a key. *)
Definition _generate_aisle_location (product_id : value) : result value :=
  let aisle (n : Z) : value :=
    if (n =? 1)%Z then VStr "Aisle 3, Section B"
    else if (n =? 2)%Z then VStr "Aisle 5, Section A"
    else if (n =? 3)%Z then VStr "Aisle 2, Section C"
    else VStr "Ask Associate" in
  match product_id with
  | VInt n => Ok (aisle n)
  | VBool b => Ok (aisle (if b then 1 else 0)%Z)
  | VFloat f =>
      Ok (if PrimFloat.eqb f 1%float then aisle 1%Z
          else if PrimFloat.eqb f 2%float then aisle 2%Z
          else if PrimFloat.eqb f 3%float then aisle 3%Z
          else VStr "Ask Associate")
  | VList _ | VDict _ =>
      Raise (TypeError ("unhashable type: '" ++ type_name product_id ++ "'"))
  | _ => Ok (VStr "Ask Associate")
  end.

(** One tile of [format_recommendations]. *)
Definition product_tile (rec : value) : result value :=
  let* product_id := get rec "product_id" VNone in
  let* name := get rec "name" VNone in
  let* price := get rec "price" VNone in
  let* image := get rec "image" VNone in
  let* location := _generate_aisle_location product_id in
  let* available_now := get rec "in_stock" (VBool true) in
  Ok (VDict [("product_id", product_id); ("name", name); ("price", price);
             ("image", image); ("location", location);
             ("available_now", available_now)]).

(** [InStoreAdapter.format_recommendations]: [for rec in recommendations[:4]]. *)
Definition format_recommendations (recommendations : value) : result value :=
  render_first 4 product_tile recommendations.

(** One tile of [format_message]. *)
Definition message_tile (rec : value) : result value :=
  let* product_id := get rec "product_id" VNone in
  let* image := get rec "image" VNone in
  let* name := get rec "name" VNone in
  let* price := get rec "price" VNone in
  let* in_stock_here := get rec "in_stock" (VBool true) in
  let* aisle := _generate_aisle_location product_id in
  Ok (VDict [("product_id", product_id); ("image", image); ("name", name);
             ("price", price); ("in_stock_here", in_stock_here); ("aisle", aisle)]).

(** [InStoreAdapter.format_cart] *)
Definition format_cart (cart_data : value) : result value :=
  let* items := get cart_data "cart" (VList []) in
  let* count := get cart_data "cart_count" (VInt 0) in
  let* subtotal := get cart_data "subtotal" (VInt 0) in
  Ok (VDict [("items", items); ("count", count); ("subtotal", subtotal);
             ("checkout_options",
              VList [button "self_checkout" "Self Checkout";
                     button "assisted_checkout" "Checkout with Associate"])]).

(** [InStoreAdapter.format_message] *)
Definition format_message (ai_response : value) : result value :=
  let* display_text := get ai_response "message" (VStr "") in
  let* voice_text := _simplify_for_voice display_text in
  let* timestamp := get ai_response "timestamp" VNone in
  let formatted :=
    [("type", VStr "kiosk_message"); ("channel", VStr "instore");
     ("display_text", display_text); ("voice_text", voice_text);
     ("timestamp", timestamp)] in
  let* formatted :=
    when_present ai_response "recommendations" "product_tiles"
      (render_first 4 message_tile) formatted in
  let formatted :=
    dict_set "staff_assistance"
      (VDict [("available", VBool true);
              ("message", VStr "Need help? A store associate can assist you");
              ("action", VStr "call_associate")]) formatted in
  let* session_id := get ai_response "session_id" VNone in
  Ok (VDict (dict_set "qr_code"
               (VDict [("available", VBool true);
                       ("message", VStr "Scan to continue shopping on your phone");
                       ("session_id", session_id)]) formatted)).

End InStoreAdapter.

Module MobileAdapter.

(** [MobileAdapter._action_to_icon] *)
Definition _action_to_icon (action_type : value) : result value :=
  match action_type with
  | VStr t =>
      Ok (VStr (if String.eqb t "view_product" then "eye"
                else if String.eqb t "add_to_cart" then "cart"
                else if String.eqb t "checkout" then "credit-card"
                else if String.eqb t "view_cart" then "shopping-bag"
                else "info"))
  | VList _ | VDict _ =>
      Raise (TypeError ("unhashable type: '" ++ type_name action_type ++ "'"))
  | _ => Ok (VStr "info")
  end.

(** One card of [format_recommendations]. *)
Definition compact_card (rec : value) : result value :=
  let* product_id := get rec "product_id" VNone in
  let* image := get rec "image" VNone in
  let* name_text := get rec "name" (VStr "") in
  let* name := _truncate_text name_text 40 in
  let* price := get rec "price" VNone in
  let* rating := get rec "rating" VNone in
  Ok (VDict [("product_id", product_id); ("image", image); ("name", name);
             ("price", price); ("rating", rating); ("quick_add", VBool true)]).

(** [MobileAdapter.format_recommendations]: [for rec in recommendations]. *)
Definition format_recommendations (recommendations : value) : result value :=
  render_all compact_card recommendations.

(** [MobileAdapter.format_cart] *)
Definition format_cart (cart_data : value) : result value :=
  let* items := get cart_data "cart" (VList []) in
  let* count := get cart_data "cart_count" (VInt 0) in
  let* subtotal := get cart_data "subtotal" (VInt 0) in
  Ok (VDict [("items", items); ("count", count); ("subtotal", subtotal);
             ("swipe_to_checkout", VBool true)]).

Definition fab_action (action : value) : result value :=
  let* type := get action "type" VNone in
  let* icon := _action_to_icon type in
  let* label := get action "label" VNone in
  Ok (VDict [("type", type); ("icon", icon); ("label", label)]).

(** [MobileAdapter.format_message] *)
Definition format_message (ai_response : value) : result value :=
  let* message := get ai_response "message" (VStr "") in
  let* timestamp := get ai_response "timestamp" VNone in
  let formatted :=
    [("type", VStr "mobile_message"); ("channel", VStr "mobile");
     ("message", message); ("timestamp", timestamp)] in
  let* formatted :=
    when_present ai_response "recommendations" "horizontal_products"
      format_recommendations formatted in
  let* formatted :=
    when_present ai_response "cart" "cart_sheet" format_cart formatted in
  let* formatted :=
    when_present ai_response "actions" "fab_actions"
      (render_first 3 fab_action) formatted in
  Ok (VDict formatted).

End MobileAdapter.

Module WhatsAppAdapter.
(** The class body defines its methods twice; the second definitions are
    the ones in force. *)

Section Text.
Context {repr : Repr}.

(** The text that one pass of the loop of [format_recommendations] adds. *)
Definition recommendation_entry (numbered : Z * value) : result string :=
  let (i, rec) := numbered in
  let* name := item rec "name" in
  let* price := item rec "price" in
  let* brand := get rec "brand" (VStr "") in
  let* reason_text := get rec "reason" (VStr "") in
  let* reason := _truncate_text reason_text 80 in
  Ok (str (VInt i) ++ ". *" ++ str name ++ "*" ++ nl
      ++ "   $" ++ str price ++ " | " ++ str brand ++ nl
      ++ "   " ++ str reason ++ nl ++ nl).

(** The entries of [enumerate(recommendations[:3], 1)], rendered. *)
Definition recommendation_entries (recommendations : value) : result (list string) :=
  let* first := slice_to 3 recommendations in
  let* l := iter first in
  mapM recommendation_entry (enumerate 1 l).

(** [WhatsAppAdapter.format_recommendations] *)
Definition format_recommendations (recommendations : value) : result value :=
  let* entries := recommendation_entries recommendations in
  Ok (VStr ("✨ *Recommended Products:*" ++ nl ++ nl ++ String.concat "" entries)).

(** [WhatsAppAdapter.format_cart] *)
Definition format_cart (cart_data : value) : result value :=
  let* cart_count := get cart_data "cart_count" (VInt 0) in
  if eq_zero cart_count then Ok (VStr "🛒 Your cart is empty")
  else
    let* count := item cart_data "cart_count" in
    let* cart := get cart_data "cart" (VList []) in
    let* l := iter cart in
    let* lines :=
      mapM (fun line =>
              let* name := item line "name" in
              let* quantity := item line "quantity" in
              let* price := item line "price" in
              let* subtotal := item line "subtotal" in
              Ok ("• " ++ str name ++ " x" ++ str quantity ++ nl
                  ++ "  $" ++ str price ++ " each = $" ++ str subtotal ++ nl ++ nl)) l in
    let* subtotal := get cart_data "subtotal" (VInt 0) in
    Ok (VStr ("🛒 *Your Cart* (" ++ str count ++ " items)" ++ nl ++ nl
              ++ String.concat "" lines ++ "*Subtotal:* $" ++ str subtotal)).

(** The text [format_message] adds for one recommendation. *)
Definition message_entry (numbered : Z * value) : result string :=
  let (i, rec) := numbered in
  let* name := item rec "name" in
  let* brand := get rec "brand" (VStr "Unknown") in
  let* price := item rec "price" in
  let* rating := get rec "rating" (VStr "N/A") in
  let* reason_text := get rec "reason" (VStr "") in
  let* reason := _truncate_text reason_text 80 in
  Ok (nl ++ str (VInt i) ++ ". *" ++ str name ++ "* by " ++ str brand
      ++ nl ++ "   💰 $" ++ str price
      ++ nl ++ "   ⭐ " ++ str rating ++ "/5"
      ++ nl ++ "   💡 " ++ str reason).

(** [message_parts.append(...)] under [if ai_response.get(key):] *)
Definition parts_when (ai_response : value) (key : string)
    (render : value -> result (list string)) (message_parts : list string)
    : result (list string) :=
  let* v := get ai_response key VNone in
  if truthy v then
    let* more := render v in
    Ok (message_parts ++ more)%list
  else Ok message_parts.

Definition reply_button (suggestion : value) : result value :=
  let* text := _truncate_text suggestion 20 in
  Ok (VDict [("type", VStr "reply"); ("text", text)]).

(** [WhatsAppAdapter.format_message]; [join] wants the message to be a
    string. *)
Definition format_message (ai_response : value) : result value :=
  let* message := get ai_response "message" (VStr "") in
  let* message_parts :=
    parts_when ai_response "recommendations"
      (fun recommendations =>
         let* first := slice_to 3 recommendations in
         let* l := iter first in
         let* entries := mapM message_entry (enumerate 1 l) in
         Ok ((nl ++ nl ++ "✨ *Recommended for you:*") :: entries)) [] in
  let* message_parts :=
    parts_when ai_response "loyalty_info"
      (fun loyalty =>
         let* tier := get loyalty "tier" VNone in
         let* points := get loyalty "points" VNone in
         Ok [nl ++ nl ++ "🏆 *" ++ str tier ++ "* Member | ✨ "
             ++ str points ++ " points"]) message_parts in
  let* message_parts :=
    parts_when ai_response "cart"
      (fun cart =>
         let* cart_count := get cart "cart_count" (VInt 0) in
         let* positive := gt_zero cart_count in
         if positive then
           let* count := item cart "cart_count" in
           let* subtotal := get cart "subtotal" (VInt 0) in
           Ok [nl ++ nl ++ "🛒 *Cart:* " ++ str count ++ " items | Total: $"
               ++ str subtotal]
         else Ok []) message_parts in
  let* full_message :=
    match message with
    | VStr m => Ok (m ++ String.concat "" message_parts)
    | _ => Raise (TypeError ("sequence item 0: expected str instance, "
                             ++ type_name message ++ " found"))
    end in
  let* suggestions := get ai_response "suggestions" VNone in
  let* quick_replies :=
    if truthy suggestions then render_first 3 reply_button suggestions
    else Ok (VList []) in
  let* timestamp := get ai_response "timestamp" VNone in
  Ok (VDict [("type", VStr "whatsapp_message"); ("channel", VStr "whatsapp");
             ("text", VStr full_message); ("quick_replies", quick_replies);
             ("timestamp", timestamp)]).

End Text.
End WhatsAppAdapter.

(** The adapter classes. *)
Inductive adapter : Type := web | whatsapp | instore | mobile.

(** [adapter.channel_name] *)
Definition channel_name (a : adapter) : string :=
  match a with
  | web => "web"
  | whatsapp => "whatsapp"
  | instore => "instore"
  | mobile => "mobile"
  end.

(** The [adapters] table of [get_channel_adapter]. *)
Definition adapters : list (string * adapter) :=
  [("web", web); ("whatsapp", whatsapp); ("instore", instore); ("mobile", mobile)].

(** [get_channel_adapter]: [adapters.get(channel.lower(), WebChatAdapter)]. *)
Definition get_channel_adapter (channel : string) : adapter :=
  default web (table_get (lower channel) adapters).

(** [adapter.format_recommendations(recommendations)] *)
Definition format_recommendations {repr : Repr} (a : adapter) (recommendations : value)
    : result value :=
  match a with
  | web => WebChatAdapter.format_recommendations recommendations
  | whatsapp => WhatsAppAdapter.format_recommendations recommendations
  | instore => InStoreAdapter.format_recommendations recommendations
  | mobile => MobileAdapter.format_recommendations recommendations
  end.

(** [adapter.format_message(ai_response)] *)
Definition format_message {repr : Repr} (a : adapter) (ai_response : value) : result value :=
  match a with
  | web => WebChatAdapter.format_message ai_response
  | whatsapp => WhatsAppAdapter.format_message ai_response
  | instore => InStoreAdapter.format_message ai_response
  | mobile => MobileAdapter.format_message ai_response
  end.

(** The cap each adapter puts on the recommendations it renders; the
    mobile adapter has none. *)
Definition recommendation_cap (a : adapter) : option nat :=
  match a with
  | web => Some 6
  | whatsapp => Some 3
  | instore => Some 4
  | mobile => None
  end.

(** The number of recommendations shown when [n] are supplied. *)
Definition capped (a : adapter) (n : nat) : nat :=
  match recommendation_cap a with
  | Some cap => Nat.min cap n
  | None => n
  end.

(** How many recommendations [format_recommendations] renders: the cards
    or tiles of the list it returns, or, for the WhatsApp text, the numbered
    entries it is made of. *)
Definition rendered_recommendations {repr : Repr} (a : adapter) (recommendations : value)
    : result nat :=
  match a with
  | whatsapp =>
      let* entries := WhatsAppAdapter.recommendation_entries recommendations in
      Ok (length entries)
  | _ =>
      let* rendering := format_recommendations a recommendations in
      Ok (match rendering with VList cards => length cards | _ => 0%nat end)
  end.

(** A recommendation as the recommendation agent builds it: a dict with a
    string [name], a [price], a [reason] that is a string when present, and
    a [product_id] that can be a dict key. *)
Definition well_formed_recommendation (rec : value) : bool :=
  match rec with
  | VDict d =>
      match dict_get "name" d with Some (VStr _) => true | _ => false end
      && bool_decide (is_Some (dict_get "price" d))
      && match dict_get "reason" d with
         | None | Some (VStr _) => true
         | _ => false
         end
      && match dict_get "product_id" d with
         | Some (VList _) | Some (VDict _) => false
         | _ => true
         end
  | _ => false
  end.

End ChannelAdapters.

(** ** agents/inventory_agent.py *)

Module InventoryAgent.
Import Py.

Section Agent.
Context {repr : Repr}.

(** [InventoryAgent._check_product_availability]: the stock of one product
    from the product table. *)
Variable _check_product_availability : value -> value -> value -> result value.

(** The [for product_id in product_ids] loop of [execute]. *)
Fixpoint check_each (quantities customer_location : value)
    (product_ids : list value) (availability_results : dict) : result dict :=
  match product_ids with
  | [] => Ok availability_results
  | product_id :: rest =>
      let* quantity_needed := get quantities (str product_id) (VInt 1) in
      let* availability :=
        _check_product_availability product_id quantity_needed customer_location in
      check_each quantities customer_location rest
        (dict_set (str product_id) availability availability_results)
  end.

(** [InventoryAgent.execute]; [checked_at] is [datetime.now().isoformat()]. *)
Definition execute (checked_at : string) (context : value) : value :=
  let checked :=
    let* product_ids := get context "product_ids" (VList []) in
    let* quantities := get context "quantities" (VDict []) in
    let* customer_location := get context "customer_location" (VStr "online") in
    if negb (truthy product_ids) then
      Ok (VDict [("success", VBool false);
                 ("message", VStr "No products specified");
                 ("availability", VDict [])])
    else
      let* ids := iter product_ids in
      let* availability_results := check_each quantities customer_location ids [] in
      Ok (VDict [("success", VBool true);
                 ("availability", VDict availability_results);
                 ("checked_at", VStr checked_at)]) in
  match checked with
  | Ok r => r
  | Raise e =>
      VDict [("success", VBool false);
             ("message", VStr ("Inventory check failed: " ++ exn_str e));
             ("availability", VDict [])]
  end.

(** [InventoryAgent.check_multiple_products] *)
Definition check_multiple_products (checked_at : string)
    (product_ids quantities customer_location : value) : value :=
  execute checked_at
    (VDict [("product_ids", product_ids);
            ("quantities", if truthy quantities then quantities else VDict []);
            ("customer_location", customer_location)]).

End Agent.
End InventoryAgent.

(** ** agents/orchestrator.py *)

Module Orchestrator.
Import Py.

(** The columns of a [customers] row that [handle_conversation] reads. *)
Record Customer : Type := mkCustomer {
  name : value;
  loyalty_tier : value;
  preferences : value;
  loyalty_points : value }.

(** What a turn calls outside the orchestrator: the language model, the
    worker agents, the stores and the clock. A call that can fail returns a
    [result]. *)
Class Collaborators : Type := {
  _call_ai : string -> value -> value;
  recommendation_agent_execute : value -> result value;
  _check_product_availability : value -> value -> value -> result value;
  get_customer_loyalty_info : value -> result value;
  process_checkout : value -> value -> value -> value -> value -> result value;
  get_cart : value -> result value;
  query_customer : value -> result (option Customer);
  checked_at : string;
  timestamp : string }.

Section Turn.
Context {repr : Repr} {world : Collaborators}.

Definition check_multiple_products (product_ids quantities customer_location : value)
    : value :=
  InventoryAgent.check_multiple_products _check_product_availability checked_at
    product_ids quantities customer_location.

(** The [occasions] table of [_extract_occasion]. *)
Definition occasions : list (string * list string) :=
  [("wedding", ["wedding"; "marriage"; "bridal"]);
   ("birthday", ["birthday"; "bday"]);
   ("work", ["work"; "office"; "professional"; "job"]);
   ("party", ["party"; "celebration"; "event"]);
   ("date", ["date"; "romantic"; "dinner"]);
   ("casual", ["casual"; "everyday"; "weekend"])].

(** [Orchestrator._extract_occasion] *)
Definition _extract_occasion (message : value) : result value :=
  match message with
  | VStr text =>
      let message_lower := lower text in
      Ok (VStr (default ""
                  (fst <$> find (fun entry => any_in (snd entry) message_lower)
                             occasions)))
  | _ => Raise (AttributeError (type_name message) "lower")
  end.

(** [Orchestrator._handle_browsing] *)
Definition _handle_browsing (context required_agents : value) : result dict :=
  let results : dict := [] in
  let* wanted := str_in "recommendation" required_agents in
  let* results :=
    if wanted then
      let* customer_info := get context "customer_info" (VDict []) in
      let* message := get context "message" (VStr "") in
      let* occasion := _extract_occasion message in
      let* budget := get context "budget" VNone in
      let* category := get context "category" VNone in
      let* recommendations :=
        recommendation_agent_execute
          (VDict [("customer_info", customer_info); ("occasion", occasion);
                  ("budget", budget); ("category", category)]) in
      Ok (dict_set "recommendations" recommendations results)
    else Ok results in
  let* wanted := str_in "inventory" required_agents in
  let* results :=
    if wanted && truthy (default VNone (dict_get "recommendations" results)) then
      let* recommended_products :=
        get (default VNone (dict_get "recommendations" results))
          "recommendations" (VList []) in
      if truthy recommended_products then
        let* first := slice_to 3 recommended_products in
        let* l := iter first in
        let* product_ids := mapM (fun p => item p "product_id") l in
        let* location := get context "location" (VStr "online") in
        let inventory := check_multiple_products (VList product_ids) VNone location in
        Ok (dict_set "inventory" inventory results)
      else Ok results
    else Ok results in
  let* customer_id := get context "customer_id" VNone in
  if truthy customer_id then
    let* loyalty_info := get_customer_loyalty_info customer_id in
    Ok (dict_set "loyalty" loyalty_info results)
  else Ok results.

(** The dict comprehension of [_handle_purchase]:
    [{str(item["product_id"]): item.get("quantity", 1) for item in cart_items}]. *)
Fixpoint quantities_of (cart_items : list value) (quantities : dict) : result dict :=
  match cart_items with
  | [] => Ok quantities
  | entry :: rest =>
      let* product_id := item entry "product_id" in
      let* quantity := get entry "quantity" (VInt 1) in
      quantities_of rest (dict_set (str product_id) quantity quantities)
  end.

(** [Orchestrator._handle_purchase] *)
Definition _handle_purchase (context required_agents : value) : result dict :=
  let results : dict := [] in
  let* cart_items := get context "cart_items" (VList []) in
  let* wanted := str_in "inventory" required_agents in
  let* results :=
    if wanted && truthy cart_items then
      let* l := iter cart_items in
      let* product_ids := mapM (fun entry => item entry "product_id") l in
      let* quantities := quantities_of l [] in
      let* location := get context "location" (VStr "online") in
      let inventory :=
        check_multiple_products (VList product_ids) (VDict quantities) location in
      Ok (dict_set "inventory" inventory results)
    else Ok results in
  let* wanted := str_in "loyalty" required_agents in
  let* customer_id := get context "customer_id" VNone in
  let* results :=
    if wanted && truthy customer_id then
      let* loyalty_info := get_customer_loyalty_info customer_id in
      Ok (dict_set "loyalty" loyalty_info results)
    else Ok results in
  let* wanted := str_in "payment" required_agents in
  if wanted && truthy cart_items then
    let* payment_method := get context "payment_method" (VStr "card") in
    let* apply_loyalty := get context "apply_loyalty" (VBool true) in
    let* coupon_code := get context "coupon_code" VNone in
    let* payment_result :=
      process_checkout cart_items customer_id payment_method apply_loyalty
        coupon_code in
    Ok (dict_set "payment" payment_result results)
  else Ok results.

(** [Orchestrator._handle_help] *)
Definition _handle_help (context required_agents : value) : result dict :=
  let results : dict := [] in
  let* wanted := str_in "inventory" required_agents in
  if wanted then
    let* product_ids := get context "product_ids" (VList []) in
    if truthy product_ids then
      let* location := get context "location" (VStr "online") in
      let inventory := check_multiple_products product_ids VNone location in
      Ok (dict_set "inventory" inventory results)
    else Ok results
  else Ok results.

Definition action (type label description : string) : value :=
  VDict [("type", VStr type); ("label", VStr label);
         ("description", VStr description)].

(** [Orchestrator._determine_next_actions] *)
Definition _determine_next_actions (intent : value) (worker_results : dict)
    : result value :=
  let present (key : string) : bool :=
    truthy (default VNone (dict_get key worker_results)) in
  if is_str intent "browsing" then
    Ok (VList (if present "recommendations"
               then [action "view_product" "View Details" "See more about these items";
                     action "add_to_cart" "Add to Cart" "Add items you like"]
               else []))
  else if is_str intent "purchase_intent" then
    let actions :=
      if present "inventory"
      then [action "proceed_checkout" "Proceed to Checkout" "Complete your purchase"]
      else [] in
    if present "payment" then
      let payment_data := default VNone (dict_get "payment" worker_results) in
      let* paid := get payment_data "success" VNone in
      Ok (VList (if truthy paid
                 then actions ++ [action "view_order" "View Order" "See your order details"]
                 else actions))
    else Ok (VList actions)
  else Ok (VList []).

(** The blocks of [_synthesize_response], one per worker; each adds to the
    response under construction. *)
Definition add_recommendations (worker_results response : dict) : result dict :=
  match dict_get "recommendations" worker_results with
  | Some rec_data =>
      let* ok := get rec_data "success" VNone in
      if truthy ok then
        let* recommendations := get rec_data "recommendations" (VList []) in
        let* top := slice_to 3 recommendations in
        let* total_items := get rec_data "total_items" (VInt 0) in
        Ok (dict_set "total_recommendations" total_items
              (dict_set "recommendations" top response))
      else Ok response
  | None => Ok response
  end.

Definition add_inventory (worker_results response : dict) : result dict :=
  match dict_get "inventory" worker_results with
  | Some inv_data =>
      let* ok := get inv_data "success" VNone in
      if truthy ok then
        let* data := get inv_data "data" (VDict []) in
        let* availability := get data "availability" (VDict []) in
        Ok (dict_set "inventory_status" availability response)
      else Ok response
  | None => Ok response
  end.

Definition add_loyalty (worker_results response : dict) : result dict :=
  match dict_get "loyalty" worker_results with
  | Some loyalty_data =>
      let* ok := get loyalty_data "success" VNone in
      if truthy ok then
        let* tier := get loyalty_data "loyalty_tier" VNone in
        let* points := get loyalty_data "loyalty_points" VNone in
        let* benefits := get loyalty_data "benefits" VNone in
        Ok (dict_set "loyalty_info"
              (VDict [("tier", tier); ("points", points); ("benefits", benefits)])
              response)
      else Ok response
  | None => Ok response
  end.

Definition add_payment (worker_results response : dict) : dict :=
  match dict_get "payment" worker_results with
  | Some payment_data => dict_set "payment_result" payment_data response
  | None => response
  end.

Definition add_cart (context : value) (response : dict) : result dict :=
  let* session_id := get context "session_id" VNone in
  if truthy session_id then
    let* cart_data := get_cart session_id in
    let* ok := get cart_data "success" VNone in
    Ok (if truthy ok then dict_set "cart" cart_data response else response)
  else Ok response.

(** [Orchestrator._synthesize_response] *)
Definition _synthesize_response (sales_response : value) (worker_results : dict)
    (context : value) : result value :=
  let* message := get sales_response "response" (VStr "") in
  let* intent := get sales_response "intent" VNone in
  let* suggestions := get sales_response "suggestions" (VList []) in
  let response : dict :=
    [("success", VBool true); ("message", message); ("intent", intent);
     ("suggestions", suggestions); ("timestamp", VStr timestamp)] in
  let* response := add_recommendations worker_results response in
  let* response := add_inventory worker_results response in
  let* response := add_loyalty worker_results response in
  let response := add_payment worker_results response in
  let* response := add_cart context response in
  let* intent := get sales_response "intent" VNone in
  let* actions := _determine_next_actions intent worker_results in
  Ok (VDict (dict_set "actions" actions response)).

(** The text of the [view_cart] branch of [execute] for a cart with items. *)
Definition cart_text (cart_data : value) : result string :=
  let* count := item cart_data "cart_count" in
  let* cart := get cart_data "cart" (VList []) in
  let* l := iter cart in
  let* lines :=
    mapM (fun entry =>
            let* name := item entry "name" in
            let* quantity := item entry "quantity" in
            let* subtotal := item entry "subtotal" in
            Ok ("• " ++ str name ++ " x" ++ str quantity ++ " - $"
                ++ str subtotal ++ nl)) l in
  let* subtotal := get cart_data "subtotal" (VInt 0) in
  Ok ("You have " ++ str count ++ " items in your cart:" ++ nl
      ++ String.concat "" lines ++ nl ++ "Subtotal: $" ++ str subtotal).

(** The body of the [try] of [Orchestrator.execute]. The class defines
    [execute] twice; this is the second definition, the one in force. *)
Definition pipeline (context : value) : result value :=
  let* message := get context "message" (VStr "") in
  let* customer_id := get context "customer_id" VNone in
  let* session_id := get context "session_id" VNone in
  let* conversation_history := get context "conversation_history" (VList []) in
  let* customer_info := get context "customer_info" (VDict []) in
  let* sales_response :=
    SalesAgent.execute _call_ai
      (VDict [("message", message); ("customer_info", customer_info);
              ("conversation_history", conversation_history)]) in
  let* intent := get sales_response "intent" VNone in
  let* required_agents := get sales_response "requires_worker_agents" (VList []) in
  let* routed :=
    if is_str intent "browsing" then
      let* worker_results := _handle_browsing context required_agents in
      Ok (sales_response, worker_results)
    else if is_str intent "purchase_intent" then
      let* worker_results := _handle_purchase context required_agents in
      Ok (sales_response, worker_results)
    else if is_str intent "needs_help" then
      let* worker_results := _handle_help context required_agents in
      Ok (sales_response, worker_results)
    else if is_str intent "view_cart" then
      if truthy session_id then
        let* cart_data := get_cart session_id in
        let* ok := get cart_data "success" VNone in
        let* filled :=
          if truthy ok then
            let* cart_count := get cart_data "cart_count" (VInt 0) in
            gt_zero cart_count
          else Ok false in
        let* text :=
          if filled then cart_text cart_data
          else Ok "Your cart is empty. Would you like me to recommend some items?" in
        let* sales_response := set_item sales_response "response" (VStr text) in
        Ok (sales_response, [])
      else Ok (sales_response, [])
    else Ok (sales_response, []) in
  _synthesize_response routed.1 routed.2 context.

(** The record the [except Exception] clause of [execute] returns. *)
Definition error_response (e : exn) : value :=
  VDict [("success", VBool false);
         ("response",
          VStr ("I'm having trouble processing that right now. "
                ++ "Let me help you differently."));
         ("error", VStr (exn_str e))].

(** A well-formed response record: a response whose [success] is true, or
    the error record. *)
Definition envelope (r : value) : Prop :=
  (exists d, r = VDict d /\ dict_get "success" d = Some (VBool true))
  \/ (exists e, r = error_response e).

(** [Orchestrator.execute] *)
Definition execute (context : value) : result value :=
  try_except (pipeline context) (fun e => Ok (error_response e)).

(** [Orchestrator.handle_conversation]; [kwargs] are the extra keyword
    arguments. The customer lookup runs before [execute], in a
    [try ... finally] with no [except] clause. *)
Definition handle_conversation (message customer_id session_id cart_items : value)
    (kwargs : dict) : result value :=
  let context : dict :=
    dict_update
      [("message", message); ("customer_id", customer_id);
       ("session_id", session_id);
       ("cart_items", if truthy cart_items then cart_items else VList [])]
      kwargs in
  let* context :=
    if truthy customer_id then
      let* customer := query_customer customer_id in
      match customer with
      | Some c =>
          Ok (dict_set "customer_info"
                (VDict [("name", name c);
                        ("loyalty_tier", loyalty_tier c);
                        ("preferences",
                         if truthy (preferences c) then preferences c else VDict []);
                        ("loyalty_points", loyalty_points c)])
                context)
      | None => Ok context
      end
    else Ok context in
  execute (VDict context).

(** [Orchestrator.handle_channel_conversation]: a [cart_items] among the
    keyword arguments is the [cart_items] of [handle_conversation]. *)
Definition handle_channel_conversation (message : value) (channel : string)
    (customer_id session_id : value) (kwargs : dict) : result value :=
  let* ai_response :=
    handle_conversation message customer_id session_id
      (default VNone (dict_get "cart_items" kwargs))
      (dict_remove "cart_items" kwargs) in
  let adapter := ChannelAdapters.get_channel_adapter channel in
  ChannelAdapters.format_message adapter ai_response.

End Turn.
End Orchestrator.

(** ** Databases used as running examples *)

Module Examples.
Import ContextManager.

Definition product (name : string) (price : float) : Product.t float :=
  Product.mk name (Some "Acme") price [].

(** Products 1, 2 and 3 priced 10.00, 20.00 and 30.00. *)
Definition catalog : gmap Z (Product.t float) :=
  <[1%Z := product "Scarf" 10%float]>
    (<[2%Z := product "Belt" 20%float]>
       (<[3%Z := product "Hat" 30%float]> ∅)).

Definition session_with (cart : list CartLine.t) : ChatSession.t :=
  ChatSession.mk None "web" [] [] cart true.

Definition db_with (cart : list CartLine.t) : DB :=
  mkDB (<["session-1" := session_with cart]> ∅) catalog.

(** The database after a new session added one of each product. *)
Definition shop_db : DB :=
  (add_to_cart "t3" "session-abc" 3 1
     (add_to_cart "t2" "session-abc" 2 1
        (add_to_cart "t1" "session-abc" 1 1
           (create_session "abc" None "web" (mkDB ∅ catalog)).2).2).2).2.

(** One of each product. *)
Definition three_lines : list CartLine.t :=
  [CartLine.mk 1 1 "t1"; CartLine.mk 2 1 "t2"; CartLine.mk 3 1 "t3"].

(** Product 9 is not in the catalog. *)
Definition with_missing_product : list CartLine.t :=
  [CartLine.mk 1 2 "t1"; CartLine.mk 9 4 "t2"; CartLine.mk 3 1 "t3"].

(** The examples print no float, list or dict: their [repr] is a
    placeholder here. *)
Definition placeholder_repr : Py.Repr :=
  {| Py.repr_float := fun _ => "<float>";
     Py.repr_list := fun _ => "<list>";
     Py.repr_dict := fun _ => "<dict>" |}.

(** A recommendation as the recommendation agent returns it. *)
Definition recommendation (product_id : Z) (name : string) : Py.value :=
  Py.VDict [("product_id", Py.VInt product_id); ("name", Py.VStr name);
            ("price", Py.VInt 25); ("brand", Py.VStr "Acme");
            ("reason", Py.VStr "Popular choice based on ratings and reviews")].

Definition ten_recommendations : list Py.value :=
  (fun n => recommendation n "Scarf") <$> [1; 2; 3; 4; 5; 6; 7; 8; 9; 10]%Z.

(** Collaborators that all answer: the model replies with a fixed text,
    every product is in stock, nobody is a known customer. *)
Definition all_up : Orchestrator.Collaborators :=
  {| Orchestrator._call_ai := fun _ _ => Py.VStr "Happy to help.";
     Orchestrator.recommendation_agent_execute := fun _ =>
       Py.Ok (Py.VDict [("success", Py.VBool true);
                        ("recommendations", Py.VList ten_recommendations);
                        ("total_items", Py.VInt 10)]);
     Orchestrator._check_product_availability := fun product_id quantity_needed _ =>
       Py.Ok (Py.VDict [("product_id", product_id); ("available", Py.VBool true);
                        ("quantity_requested", quantity_needed)]);
     Orchestrator.get_customer_loyalty_info := fun _ =>
       Py.Ok (Py.VDict [("success", Py.VBool false);
                        ("message", Py.VStr "Customer not found")]);
     Orchestrator.process_checkout := fun _ _ _ _ _ =>
       Py.Ok (Py.VDict [("success", Py.VBool true); ("order_id", Py.VStr "ORD-1")]);
     Orchestrator.get_cart := fun _ =>
       Py.Ok (Py.VDict [("success", Py.VBool true); ("cart", Py.VList []);
                        ("cart_count", Py.VInt 0); ("total_items", Py.VInt 0);
                        ("subtotal", Py.VInt 0)]);
     Orchestrator.query_customer := fun _ => Py.Ok None;
     Orchestrator.checked_at := "2025-01-01T10:00:00";
     Orchestrator.timestamp := "2025-01-01T10:00:01" |}.

(** The same, with the database unreachable: every query of the session
    and customer tables raises. *)
Definition database_down : Orchestrator.Collaborators :=
  {| Orchestrator._call_ai := Orchestrator._call_ai (Collaborators := all_up);
     Orchestrator.recommendation_agent_execute :=
       Orchestrator.recommendation_agent_execute (Collaborators := all_up);
     Orchestrator._check_product_availability :=
       Orchestrator._check_product_availability (Collaborators := all_up);
     Orchestrator.get_customer_loyalty_info :=
       Orchestrator.get_customer_loyalty_info (Collaborators := all_up);
     Orchestrator.process_checkout :=
       Orchestrator.process_checkout (Collaborators := all_up);
     Orchestrator.get_cart := fun _ =>
       Py.Raise (Py.OperationalError "could not connect to server");
     Orchestrator.query_customer := fun _ =>
       Py.Raise (Py.OperationalError "could not connect to server");
     Orchestrator.checked_at := "2025-01-01T10:00:00";
     Orchestrator.timestamp := "2025-01-01T10:00:01" |}.

(** A turn of a shopper with product 1 twice in the cart. *)
Definition checkout_cart : Py.value :=
  Py.VList [Py.VDict [("product_id", Py.VInt 1); ("quantity", Py.VInt 2)]].

End Examples.

(** ** agents/payment_agent.py *)

Module PaymentAgent.
Import Py.

(** The methods [_validate_payment_method] accepts. *)
Definition valid_methods : list string :=
  ["card"; "paypal"; "apple_pay"; "google_pay"; "gift_card"].

(** [PaymentAgent._get_alternative_payment_methods] *)
Definition _get_alternative_payment_methods : list string :=
  ["card"; "paypal"; "apple_pay"; "google_pay"; "gift_card"].

(** [PaymentAgent._validate_payment_method] *)
Definition _validate_payment_method (payment_method : value) : result value :=
  match payment_method with
  | VStr method =>
      if bool_decide (lower method ∈ valid_methods)
      then Ok (VDict [("valid", VBool true);
                      ("message", VStr "Payment method accepted")])
      else Ok (VDict [("valid", VBool false);
                      ("message",
                       VStr ("Payment method '" ++ method ++ "' not supported"))])
  | _ => Raise (AttributeError (type_name payment_method) "lower")
  end.

(** [v - n] for an integer literal [n]. *)
Definition minus_int (v : value) (n : Z) : result value :=
  match v with
  | VInt z => Ok (VInt (z - n))
  | VBool b => Ok (VInt ((if b then 1 else 0) - n))
  | VFloat f => Ok (VFloat (PrimFloat.sub f (Binary64.float_of_Z n)))
  | _ => Raise (TypeError ("unsupported operand type(s) for -: '" ++ type_name v
                            ++ "' and 'int'"))
  end.

Definition recovery_option (option description : string) : value :=
  VDict [("option", VStr option); ("description", VStr description)].

Section Checkout.
Context {repr : Repr}.

(** [PaymentAgent._get_recovery_options] *)
Definition _get_recovery_options (error_type pricing : value) : result value :=
  if is_str error_type "insufficient_funds" then
    let* final_total := item pricing "final_total" in
    let* reduced := minus_int final_total 20 in
    Ok (VList [recovery_option "use_loyalty_points"
                 ("Use loyalty points to reduce total to $" ++ str reduced);
               recovery_option "remove_items" "Remove some items to lower the total";
               recovery_option "split_payment" "Split payment across multiple cards"])
  else if is_str error_type "card_declined" then
    Ok (VList [recovery_option "try_different_card" "Try a different payment card";
               recovery_option "use_alternative_method"
                 "Use PayPal, Apple Pay, or Google Pay"])
  else if is_str error_type "network_error" then
    Ok (VList [recovery_option "retry_payment" "Try payment again"])
  else Ok (VList []).

(** [_calculate_pricing(cart_items, customer_id, apply_loyalty, coupon_code)]:
    the price breakdown, from the product and customer tables. *)
Variable _calculate_pricing : value -> value -> value -> value -> result value.

(** [_process_payment(amount, payment_method, customer_id)]: the answer of
    the payment processor. *)
Variable _process_payment : value -> value -> value -> result value.

(** [_create_order(cart_items, customer_id, pricing, payment_result)]: the
    order record; it also books the loyalty points of the customer. *)
Variable _create_order : value -> value -> value -> value -> result value.

(** [PaymentAgent.execute] *)
Definition execute (context : value) : value :=
  let attempt :=
    let* cart_items := get context "cart_items" (VList []) in
    let* customer_id := get context "customer_id" VNone in
    let* payment_method := get context "payment_method" (VStr "card") in
    let* apply_loyalty := get context "apply_loyalty" (VBool true) in
    let* coupon_code := get context "coupon_code" VNone in
    if negb (truthy cart_items) then
      Ok (VDict [("success", VBool false); ("message", VStr "Cart is empty");
                 ("error_type", VStr "empty_cart")])
    else
      let* pricing :=
        _calculate_pricing cart_items customer_id apply_loyalty coupon_code in
      let* payment_validation := _validate_payment_method payment_method in
      let* valid := item payment_validation "valid" in
      if negb (truthy valid) then
        let* message := item payment_validation "message" in
        Ok (VDict [("success", VBool false); ("message", message);
                   ("error_type", VStr "invalid_payment_method");
                   ("alternatives", VList (VStr <$> _get_alternative_payment_methods))])
      else
        let* amount := item pricing "final_total" in
        let* payment_result := _process_payment amount payment_method customer_id in
        let* paid := item payment_result "success" in
        if truthy paid then
          let* order := _create_order cart_items customer_id pricing payment_result in
          let* order_id := item order "order_id" in
          Ok (VDict [("success", VBool true); ("message", VStr "Payment successful!");
                     ("order", order); ("pricing", pricing);
                     ("payment_details", payment_result)])
        else
          let* error := item payment_result "error" in
          let* error_type := item payment_result "error_type" in
          let* recovery_options := _get_recovery_options error_type pricing in
          Ok (VDict [("success", VBool false); ("message", error);
                     ("error_type", error_type);
                     ("recovery_options", recovery_options)]) in
  match attempt with
  | Ok r => r
  | Raise e =>
      VDict [("success", VBool false);
             ("message", VStr ("Payment processing failed: " ++ exn_str e));
             ("error_type", VStr "system_error")]
  end.

(** [PaymentAgent.process_checkout] *)
Definition process_checkout
    (cart_items customer_id payment_method apply_loyalty coupon_code : value) : value :=
  execute (VDict [("cart_items", cart_items); ("customer_id", customer_id);
                  ("payment_method", payment_method);
                  ("apply_loyalty", apply_loyalty); ("coupon_code", coupon_code)]).

End Checkout.
End PaymentAgent.

(** ** Further collaborators used as running examples *)

Module Scenarios.

(** [Examples.all_up] with one collaborator replaced. *)
Definition with_model (_call_ai : string -> Py.value -> Py.value)
    : Orchestrator.Collaborators :=
  {| Orchestrator._call_ai := _call_ai;
     Orchestrator.recommendation_agent_execute :=
       Orchestrator.recommendation_agent_execute (Collaborators := Examples.all_up);
     Orchestrator._check_product_availability :=
       Orchestrator._check_product_availability (Collaborators := Examples.all_up);
     Orchestrator.get_customer_loyalty_info :=
       Orchestrator.get_customer_loyalty_info (Collaborators := Examples.all_up);
     Orchestrator.process_checkout :=
       Orchestrator.process_checkout (Collaborators := Examples.all_up);
     Orchestrator.get_cart := Orchestrator.get_cart (Collaborators := Examples.all_up);
     Orchestrator.query_customer :=
       Orchestrator.query_customer (Collaborators := Examples.all_up);
     Orchestrator.checked_at := "2025-01-01T10:00:00";
     Orchestrator.timestamp := "2025-01-01T10:00:01" |}.

Definition with_stock
    (_check_product_availability : Py.value -> Py.value -> Py.value -> Py.result Py.value)
    : Orchestrator.Collaborators :=
  {| Orchestrator._call_ai := Orchestrator._call_ai (Collaborators := Examples.all_up);
     Orchestrator.recommendation_agent_execute :=
       Orchestrator.recommendation_agent_execute (Collaborators := Examples.all_up);
     Orchestrator._check_product_availability := _check_product_availability;
     Orchestrator.get_customer_loyalty_info :=
       Orchestrator.get_customer_loyalty_info (Collaborators := Examples.all_up);
     Orchestrator.process_checkout :=
       Orchestrator.process_checkout (Collaborators := Examples.all_up);
     Orchestrator.get_cart := Orchestrator.get_cart (Collaborators := Examples.all_up);
     Orchestrator.query_customer :=
       Orchestrator.query_customer (Collaborators := Examples.all_up);
     Orchestrator.checked_at := "2025-01-01T10:00:00";
     Orchestrator.timestamp := "2025-01-01T10:00:01" |}.

Definition with_cart (get_cart : Py.value -> Py.result Py.value)
    : Orchestrator.Collaborators :=
  {| Orchestrator._call_ai := Orchestrator._call_ai (Collaborators := Examples.all_up);
     Orchestrator.recommendation_agent_execute :=
       Orchestrator.recommendation_agent_execute (Collaborators := Examples.all_up);
     Orchestrator._check_product_availability :=
       Orchestrator._check_product_availability (Collaborators := Examples.all_up);
     Orchestrator.get_customer_loyalty_info :=
       Orchestrator.get_customer_loyalty_info (Collaborators := Examples.all_up);
     Orchestrator.process_checkout :=
       Orchestrator.process_checkout (Collaborators := Examples.all_up);
     Orchestrator.get_cart := get_cart;
     Orchestrator.query_customer :=
       Orchestrator.query_customer (Collaborators := Examples.all_up);
     Orchestrator.checked_at := "2025-01-01T10:00:00";
     Orchestrator.timestamp := "2025-01-01T10:00:01" |}.

(** The language model answers with a completion that has no content. *)
Definition silent_model : Orchestrator.Collaborators :=
  with_model (fun _ _ => Py.VNone).

(** What [_check_product_availability] returns for a product without
    stock; here no product has any. *)
Definition out_of_stock (product_id quantity_needed : Py.value) : Py.value :=
  Py.VDict [("product_id", product_id); ("product_name", Py.VStr "Scarf");
            ("available", Py.VBool false); ("total_stock", Py.VInt 0);
            ("quantity_requested", quantity_needed); ("locations", Py.VList []);
            ("alternatives", Py.VList []);
            ("suggestion", Py.VStr "Consider these similar items in stock")].

Definition sold_out : Orchestrator.Collaborators :=
  with_stock (fun product_id quantity_needed _ =>
                Py.Ok (out_of_stock product_id quantity_needed)).

(** The stock check of product 2 fails; the others are in stock. *)
Definition stock_of_all_but_two (product_id quantity_needed location : Py.value)
    : Py.result Py.value :=
  match product_id with
  | Py.VInt 2 => Py.Raise (Py.OperationalError "could not connect to server")
  | _ => Py.Ok (Py.VDict [("product_id", product_id); ("available", Py.VBool true);
                          ("quantity_requested", quantity_needed)])
  end.

(** The context manager does not know the session. *)
Definition unknown_session : Orchestrator.Collaborators :=
  with_cart (fun _ => Py.Ok (Py.VDict [("success", Py.VBool false);
                                       ("message", Py.VStr "Session not found")])).

(** What the recommendation agent returned in [Examples.all_up]. *)
Definition recommended : Py.value :=
  Py.VDict [("success", Py.VBool true);
            ("recommendations", Py.VList Examples.ten_recommendations);
            ("total_items", Py.VInt 10)].

(** A declined payment, as the payment agent reports it. *)
Definition declined : Py.value :=
  Py.VDict [("success", Py.VBool false);
            ("message", Py.VStr "Payment declined by card issuer");
            ("error_type", Py.VStr "card_declined");
            ("recovery_options", Py.VList [])].

(** A response with five suggestions and five actions. *)
Definition busy_response : Py.value :=
  Py.VDict [("message", Py.VStr "Here you go");
            ("suggestions",
             Py.VList (Py.VStr <$> ["Browse Dresses"; "Browse Shoes"; "Browse Accessories";
                                    "See Recommendations"; "A suggestion well over twenty characters"]));
            ("actions",
             Py.VList ((fun t => Py.VDict [("type", Py.VStr t); ("label", Py.VStr t)])
                         <$> ["view_product"; "add_to_cart"; "checkout"; "view_cart";
                              "other"]))].

(** A price breakdown, a processor that accepts every payment and one
    that declines every card, and the order record of an accepted payment. *)
Definition priced_at_forty (cart_items customer_id apply_loyalty coupon_code : Py.value)
    : Py.result Py.value :=
  Py.Ok (Py.VDict [("subtotal", Py.VInt 40); ("items", cart_items);
                   ("final_total", Py.VInt 40)]).

Definition accepting (amount payment_method customer_id : Py.value)
    : Py.result Py.value :=
  Py.Ok (Py.VDict [("success", Py.VBool true); ("transaction_id", Py.VStr "txn_1");
                   ("amount", amount); ("payment_method", payment_method);
                   ("status", Py.VStr "completed")]).

Definition declining (amount payment_method customer_id : Py.value)
    : Py.result Py.value :=
  Py.Ok (Py.VDict [("success", Py.VBool false);
                   ("error", Py.VStr "Payment declined by card issuer");
                   ("error_type", Py.VStr "card_declined");
                   ("retry_allowed", Py.VBool true)]).

Definition ordered (cart_items customer_id pricing payment_result : Py.value)
    : Py.result Py.value :=
  Py.Ok (Py.VDict [("order_id", Py.VStr "ORD-1"); ("customer_id", customer_id);
                   ("status", Py.VStr "confirmed")]).

End Scenarios.

(** * Properties *)

(** Closes a decidable goal about concrete data by evaluating its decision
    procedure. *)
Ltac decide_by_computation :=
  match goal with
  | |- ?P => apply (bool_decide_unpack P); vm_compute; exact I
  end.


(** ** The intent classifier *)

Module SalesAgentFacts.
Import Py SalesAgent.

Lemma lower_app (a b : string) : lower (a ++ b) = lower a ++ lower b.
Proof. induction a as [|c a IH]; simpl; [reflexivity | now rewrite IH]. Qed.

Lemma startswith_app (p s : string) : startswith p (p ++ s) = true.
Proof.
  induction p as [|c p IH]; simpl; [reflexivity|].
  now rewrite Ascii.eqb_refl.
Qed.

Lemma contains_here (p s : string) : startswith p s = true -> contains p s = true.
Proof. intros Hp. destruct s; simpl; rewrite Hp; reflexivity. Qed.

Lemma contains_skip (p a s : string) :
  contains p s = true -> contains p (a ++ s) = true.
Proof.
  intros Hs. induction a as [|c a IH]; simpl; [exact Hs|].
  rewrite IH. apply orb_true_r.
Qed.

Lemma contains_middle (p a b : string) : contains p (a ++ p ++ b) = true.
Proof. apply contains_skip, contains_here, startswith_app. Qed.

Lemma any_in_head (w : string) (ws : list string) (s : string) :
  contains w s = true -> any_in (w :: ws) s = true.
Proof. intros Hw. unfold any_in. simpl. now rewrite Hw. Qed.

(** C2 as stated fails: the text is not classified [needs_help]. *)
Lemma order_status_help_is_not_needs_help :
  _detect_intent "What's my order status, I need help" <> needs_help.
Proof. vm_compute. discriminate. Qed.

(** C2, amended: applied to the exact text "What's my order status, I need
    help" the classifier returns [purchase_intent]: no cart keyword occurs
    in it, the purchase keyword "order" does, and the purchase set is tried
    before the browsing set ("need") and the help set ("what", "help"). *)
Theorem order_status_help_is_purchase_intent :
  let text := "What's my order status, I need help" in
  _detect_intent text = purchase_intent
  /\ any_in cart_words (lower text) = false
  /\ contains "order" (lower text) = true
  /\ any_in browsing_words (lower text) = true
  /\ any_in help_words (lower text) = true.
Proof.
  cbv zeta. split; [|split; [|split; [|split]]]; vm_compute; reflexivity.
Qed.

(** C4: a text with "cart" in it, in any mix of cases, is classified
    [view_cart] whatever else it contains; and the classifier is the
    first-match rule over the keyword sets in the order cart-viewing,
    purchase, browsing, help, greeting, complaint, with [general] when none
    matches. *)
Theorem cart_first_then_fixed_priority_order :
  (forall pre mid post : string,
      lower mid = "cart" -> _detect_intent (pre ++ mid ++ post) = view_cart)
  /\ (forall message : string,
      _detect_intent message = first_match priority_table general (lower message)).
Proof.
  split.
  - intros pre mid post Hmid. unfold _detect_intent; cbv zeta.
    rewrite !lower_app, Hmid.
    unfold cart_words. rewrite any_in_head; [reflexivity|].
    apply contains_middle.
  - intros message. unfold _detect_intent, priority_table; cbv zeta. simpl.
    repeat match goal with |- context [if ?b then _ else _] => destruct b; try reflexivity end.
Qed.

Lemma cart_first_then_fixed_priority_order_witness :
  lower "CaRt" = "cart"
  /\ _detect_intent ("please BUY what is in my " ++ "CaRt" ++ ", I need help") = view_cart.
Proof.
  split; [reflexivity|].
  apply (proj1 cart_first_then_fixed_priority_order). reflexivity.
Defined.

End SalesAgentFacts.

(** ** The cart engine *)

Module ContextManagerFacts.
Import Py ContextManager.

(** *** The cart as a list: unfolding the three updates entry by entry *)

Lemma add_line_nil now pid q : add_line now pid q [] = [CartLine.mk pid q now].
Proof. reflexivity. Qed.

Lemma add_line_cons now pid q (l : CartLine.t) (c : list CartLine.t) :
  add_line now pid q (l :: c) =
  if decide (is_line_of pid l)
  then CartLine.set_quantity (CartLine.quantity l + q) l :: c
  else l :: add_line now pid q c.
Proof.
  unfold add_line. cbn [list_find].
  destruct (decide (is_line_of pid l)) as [Hl|Hl]; [reflexivity|].
  destruct (list_find (is_line_of pid) c) as [[i x]|]; reflexivity.
Qed.

Lemma list_remove_found (x l : CartLine.t) (c : list CartLine.t) :
  l <> x -> list_remove x (l :: c) = l :: list_remove x c.
Proof. intros Hne. simpl. destruct (decide (l = x)); [contradiction|reflexivity]. Qed.

Lemma list_remove_at (c : list CartLine.t) pid i (x : CartLine.t) :
  list_find (is_line_of pid) c = Some (i, x) -> list_remove x c = delete i c.
Proof.
  revert i. induction c as [|l c IH]; intros i; [discriminate|].
  cbn [list_find]. destruct (decide (is_line_of pid l)) as [Hl|Hl].
  - intros [= <- <-]. simpl. destruct (decide (l = l)); [reflexivity|contradiction].
  - destruct (list_find (is_line_of pid) c) as [[j y]|] eqn:Hf; [|discriminate].
    intros [= <- <-]. rewrite list_remove_found.
    + simpl. f_equal. apply IH. reflexivity.
    + intros ->. apply list_find_Some in Hf as (_ & Hx & _). contradiction.
Qed.

Lemma set_line_cons pid q (l : CartLine.t) (c : list CartLine.t) :
  set_line pid q (l :: c) =
  if decide (is_line_of pid l)
  then (if (q <=? 0)%Z then c else CartLine.set_quantity q l :: c)
  else l :: set_line pid q c.
Proof.
  unfold set_line. cbn [list_find].
  destruct (decide (is_line_of pid l)) as [Hl|Hl].
  - simpl. destruct (decide (l = l)); [reflexivity|contradiction].
  - destruct (list_find (is_line_of pid) c) as [[i x]|] eqn:Hf; [|reflexivity].
    simpl. destruct (q <=? 0)%Z; [|reflexivity].
    destruct (decide (l = x)) as [->|Hne]; [|reflexivity].
    apply list_find_Some in Hf as (_ & Hx & _). contradiction.
Qed.

Lemma absent_no_lines pid (c : list CartLine.t) :
  pid ∉ CartLine.product_id <$> c -> Forall (fun l => ~ is_line_of pid l) c.
Proof.
  intros Hn. apply Forall_forall. intros l Hl Hp. apply Hn.
  apply list_elem_of_fmap. exists l. split; [symmetry; exact Hp | exact Hl].
Qed.

Lemma add_line_absent now pid q (c : list CartLine.t) :
  Forall (fun l => ~ is_line_of pid l) c ->
  add_line now pid q c = (c ++ [CartLine.mk pid q now])%list.
Proof.
  induction 1 as [|l c Hl _ IH]; [reflexivity|].
  rewrite add_line_cons. destruct (decide (is_line_of pid l)); [contradiction|].
  simpl. now rewrite IH.
Qed.

Lemma add_line_ids_present now pid q (c : list CartLine.t) :
  pid ∈ CartLine.product_id <$> c ->
  CartLine.product_id <$> add_line now pid q c = CartLine.product_id <$> c.
Proof.
  induction c as [|l c IH]; intros Hin; [inversion Hin|].
  rewrite add_line_cons. destruct (decide (is_line_of pid l)) as [Hl|Hl]; [reflexivity|].
  simpl. f_equal. apply IH. simpl in Hin. apply elem_of_cons in Hin as [Heq|Hin]; [|exact Hin].
  exfalso. apply Hl. symmetry. exact Heq.
Qed.

Lemma add_line_keeps_one_line now pid q (c : list CartLine.t) :
  one_line_per_product c -> one_line_per_product (add_line now pid q c).
Proof.
  unfold one_line_per_product. intros Hc.
  destruct (decide (pid ∈ CartLine.product_id <$> c)) as [Hin|Hout].
  - now rewrite add_line_ids_present.
  - rewrite add_line_absent by now apply absent_no_lines.
    rewrite fmap_app. simpl. apply NoDup_app. split; [exact Hc|]. split.
    + intros x Hx Hx'. apply list_elem_of_singleton in Hx'. subst x. contradiction.
    + apply NoDup_singleton.
Qed.

(** Two adds of the same product are one add of the sum. *)
Lemma add_line_twice now1 now2 pid q1 q2 (c : list CartLine.t) :
  add_line now2 pid q2 (add_line now1 pid q1 c) = add_line now1 pid (q1 + q2) c.
Proof.
  induction c as [|l c IH].
  - rewrite !add_line_nil, add_line_cons.
    destruct (decide (is_line_of pid (CartLine.mk pid q1 now1))) as [_|Hn];
      [reflexivity | exfalso; apply Hn; reflexivity].
  - rewrite !(add_line_cons _ _ _ l). destruct (decide (is_line_of pid l)) as [Hl|Hl].
    + rewrite add_line_cons.
      destruct (decide (is_line_of pid _)) as [_|Hn]; [|exfalso; apply Hn; exact Hl].
      unfold CartLine.set_quantity. simpl. do 2 f_equal. lia.
    + rewrite add_line_cons. destruct (decide (is_line_of pid l)); [contradiction|].
      now rewrite IH.
Qed.

Lemma not_line_filter pid (c : list CartLine.t) :
  Forall (fun l => ~ is_line_of pid l) c ->
  filter (fun item => ~ is_line_of pid item) c = c /\ lines_of pid c = [].
Proof.
  unfold lines_of. induction 1 as [|l c Hl _ [IH1 IH2]]; [split; reflexivity|].
  rewrite !filter_cons. destruct (decide (~ is_line_of pid l)); [|contradiction].
  destruct (decide (is_line_of pid l)); [contradiction|]. now rewrite IH1, IH2.
Qed.

Lemma one_line_tail pid (l : CartLine.t) (c : list CartLine.t) :
  one_line_per_product (l :: c) -> is_line_of pid l ->
  Forall (fun l' => ~ is_line_of pid l') c.
Proof.
  unfold one_line_per_product. simpl. intros Hnd Hl.
  apply NoDup_cons in Hnd as [Hn _]. apply absent_no_lines.
  unfold is_line_of in Hl. now rewrite <- Hl.
Qed.

Lemma one_line_cons_inv (l : CartLine.t) (c : list CartLine.t) :
  one_line_per_product (l :: c) -> one_line_per_product c.
Proof. unfold one_line_per_product. simpl. intros Hnd. now apply NoDup_cons in Hnd. Qed.

(** With one line per product, a non-positive new quantity removes what
    [remove_from_cart] removes. *)
Lemma set_line_nonpositive pid q (c : list CartLine.t) :
  one_line_per_product c -> (q <= 0)%Z ->
  set_line pid q c = filter (fun item => ~ is_line_of pid item) c.
Proof.
  intros Hc Hq. induction c as [|l c IH]; [reflexivity|].
  rewrite set_line_cons, filter_cons.
  destruct (decide (is_line_of pid l)) as [Hl|Hl].
  - destruct (decide (~ is_line_of pid l)); [contradiction|].
    apply Z.leb_le in Hq. rewrite Hq. symmetry.
    apply not_line_filter. eapply one_line_tail; eassumption.
  - destruct (decide (~ is_line_of pid l)); [|contradiction].
    f_equal. apply IH. eapply one_line_cons_inv; eassumption.
Qed.

(** With one line per product, a positive new quantity overwrites the line
    of the product and nothing else. *)
Lemma set_line_positive pid q (c : list CartLine.t) :
  one_line_per_product c -> (0 < q)%Z ->
  set_line pid q c =
  (fun l => if decide (is_line_of pid l) then CartLine.set_quantity q l else l) <$> c.
Proof.
  intros Hc Hq. induction c as [|l c IH]; [reflexivity|].
  rewrite set_line_cons, fmap_cons.
  destruct (decide (is_line_of pid l)) as [Hl|Hl].
  - apply Z.leb_gt in Hq. rewrite Hq. f_equal.
    assert (Hrest := one_line_tail pid l c Hc Hl).
    clear -Hrest. induction Hrest as [|l' c Hl' _ IH]; [reflexivity|].
    rewrite fmap_cons. destruct (decide (is_line_of pid l')); [contradiction|].
    now rewrite <- IH.
  - f_equal. apply IH. eapply one_line_cons_inv; eassumption.
Qed.

Lemma set_line_keeps_one_line pid q (c : list CartLine.t) :
  one_line_per_product c -> one_line_per_product (set_line pid q c).
Proof.
  intros Hc. destruct (Z_le_gt_dec q 0) as [Hq|Hq].
  - rewrite set_line_nonpositive by assumption.
    unfold one_line_per_product in *. revert Hc. generalize c. clear.
    induction c as [|l c IH]; [trivial|]. simpl. intros Hnd.
    apply NoDup_cons in Hnd as [Hn Hnd]. rewrite filter_cons.
    destruct (decide _); [|auto]. simpl. apply NoDup_cons. split; [|auto].
    intros Hin. apply Hn. apply list_elem_of_fmap in Hin as (x & -> & Hx).
    apply list_elem_of_fmap. exists x. split; [reflexivity|].
    now apply list_elem_of_filter in Hx as [_ Hx].
  - rewrite set_line_positive by (assumption || lia).
    unfold one_line_per_product in *. rewrite <- list_fmap_compose.
    erewrite list_fmap_ext; [exact Hc|]. intros i x _. simpl.
    destruct (decide _); reflexivity.
Qed.

(** *** Running the operations on a database *)

Section Run.
Context {F : Type} {arith : PyFloat F}.
Implicit Types (db : @DB F) (s : ChatSession.t).

Lemma set_cart_same s : ChatSession.set_cart (ChatSession.cart s) s = s.
Proof. destruct s; reflexivity. Qed.

Lemma committed_lookup sid s c db :
  chat_sessions (committed sid s c db) !! sid = Some (ChatSession.set_cart c s).
Proof. unfold committed. simpl. apply lookup_insert_eq. Qed.

Lemma committed_twice sid s s' c c' db :
  committed sid s' c' (committed sid s c db) = committed sid s' c' db.
Proof. unfold committed. simpl. now rewrite insert_insert_eq. Qed.

Lemma committed_same sid s db :
  chat_sessions db !! sid = Some s -> committed sid s (ChatSession.cart s) db = db.
Proof.
  intros Hs. unfold committed. rewrite set_cart_same, insert_id by exact Hs.
  destruct db; reflexivity.
Qed.

Lemma update_cart_run sid s c db :
  chat_sessions db !! sid = Some s ->
  update_session sid None None (Some c) None db = (true, committed sid s c db).
Proof.
  intros Hs. unfold update_session, bind, query_session, commit_session, ret.
  rewrite Hs. reflexivity.
Qed.

Lemma add_to_cart_run now sid pid q db s :
  chat_sessions db !! sid = Some s ->
  add_to_cart now sid pid q db =
  (cart_state true (add_line now pid q (ChatSession.cart s)),
   committed sid s (add_line now pid q (ChatSession.cart s)) db).
Proof.
  intros Hs. unfold add_to_cart, get_session, query_session.
  unfold bind at 1. rewrite Hs. unfold bind.
  now rewrite (update_cart_run _ _ _ _ Hs).
Qed.

Lemma remove_from_cart_run sid pid db s :
  chat_sessions db !! sid = Some s ->
  remove_from_cart sid pid db =
  (cart_state true (filter (fun item => ~ is_line_of pid item) (ChatSession.cart s)),
   committed sid s (filter (fun item => ~ is_line_of pid item) (ChatSession.cart s)) db).
Proof.
  intros Hs. unfold remove_from_cart, get_session, query_session.
  unfold bind at 1. rewrite Hs. unfold bind.
  now rewrite (update_cart_run _ _ _ _ Hs).
Qed.

Lemma update_cart_quantity_run sid pid q db s :
  chat_sessions db !! sid = Some s ->
  update_cart_quantity sid pid q db =
  (cart_state true (set_line pid q (ChatSession.cart s)),
   committed sid s (set_line pid q (ChatSession.cart s)) db).
Proof.
  intros Hs. unfold update_cart_quantity, get_session, query_session.
  unfold bind at 1. rewrite Hs. unfold bind.
  now rewrite (update_cart_run _ _ _ _ Hs).
Qed.

(** *** The invariant of the stored carts *)

Lemma commit_keeps_well_formed sid s db :
  carts_well_formed db -> one_line_per_product (ChatSession.cart s) ->
  carts_well_formed (commit_session sid s db).2.
Proof.
  intros Hdb Hs sid' s'. unfold commit_session. simpl.
  rewrite lookup_insert. case_decide as Hsid.
  - intros [= <-]. exact Hs.
  - apply Hdb.
Qed.

Lemma update_session_keeps_well_formed sid context messages cart channel db :
  carts_well_formed db ->
  (forall c, cart = Some c -> one_line_per_product c) ->
  carts_well_formed (update_session sid context messages cart channel db).2.
Proof.
  intros Hdb Hcart. unfold update_session, bind, query_session, ret.
  destruct (chat_sessions db !! sid) as [s|] eqn:Hs; [|exact Hdb].
  destruct (commit_session sid _ db) as [u db'] eqn:Hcommit.
  change db' with (u, db').2. rewrite <- Hcommit.
  apply commit_keeps_well_formed; [exact Hdb|]. simpl.
  destruct cart as [c|]; simpl; [now apply Hcart | now apply (Hdb sid)].
Qed.

Lemma committed_keeps_well_formed sid s c db :
  carts_well_formed db -> one_line_per_product c ->
  carts_well_formed (committed sid s c db).
Proof.
  intros Hdb Hc sid' s'. unfold committed. simpl.
  rewrite lookup_insert. case_decide as Hsid.
  - intros [= <-]. exact Hc.
  - apply Hdb.
Qed.

Lemma filter_keeps_one_line pid (c : list CartLine.t) :
  one_line_per_product c ->
  one_line_per_product (filter (fun item => ~ is_line_of pid item) c).
Proof.
  unfold one_line_per_product. induction c as [|l c IH]; [trivial|].
  simpl. intros Hnd. apply NoDup_cons in Hnd as [Hn Hnd]. rewrite filter_cons.
  destruct (decide _); [|auto]. simpl. apply NoDup_cons. split; [|auto].
  intros Hin. apply Hn. apply list_elem_of_fmap in Hin as (x & -> & Hx).
  apply list_elem_of_fmap. exists x. split; [reflexivity|].
  now apply list_elem_of_filter in Hx as [_ Hx].
Qed.

Lemma call_keeps_well_formed db db' :
  call db db' -> carts_well_formed db -> carts_well_formed db'.
Proof.
  intros Hcall Hdb. destruct Hcall.
  - unfold create_session, bind, ret.
    destruct (commit_session _ _ db) as [u db'] eqn:Hcommit. simpl.
    change db' with (u, db').2. rewrite <- Hcommit.
    apply commit_keeps_well_formed; [exact Hdb|]. simpl. apply NoDup_nil_2.
  - unfold add_message, bind at 1, get_session, query_session.
    destruct (chat_sessions db !! sid) as [s|]; [|exact Hdb].
    apply update_session_keeps_well_formed; [exact Hdb | discriminate].
  - destruct (chat_sessions db !! sid) as [s|] eqn:Hs.
    + rewrite (add_to_cart_run _ _ _ _ _ _ Hs). simpl.
      apply committed_keeps_well_formed; [exact Hdb|].
      apply add_line_keeps_one_line, (Hdb sid s Hs).
    + unfold add_to_cart, bind, get_session, query_session. now rewrite Hs.
  - destruct (chat_sessions db !! sid) as [s|] eqn:Hs.
    + rewrite (remove_from_cart_run _ _ _ _ Hs). simpl.
      apply committed_keeps_well_formed; [exact Hdb|].
      apply filter_keeps_one_line, (Hdb sid s Hs).
    + unfold remove_from_cart, bind, get_session, query_session. now rewrite Hs.
  - destruct (chat_sessions db !! sid) as [s|] eqn:Hs.
    + rewrite (update_cart_quantity_run _ _ _ _ _ Hs). simpl.
      apply committed_keeps_well_formed; [exact Hdb|].
      apply set_line_keeps_one_line, (Hdb sid s Hs).
    + unfold update_cart_quantity, bind, get_session, query_session. now rewrite Hs.
  - assert (Hsame : (get_cart sid db).2 = db); [|now rewrite Hsame].
    unfold get_cart, get_session, query_session. unfold bind at 1.
    destruct (chat_sessions db !! sid) as [s|]; [|reflexivity].
    destruct (ChatSession.cart s) as [|item rest]; [reflexivity|].
    unfold bind. generalize (item :: rest) (@nil (CartItem.t F)).
    intros cart. induction cart as [|x cart IH]; intros acc; [reflexivity|].
    simpl. unfold bind, query_product.
    destruct (products db !! CartLine.product_id x); apply IH.
  - unfold switch_channel, bind at 1, get_session, query_session.
    destruct (chat_sessions db !! sid) as [s|]; [|exact Hdb].
    unfold bind.
    pose proof (update_session_keeps_well_formed sid None None None (Some new_channel)
                  db Hdb) as Hkeep.
    destruct (update_session sid None None None (Some new_channel) db) as [ok db'].
    simpl in *. apply Hkeep. discriminate.
  - unfold clear_cart. apply update_session_keeps_well_formed; [exact Hdb|].
    intros c [= <-]. apply NoDup_nil_2.
  - unfold end_session, bind, query_session, ret.
    destruct (chat_sessions db !! sid) as [s|] eqn:Hs; [|exact Hdb].
    destruct (commit_session sid _ db) as [u db'] eqn:Hcommit. simpl.
    change db' with (u, db').2. rewrite <- Hcommit.
    apply commit_keeps_well_formed; [exact Hdb|]. simpl. apply (Hdb sid s Hs).
Qed.

(** From a database without sessions, the operations of the context manager
    only ever store carts with at most one line per product. *)
Lemma reachable_carts_well_formed db : reachable db -> carts_well_formed db.
Proof.
  induction 1 as [catalog|db db' _ IH Hcall].
  - intros sid s. simpl. rewrite lookup_empty. discriminate.
  - exact (call_keeps_well_formed _ _ Hcall IH).
Qed.

End Run.

(** *** The claims about the cart *)

Section CartClaims.
Context {F : Type} {arith : PyFloat F}.
Implicit Types (db : @DB F) (s : ChatSession.t).


(** On a cart with at most one line per product: a quantity [<= 0] makes
    [update_cart_quantity] do what [remove_from_cart] does, a quantity [> 0]
    overwrites the product's line, and removing a product with no line
    changes nothing. *)
Lemma set_quantity_on_well_formed_cart db sid s pid qty :
  chat_sessions db !! sid = Some s ->
  one_line_per_product (ChatSession.cart s) ->
  let c := ChatSession.cart s in
  ((qty <= 0)%Z -> update_cart_quantity sid pid qty db = remove_from_cart sid pid db)
  /\ ((0 < qty)%Z ->
      let c' := (fun l => if decide (is_line_of pid l)
                          then CartLine.set_quantity qty l else l) <$> c in
      update_cart_quantity sid pid qty db = (cart_state true c', committed sid s c' db))
  /\ (pid ∉ CartLine.product_id <$> c ->
      remove_from_cart sid pid db = (cart_state true c, db)).
Proof.
  intros Hs Hone c. split; [|split].
  - intros Hq. rewrite (update_cart_quantity_run _ _ _ _ _ Hs).
    rewrite (remove_from_cart_run _ _ _ _ Hs).
    now rewrite (set_line_nonpositive pid qty _ Hone Hq).
  - intros Hq c'. rewrite (update_cart_quantity_run _ _ _ _ _ Hs).
    now rewrite (set_line_positive pid qty _ Hone Hq).
  - intros Hout. subst c. rewrite (remove_from_cart_run _ _ _ _ Hs).
    destruct (not_line_filter pid _ (absent_no_lines _ _ Hout)) as [Hsame _].
    rewrite Hsame. now rewrite (committed_same _ _ _ Hs).
Qed.



End CartClaims.

(** *** The priced view *)

Section View.
Context {F : Type} {arith : PyFloat F}.
Implicit Types (db : @DB F) (s : ChatSession.t).

(** The priced entry of a cart line, if its product is in the catalog. *)
Lemma price_lines_run (cart : list CartLine.t) (acc : list (CartItem.t F)) db :
  price_lines cart acc db =
  ((acc ++ omap (fun item => priced item <$> products db !! CartLine.product_id item)
             cart)%list, db).
Proof.
  revert acc. induction cart as [|item rest IH]; intros acc; simpl.
  - unfold ret. now rewrite app_nil_r.
  - unfold bind, query_product.
    destruct (products db !! CartLine.product_id item) as [p|]; simpl.
    + rewrite IH. now rewrite <- app_assoc.
    + apply IH.
Qed.

Lemma get_cart_run sid db s :
  chat_sessions db !! sid = Some s ->
  let items := omap (fun item => priced item <$> products db !! CartLine.product_id item)
                 (ChatSession.cart s) in
  get_cart sid db =
  (CartView items (length items) (int_sum (CartItem.quantity <$> items))
     (round2 (float_sum (CartItem.subtotal <$> items))), db).
Proof.
  intros Hs items. unfold get_cart, get_session, query_session.
  unfold bind at 1. rewrite Hs. subst items.
  destruct (ChatSession.cart s) as [|item rest] eqn:Hc.
  - simpl. unfold ret. now rewrite round2_sum_nil.
  - unfold bind. rewrite price_lines_run. reflexivity.
Qed.

(** C8: [get_cart] leaves the database as it found it, whatever the session
    identifier and whether or not lines are dropped from the view: every
    session row, its cart included, and every product row are the same
    after the call. *)
Theorem get_cart_leaves_database db sid : (get_cart sid db).2 = db.
Proof.
  destruct (chat_sessions db !! sid) as [s|] eqn:Hs.
  - now rewrite (get_cart_run sid db s Hs).
  - unfold get_cart, get_session, query_session, bind. now rewrite Hs.
Qed.

End View.




(** Outside the databases the context manager builds, a cart can hold two
    lines of one product; there [update_cart_quantity] with quantity 0 drops
    only the first of them, and [remove_from_cart] both. *)
Lemma update_cart_quantity_stops_at_first_line :
  let db := Examples.db_with [CartLine.mk 1 1 "t0"; CartLine.mk 1 4 "t1"] in
  (update_cart_quantity "session-1" 1 0 db).1 = cart_state true [CartLine.mk 1 4 "t1"]
  /\ (remove_from_cart "session-1" 1 db).1 = cart_state true [].
Proof. cbv zeta. split; vm_compute; reflexivity. Qed.




End ContextManagerFacts.

(** ** The channel formatters *)

Module ChannelAdapterFacts.
Import Py ChannelAdapters.

Lemma mapM_length {A B} (f : A -> result B) (l : list A) (out : list B) :
  mapM f l = Ok out -> length out = length l.
Proof.
  revert out. induction l as [|x l IH]; intros out; simpl.
  - intros [= <-]. reflexivity.
  - destruct (f x) as [y|e]; simpl; [|discriminate].
    destruct (mapM f l) as [ys|e]; simpl; [|discriminate].
    intros [= <-]. simpl. f_equal. apply IH. reflexivity.
Qed.

Lemma mapM_total {A B} (f : A -> result B) (l : list A) :
  Forall (fun x => exists y, f x = Ok y) l -> exists out, mapM f l = Ok out.
Proof.
  induction 1 as [|x l [y Hy] _ [ys Hys]]; simpl; [eauto|].
  rewrite Hy, Hys. simpl. eauto.
Qed.

Lemma enumerate_length {A} (start : Z) (l : list A) :
  length (enumerate start l) = length l.
Proof. revert start. induction l as [|x l IH]; intros start; simpl; [|rewrite IH]; reflexivity. Qed.

Lemma enumerate_Forall {A} (P : A -> Prop) (start : Z) (l : list A) :
  Forall P l -> Forall (fun ix => P ix.2) (enumerate start l).
Proof.
  intros Hl. revert start. induction Hl as [|x l Hx _ IH]; intros start; simpl;
    constructor; [exact Hx | apply IH].
Qed.

Lemma render_first_count (n : nat) render (recs : list value) (out : value) :
  render_first n render (VList recs) = Ok out ->
  exists cards, out = VList cards /\ length cards = Nat.min n (length recs).
Proof.
  unfold render_first. simpl.
  destruct (mapM render (take n recs)) as [cards|e] eqn:Hm; simpl; [|discriminate].
  intros [= <-]. exists cards. split; [reflexivity|].
  rewrite (mapM_length _ _ _ Hm). apply length_take.
Qed.

Lemma render_all_count render (recs : list value) (out : value) :
  render_all render (VList recs) = Ok out ->
  exists cards, out = VList cards /\ length cards = length recs.
Proof.
  unfold render_all. simpl.
  destruct (mapM render recs) as [cards|e] eqn:Hm; simpl; [|discriminate].
  intros [= <-]. exists cards. split; [reflexivity|]. apply (mapM_length _ _ _ Hm).
Qed.

Lemma render_first_total (n : nat) render (recs : list value) :
  Forall (fun r => exists y, render r = Ok y) recs ->
  exists cards, render_first n render (VList recs) = Ok (VList cards).
Proof.
  intros Hall. unfold render_first. simpl.
  destruct (mapM_total render (take n recs)) as [cards Hc].
  { apply Forall_take, Hall. }
  rewrite Hc. simpl. eauto.
Qed.

Lemma render_all_total render (recs : list value) :
  Forall (fun r => exists y, render r = Ok y) recs ->
  exists cards, render_all render (VList recs) = Ok (VList cards).
Proof.
  intros Hall. unfold render_all. simpl.
  destruct (mapM_total render recs Hall) as [cards Hc]. rewrite Hc. simpl. eauto.
Qed.

(** Splits the well-formedness test of a recommendation into facts about
    its fields. *)
Ltac open_recommendation Hwf :=
  match type of Hwf with
  | well_formed_recommendation ?r = true =>
      destruct r as [| | | | | |d]; try discriminate Hwf;
      unfold well_formed_recommendation in Hwf;
      repeat (apply andb_prop in Hwf as [Hwf ?]);
      destruct (dict_get "name" d) as [[| | | |name| |]|] eqn:Hname; try discriminate;
      destruct (dict_get "price" d) as [price|] eqn:Hprice;
        [|match goal with Hp : bool_decide _ = true |- _ =>
            apply bool_decide_eq_true in Hp; destruct Hp; discriminate end];
      destruct (dict_get "reason" d) as [[| | | |reason| |]|] eqn:Hreason; try discriminate;
      destruct (dict_get "product_id" d) as [[| | | | | |]|] eqn:Hid; try discriminate
  end.

Lemma web_card_total (rec : value) :
  well_formed_recommendation rec = true ->
  exists y, WebChatAdapter.product_card rec = Ok y.
Proof.
  intros Hwf. open_recommendation Hwf;
    unfold WebChatAdapter.product_card, get; simpl; rewrite ?Hreason; simpl; eauto.
Qed.

Lemma instore_tile_total (rec : value) :
  well_formed_recommendation rec = true ->
  exists y, InStoreAdapter.product_tile rec = Ok y.
Proof.
  intros Hwf. open_recommendation Hwf;
    unfold InStoreAdapter.product_tile, get; simpl; rewrite ?Hid; simpl; eauto.
Qed.

Lemma mobile_card_total (rec : value) :
  well_formed_recommendation rec = true ->
  exists y, MobileAdapter.compact_card rec = Ok y.
Proof.
  intros Hwf. open_recommendation Hwf;
    unfold MobileAdapter.compact_card, get; simpl; rewrite ?Hname; simpl; eauto.
Qed.

Lemma whatsapp_entry_total {repr : Repr} (numbered : Z * value) :
  well_formed_recommendation numbered.2 = true ->
  exists y, WhatsAppAdapter.recommendation_entry numbered = Ok y.
Proof.
  destruct numbered as [i rec]. simpl. intros Hwf. open_recommendation Hwf;
    unfold WhatsAppAdapter.recommendation_entry, item, get; simpl;
    rewrite ?Hname, ?Hprice, ?Hreason; simpl; eauto.
Qed.



End ChannelAdapterFacts.

(** ** The inventory agent and the orchestrator *)

Module OrchestratorFacts.
Import Py Orchestrator.

(** Opens the first call of a sequence that is known to end well. *)
Ltac open_call H :=
  match type of H with
  | rbind ?m _ = Ok _ =>
      let E := fresh "E" in
      destruct m eqn:E; cbn [rbind] in H; [|discriminate H]
  end.

Tactic Notation "step" hyp(H) "as" ident(x) ident(E) :=
  match type of H with
  | rbind ?m _ = Ok _ =>
      destruct m as [x|] eqn:E; cbn [rbind] in H; [|discriminate H]
  end.

Lemma dict_get_set_eq (k : string) (v : value) (d : dict) :
  dict_get k (dict_set k v d) = Some v.
Proof.
  induction d as [|[k' v'] d IH]; cbn [dict_set dict_get].
  - now rewrite String.eqb_refl.
  - destruct (String.eqb_spec k' k) as [->|Hne]; cbn [dict_get].
    + now rewrite String.eqb_refl.
    + destruct (String.eqb_spec k' k); [contradiction | exact IH].
Qed.

Lemma dict_get_set_ne (k k' : string) (v : value) (d : dict) :
  k <> k' -> dict_get k (dict_set k' v d) = dict_get k d.
Proof.
  intros Hne. induction d as [|[k0 v0] d IH]; cbn [dict_set dict_get].
  - destruct (String.eqb_spec k' k); [congruence | reflexivity].
  - destruct (String.eqb_spec k0 k') as [->|Hne0]; cbn [dict_get].
    + destruct (String.eqb_spec k' k); [congruence | reflexivity].
    + destruct (String.eqb_spec k0 k); [reflexivity | exact IH].
Qed.

Lemma dict_set_not_nil (k : string) (v : value) (d : dict) : dict_set k v d <> [].
Proof. destruct d as [|[k' v'] d]; cbn [dict_set]; [|destruct (String.eqb k' k)]; discriminate. Qed.

(** *** What the inventory agent returns *)

Section Inventory.
Context {repr : Repr}.
Variable check : value -> value -> value -> result value.

Lemma check_each_not_nil quantities location ids acc out :
  InventoryAgent.check_each check quantities location ids acc = Ok out ->
  (ids <> [] \/ acc <> []) -> out <> [].
Proof.
  revert acc. induction ids as [|product_id rest IH]; intros acc Hrun Hsome.
  - cbn in Hrun. injection Hrun as <-. destruct Hsome; congruence.
  - cbn [InventoryAgent.check_each] in Hrun. open_call Hrun. open_call Hrun.
    apply (IH _ Hrun). right. apply dict_set_not_nil.
Qed.

Lemma iter_truthy_not_nil (v : value) (l : list value) :
  truthy v = true -> iter v = Ok l -> l <> [].
Proof.
  destruct v as [| | | |s|l'|d]; cbn; try discriminate.
  - destruct s; [discriminate|]. intros _ [= <-]. discriminate.
  - destruct l'; [discriminate|]. intros _ [= <-]. discriminate.
  - destruct d; [discriminate|]. intros _ [= <-]. discriminate.
Qed.

(** The result of [execute] has one of two shapes: a failure record, or the
    success record with a non-empty availability map at its top level. *)
Lemma execute_shape checked_at context :
  (exists message,
      InventoryAgent.execute check checked_at context =
      VDict [("success", VBool false); ("message", VStr message);
             ("availability", VDict [])])
  \/ (exists availability,
      availability <> []
      /\ InventoryAgent.execute check checked_at context =
         VDict [("success", VBool true); ("availability", VDict availability);
                ("checked_at", VStr checked_at)]).
Proof.
  unfold InventoryAgent.execute.
  destruct (get context "product_ids" (VList [])) as [product_ids|e]; cbn [rbind]; [|eauto].
  destruct (get context "quantities" (VDict [])) as [quantities|e]; cbn [rbind]; [|eauto].
  destruct (get context "customer_location" (VStr "online")) as [location|e];
    cbn [rbind]; [|eauto].
  destruct (truthy product_ids) eqn:Htruthy; cbn [negb]; [|eauto].
  destruct (iter product_ids) as [ids|e] eqn:Hiter; cbn [rbind]; [|eauto].
  destruct (InventoryAgent.check_each check quantities location ids [])
    as [availability|e] eqn:Hrun; cbn [rbind]; [|eauto].
  right. exists availability. split; [|reflexivity].
  apply (check_each_not_nil _ _ _ _ _ Hrun). left.
  apply (iter_truthy_not_nil _ _ Htruthy Hiter).
Qed.

End Inventory.

(** *** What the synthesizer keeps and adds *)

Section Synthesis.
Context {repr : Repr} {world : Collaborators}.

Lemma add_recommendations_frame worker_results response response' k :
  add_recommendations worker_results response = Ok response' ->
  k <> "recommendations" -> k <> "total_recommendations" ->
  dict_get k response' = dict_get k response.
Proof.
  unfold add_recommendations. intros Hrun Hk1 Hk2.
  destruct (dict_get "recommendations" worker_results) as [rec_data|];
    [|now injection Hrun as <-].
  step Hrun as ok Hok. destruct (truthy ok); [|now injection Hrun as <-].
  do 3 open_call Hrun. injection Hrun as <-. now rewrite !dict_get_set_ne.
Qed.

Lemma add_inventory_frame worker_results response response' k :
  add_inventory worker_results response = Ok response' ->
  k <> "inventory_status" -> dict_get k response' = dict_get k response.
Proof.
  unfold add_inventory. intros Hrun Hk.
  destruct (dict_get "inventory" worker_results) as [inv_data|];
    [|now injection Hrun as <-].
  step Hrun as ok Hok. destruct (truthy ok); [|now injection Hrun as <-].
  do 2 open_call Hrun. injection Hrun as <-. now rewrite dict_get_set_ne.
Qed.

Lemma add_loyalty_frame worker_results response response' k :
  add_loyalty worker_results response = Ok response' ->
  k <> "loyalty_info" -> dict_get k response' = dict_get k response.
Proof.
  unfold add_loyalty. intros Hrun Hk.
  destruct (dict_get "loyalty" worker_results) as [loyalty_data|];
    [|now injection Hrun as <-].
  step Hrun as ok Hok. destruct (truthy ok); [|now injection Hrun as <-].
  do 3 open_call Hrun. injection Hrun as <-. now rewrite dict_get_set_ne.
Qed.

Lemma add_payment_frame worker_results response k :
  k <> "payment_result" ->
  dict_get k (add_payment worker_results response) = dict_get k response.
Proof.
  unfold add_payment. intros Hk.
  destruct (dict_get "payment" worker_results); [now rewrite dict_get_set_ne | reflexivity].
Qed.

Lemma add_cart_frame context response response' k :
  add_cart context response = Ok response' ->
  k <> "cart" -> dict_get k response' = dict_get k response.
Proof.
  unfold add_cart. intros Hrun Hk. step Hrun as session_id Hsid.
  destruct (truthy session_id); [|now injection Hrun as <-].
  step Hrun as cart_data Hcart. step Hrun as ok Hok. injection Hrun as <-.
  destruct (truthy ok); [now rewrite dict_get_set_ne | reflexivity].
Qed.

(** The inventory block stores what is under ["data"]["availability"] of
    the worker's record; the success record of the inventory agent has no
    ["data"] entry, so the block stores the empty map. *)
Lemma add_inventory_of_success worker_results response response'
    availability checked_at :
  dict_get "inventory" worker_results =
    Some (VDict [("success", VBool true); ("availability", VDict availability);
                 ("checked_at", VStr checked_at)]) ->
  add_inventory worker_results response = Ok response' ->
  dict_get "inventory_status" response' = Some (VDict []).
Proof.
  unfold add_inventory. intros -> Hrun. cbn in Hrun. injection Hrun as <-.
  apply dict_get_set_eq.
Qed.

Lemma synthesize_keeps sales_response worker_results context r :
  _synthesize_response sales_response worker_results context = Ok r ->
  exists d,
    r = VDict d
    /\ dict_get "success" d = Some (VBool true)
    /\ (forall availability checked_at,
          dict_get "inventory" worker_results =
            Some (VDict [("success", VBool true);
                         ("availability", VDict availability);
                         ("checked_at", VStr checked_at)]) ->
          dict_get "inventory_status" d = Some (VDict [])).
Proof.
  unfold _synthesize_response. intros Hrun.
  step Hrun as message Hmessage. step Hrun as intent Hintent.
  step Hrun as suggestions Hsuggestions.
  step Hrun as r1 Hrec. step Hrun as r2 Hinv. step Hrun as r3 Hloy.
  step Hrun as r4 Hcart. step Hrun as actions Hactions.
  injection Hrun as <-. eexists. split; [reflexivity|]. split.
  - rewrite dict_get_set_ne by discriminate.
    rewrite (add_cart_frame _ _ _ _ Hcart) by discriminate.
    rewrite add_payment_frame by discriminate.
    rewrite (add_loyalty_frame _ _ _ _ Hloy) by discriminate.
    rewrite (add_inventory_frame _ _ _ _ Hinv) by discriminate.
    rewrite (add_recommendations_frame _ _ _ _ Hrec) by discriminate.
    reflexivity.
  - intros availability checked_at Hworker.
    rewrite dict_get_set_ne by discriminate.
    rewrite (add_cart_frame _ _ _ _ Hcart) by discriminate.
    rewrite add_payment_frame by discriminate.
    rewrite (add_loyalty_frame _ _ _ _ Hloy) by discriminate.
    apply (add_inventory_of_success _ _ _ _ _ Hworker Hinv).
Qed.

(** Whenever the inventory worker's record in [worker_results] comes from
    [InventoryAgent.execute] and reports success, its availability map is
    not empty and the synthesized [inventory_status] is the empty map. *)
Lemma inventory_status_is_never_the_availability
    sales_response worker_results context checked_at inventory_context r :
  let inv := InventoryAgent.execute _check_product_availability checked_at
               inventory_context in
  dict_get "inventory" worker_results = Some inv ->
  get inv "success" VNone = Ok (VBool true) ->
  _synthesize_response sales_response worker_results context = Ok r ->
  exists d availability,
    r = VDict d
    /\ get inv "availability" VNone = Ok (VDict availability)
    /\ availability <> []
    /\ dict_get "inventory_status" d = Some (VDict []).
Proof.
  intros inv Hworker Hsuccess Hrun.
  destruct (execute_shape _check_product_availability checked_at inventory_context)
    as [[message Hshape]|[availability [Hsome Hshape]]]; fold inv in Hshape.
  - rewrite Hshape in Hsuccess. discriminate.
  - destruct (synthesize_keeps _ _ _ _ Hrun) as (d & -> & _ & Hstatus).
    exists d, availability. split; [reflexivity|]. rewrite Hshape.
    split; [reflexivity|]. split; [exact Hsome|].
    apply (Hstatus availability checked_at). now rewrite Hworker, Hshape.
Qed.

End Synthesis.

(** *** The catch-all of [execute] *)

Section CatchAll.
Context {repr : Repr} {world : Collaborators}.

(** C3, amended: the catch-all is the one inside [execute]. For every
    context [execute] returns a record and raises nothing: the synthesized
    response, whose [success] is true, when classification, dispatch and
    synthesis all end well, and otherwise the record with [success] false,
    the generic apology under [response] and the text of the error under
    [error]. [handle_conversation] returns such a record whenever no
    customer is given or the customer lookup before [execute] answers; an
    error of that lookup is not caught there and reaches the caller.
    [handle_channel_conversation] hands the record of [handle_conversation]
    to the formatter of the channel, after the catch-all, and returns what
    the formatter returns. *)
Theorem execute_answers_every_context :
  (forall context,
      exists r, execute context = Ok r
        /\ ((exists d, pipeline context = Ok (VDict d) /\ r = VDict d
                       /\ dict_get "success" d = Some (VBool true))
            \/ (exists e, pipeline context = Raise e
                  /\ r = VDict [("success", VBool false);
                                ("response",
                                 VStr ("I'm having trouble processing that right now. "
                                       ++ "Let me help you differently."));
                                ("error", VStr (exn_str e))])))
  /\ (forall message customer_id session_id cart_items kwargs,
      truthy customer_id = false \/ (exists c, query_customer customer_id = Ok c) ->
      exists r,
        handle_conversation message customer_id session_id cart_items kwargs = Ok r
        /\ envelope r)
  /\ (forall message customer_id session_id cart_items kwargs e,
      truthy customer_id = true -> query_customer customer_id = Raise e ->
      handle_conversation message customer_id session_id cart_items kwargs = Raise e)
  /\ (forall message channel customer_id session_id kwargs,
      let turn :=
        handle_conversation message customer_id session_id
          (default VNone (dict_get "cart_items" kwargs))
          (dict_remove "cart_items" kwargs) in
      (forall r, turn = Ok r ->
         handle_channel_conversation message channel customer_id session_id kwargs
         = ChannelAdapters.format_message
             (ChannelAdapters.get_channel_adapter channel) r)
      /\ (forall e, turn = Raise e ->
         handle_channel_conversation message channel customer_id session_id kwargs
         = Raise e)).
Proof.
  assert (Hexec : forall context, exists r, execute context = Ok r
    /\ ((exists d, pipeline context = Ok (VDict d) /\ r = VDict d
                   /\ dict_get "success" d = Some (VBool true))
        \/ (exists e, pipeline context = Raise e /\ r = error_response e))).
  { intros context. unfold execute.
    destruct (pipeline context) as [r|e] eqn:Hrun; cbn [try_except].
    - exists r. split; [reflexivity|]. left.
      unfold pipeline in Hrun.
      repeat match type of Hrun with
             | rbind ?m _ = Ok _ =>
                 destruct m eqn:?; cbn [rbind] in Hrun; [|discriminate Hrun]
             end.
      destruct (synthesize_keeps _ _ _ _ Hrun) as (d & -> & Hsuccess & _).
      exists d. auto.
    - exists (error_response e). split; [reflexivity|]. right. eauto. }
  assert (Henv : forall context, exists r, execute context = Ok r /\ envelope r).
  { intros context. destruct (Hexec context) as (r & Hr & [(d & _ & -> & Hd)|(e & _ & ->)]);
      eexists; (split; [exact Hr|]); [left|right]; eauto. }
  split; [exact Hexec|]. split; [|split].
  - intros message customer_id session_id cart_items kwargs Hlookup.
    unfold handle_conversation. destruct Hlookup as [Hnone|[c Hc]].
    + rewrite Hnone. cbn [rbind]. apply Henv.
    + destruct (truthy customer_id); cbn [rbind]; [|apply Henv].
      rewrite Hc. cbn [rbind]. destruct c as [c|]; cbn [rbind]; apply Henv.
  - intros message customer_id session_id cart_items kwargs e Htruthy Hfail.
    unfold handle_conversation. rewrite Htruthy, Hfail. reflexivity.
  - intros message channel customer_id session_id kwargs turn.
    unfold handle_channel_conversation. fold turn.
    split; [intros r Hr | intros e He]; rewrite ?Hr, ?He; reflexivity.
Qed.

End CatchAll.

(** C3 as stated fails at both entry points. With the database unreachable,
    [handle_conversation] for customer 1 raises the error of the customer
    lookup. For an anonymous turn on a session the pipeline fails inside
    [execute], which answers with the error record; the web formatter of
    [handle_channel_conversation] then returns a record with an empty
    message and neither [success], apology nor error text. *)
Lemma lookup_error_escapes_and_formatter_drops_error :
  let down := Examples.database_down in
  let shown := Examples.placeholder_repr in
  handle_conversation (repr := shown) (world := down)
    (VStr "I want to checkout now") (VInt 1) VNone Examples.checkout_cart []
    = Raise (OperationalError "could not connect to server")
  /\ handle_conversation (repr := shown) (world := down)
       (VStr "hello") VNone (VStr "session-1") VNone []
     = Ok (error_response (OperationalError "could not connect to server"))
  /\ handle_channel_conversation (repr := shown) (world := down)
       (VStr "hello") "web" VNone (VStr "session-1") []
     = Ok (VDict [("type", VStr "chat_message"); ("channel", VStr "web");
                  ("message", VStr ""); ("timestamp", VNone); ("intent", VNone)]).
Proof. cbv zeta. repeat split; vm_compute; reflexivity. Qed.

Lemma execute_answers_every_context_witness :
  (exists r,
      handle_conversation (repr := Examples.placeholder_repr) (world := Examples.all_up)
        (VStr "hello") VNone (VStr "session-1") VNone [] = Ok r
      /\ envelope r)
  /\ handle_conversation (repr := Examples.placeholder_repr)
       (world := Examples.database_down)
       (VStr "hello") (VInt 1) (VStr "session-1") VNone []
     = Raise (OperationalError "could not connect to server").
Proof.
  pose proof (execute_answers_every_context (repr := Examples.placeholder_repr)
                (world := Examples.all_up)) as (_ & Hanswer & _).
  pose proof (execute_answers_every_context (repr := Examples.placeholder_repr)
                (world := Examples.database_down)) as (_ & _ & Hescape & _).
  split.
  - apply Hanswer. left. reflexivity.
  - apply Hescape; reflexivity.
Defined.

(** C1 at a checkout turn: the shopper has product 1 twice in the cart and
    the product is in stock. The inventory worker runs and returns
    [success] true with an availability map that has an entry for product
    1, and the response of the turn carries the empty map as
    [inventory_status]. *)
Theorem checkout_turn_reports_no_availability :
  let shown := Examples.placeholder_repr in
  let up := Examples.all_up in
  let context :=
    VDict [("message", VStr "I want to checkout now"); ("customer_id", VNone);
           ("session_id", VNone); ("cart_items", Examples.checkout_cart)] in
  exists worker_results inventory response,
    _handle_purchase (repr := shown) (world := up) context
      (VList [VStr "inventory"; VStr "loyalty"; VStr "payment"]) = Ok worker_results
    /\ dict_get "inventory" worker_results = Some inventory
    /\ get inventory "success" VNone = Ok (VBool true)
    /\ get inventory "availability" VNone =
         Ok (VDict [("1", VDict [("product_id", VInt 1); ("available", VBool true);
                                 ("quantity_requested", VInt 2)])])
    /\ handle_conversation (repr := shown) (world := up)
         (VStr "I want to checkout now") VNone VNone Examples.checkout_cart []
       = Ok (VDict response)
    /\ dict_get "intent" response = Some (VStr "purchase_intent")
    /\ dict_get "inventory_status" response = Some (VDict []).
Proof.
  cbv zeta. do 3 eexists.
  split; [vm_compute; reflexivity|].
  split; [vm_compute; reflexivity|].
  split; [vm_compute; reflexivity|].
  split; [vm_compute; reflexivity|].
  split; [vm_compute; reflexivity|].
  split; vm_compute; reflexivity.
Qed.

End OrchestratorFacts.

(** * Further properties of the code *)

(** ** Sessions and carts *)

Module SessionFacts.
Import Py ContextManager ContextManagerFacts.

Lemma int_sum_from (l : list Z) (a : Z) : fold_left Z.add l a = (a + int_sum l)%Z.
Proof.
  unfold int_sum. revert a. induction l as [|x l IH]; intros a; simpl; [lia|].
  rewrite (IH (a + x)%Z), (IH (0 + x)%Z). lia.
Qed.

Lemma int_sum_cons (x : Z) (l : list Z) : int_sum (x :: l) = (x + int_sum l)%Z.
Proof. unfold int_sum at 1. simpl. rewrite int_sum_from. lia. Qed.

Lemma int_sum_app (l l' : list Z) : int_sum (l ++ l') = (int_sum l + int_sum l')%Z.
Proof.
  induction l as [|x l IH]; [reflexivity|].
  change ((x :: l) ++ l')%list with (x :: (l ++ l'))%list.
  rewrite !int_sum_cons, IH. lia.
Qed.

Lemma add_line_total now pid q (c : list CartLine.t) :
  int_sum (CartLine.quantity <$> add_line now pid q c)
  = (int_sum (CartLine.quantity <$> c) + q)%Z.
Proof.
  induction c as [|l c IH].
  - rewrite add_line_nil. reflexivity.
  - rewrite add_line_cons. destruct (decide _).
    + rewrite !fmap_cons, !int_sum_cons. simpl. lia.
    + rewrite !fmap_cons, !int_sum_cons, IH. lia.
Qed.

Lemma add_line_length now (pid : Z) q (c : list CartLine.t) :
  length (add_line now pid q c)
  = (length c + if decide (pid ∈ CartLine.product_id <$> c) then 0 else 1)%nat.
Proof.
  induction c as [|l c IH].
  - rewrite add_line_nil. reflexivity.
  - rewrite add_line_cons, fmap_cons. destruct (decide (is_line_of pid l)) as [Hl|Hl].
    + cbn [length]. rewrite decide_True by (rewrite <- Hl; apply list_elem_of_here). lia.
    + cbn [length]. rewrite IH.
      destruct (decide (pid ∈ CartLine.product_id <$> c)) as [Hin|Hn].
      * rewrite decide_True by (now apply list_elem_of_further). lia.
      * rewrite decide_False; [lia|].
        intros [Heq|Hin]%elem_of_cons; [|contradiction].
        apply Hl. symmetry. exact Heq.
Qed.

Section Sessions.
Context {F : Type} {arith : PyFloat F}.
Implicit Types (db : @DB F) (s : ChatSession.t).

(** The reply of [add_to_cart] counts what the cart holds afterwards: the
    number of lines grows by one exactly when the product had no line yet,
    and the total of the quantities grows by the quantity added. *)
Theorem add_to_cart_reports_the_new_counts db sid s now pid q :
  chat_sessions db !! sid = Some s ->
  let c := ChatSession.cart s in
  exists c',
    (add_to_cart now sid pid q db).1 =
      CartState true c'
        (length c + if decide (pid ∈ (CartLine.product_id <$> c : list Z)) then 0 else 1)
        (int_sum (CartLine.quantity <$> c) + q)
    /\ chat_sessions (add_to_cart now sid pid q db).2 !! sid
       = Some (ChatSession.set_cart c' s).
Proof.
  intros Hs c. exists (add_line now pid q c).
  rewrite (add_to_cart_run _ _ _ _ _ _ Hs). simpl. split.
  - unfold cart_state. fold c. now rewrite add_line_total, add_line_length.
  - apply lookup_insert_eq.
Qed.


(** *** A session that does not exist *)

(** For a session id the table does not hold, every operation of the
    context manager reports the failure (the not-found record, [None] or
    [False]) and leaves the database as it was. *)
Theorem unknown_session_is_refused_everywhere db sid :
  chat_sessions db !! sid = None ->
  get_session sid db = (None, db)
  /\ (forall now pid q, add_to_cart now sid pid q db = (Failure "Session not found", db))
  /\ (forall pid, remove_from_cart sid pid db = (Failure "Session not found", db))
  /\ (forall pid q,
        update_cart_quantity sid pid q db = (Failure "Session not found", db))
  /\ get_cart sid db = (NoView "Session not found", db)
  /\ (forall new_channel,
        switch_channel sid new_channel db = (SwitchFailed "Session not found", db))
  /\ (forall now role content, add_message now sid role content db = (false, db))
  /\ (forall context messages cart channel,
        update_session sid context messages cart channel db = (false, db))
  /\ clear_cart sid db = (false, db)
  /\ end_session sid db = (false, db).
Proof.
  intros Hs.
  unfold add_to_cart, remove_from_cart, update_cart_quantity, get_cart,
    switch_channel, add_message, clear_cart, end_session, update_session,
    get_session, query_session, bind, ret.
  rewrite Hs. repeat split.
Qed.

(** *** What a cart operation leaves alone *)

Lemma committed_frame sid s c db :
  chat_sessions db !! sid = Some s ->
  products (committed sid s c db) = products db
  /\ (forall other, other <> sid ->
        chat_sessions (committed sid s c db) !! other = chat_sessions db !! other)
  /\ chat_sessions (committed sid s c db) !! sid = Some (ChatSession.set_cart c s).
Proof.
  intros Hs. unfold committed. simpl. repeat split.
  - intros other Hother. now rewrite lookup_insert_ne.
  - apply lookup_insert_eq.
Qed.

(** Adding, removing, setting a quantity and clearing change nothing but
    the cart of the session they are called on: the product table, the other
    sessions, and the customer, channel, context, messages and activity flag
    of the session itself stay as they were. The activity flag is not looked
    at either. *)
Theorem cart_operations_change_one_cart_only db sid s now pid q db' :
  chat_sessions db !! sid = Some s ->
  db' ∈ [ (add_to_cart now sid pid q db).2; (remove_from_cart sid pid db).2;
          (update_cart_quantity sid pid q db).2; (clear_cart sid db).2 ] ->
  products db' = products db
  /\ (forall other, other <> sid -> chat_sessions db' !! other = chat_sessions db !! other)
  /\ (exists c,
        chat_sessions db' !! sid =
          Some (ChatSession.mk (ChatSession.customer_id s) (ChatSession.channel s)
                  (ChatSession.context s) (ChatSession.messages s) c
                  (ChatSession.is_active s))).
Proof.
  intros Hs Hdb'.
  rewrite (add_to_cart_run _ _ _ _ _ _ Hs), (remove_from_cart_run _ _ _ _ Hs),
    (update_cart_quantity_run _ _ _ _ _ Hs) in Hdb'.
  unfold clear_cart in Hdb'. rewrite (update_cart_run _ _ [] _ Hs) in Hdb'.
  simpl in Hdb'.
  assert (Hc : exists c, db' = committed sid s c db).
  { repeat (apply elem_of_cons in Hdb' as [->|Hdb']; [eexists; reflexivity|]).
    inversion Hdb'. }
  destruct Hc as [c ->].
  destruct (committed_frame sid s c db Hs) as (Hp & Hother & Hsid).
  split; [exact Hp | split; [exact Hother|]]. exists c. exact Hsid.
Qed.


(** *** Removing a product *)

Lemma lines_of_filter_other pid pid' (c : list CartLine.t) :
  pid' <> pid ->
  lines_of pid' (filter (fun item => ~ is_line_of pid item) c) = lines_of pid' c.
Proof.
  intros Hne. unfold lines_of. induction c as [|l c IH]; [reflexivity|].
  rewrite (filter_cons (fun item => ~ is_line_of pid item)).
  destruct (decide (~ is_line_of pid l)) as [Hl|Hl].
  - rewrite !filter_cons. destruct (decide (is_line_of pid' l)); now rewrite IH.
  - rewrite IH, filter_cons. destruct (decide (is_line_of pid' l)) as [Hl'|]; [|reflexivity].
    exfalso. apply Hl. unfold is_line_of in *. congruence.
Qed.

Lemma lines_of_filter_same pid (c : list CartLine.t) :
  lines_of pid (filter (fun item => ~ is_line_of pid item) c) = [].
Proof.
  unfold lines_of. induction c as [|l c IH]; [reflexivity|].
  rewrite (filter_cons (fun item => ~ is_line_of pid item)).
  destruct (decide (~ is_line_of pid l)) as [Hl|Hl]; [|exact IH].
  rewrite filter_cons. destruct (decide (is_line_of pid l)); [contradiction | exact IH].
Qed.

Lemma filter_not_line_twice pid (c : list CartLine.t) :
  filter (fun item => ~ is_line_of pid item)
    (filter (fun item => ~ is_line_of pid item) c)
  = filter (fun item => ~ is_line_of pid item) c.
Proof.
  induction c as [|l c IH]; [reflexivity|].
  rewrite (filter_cons _ l c). destruct (decide (~ is_line_of pid l)) as [Hl|Hl]; [|exact IH].
  rewrite filter_cons. rewrite decide_True by exact Hl. now rewrite IH.
Qed.

Lemma filter_not_line_app pid (c : list CartLine.t) now q :
  Forall (fun l => ~ is_line_of pid l) c ->
  filter (fun item => ~ is_line_of pid item) (c ++ [CartLine.mk pid q now])%list = c.
Proof.
  intros Hc. rewrite filter_app. destruct (not_line_filter pid c Hc) as [-> _].
  rewrite filter_cons, decide_False; [apply app_nil_r|].
  intros Hn. apply Hn. reflexivity.
Qed.

(** [remove_from_cart] leaves no line of the product and keeps the lines
    of every other product; removing again changes nothing more; and
    removing a product that was just added to a cart without it restores the
    database of before. *)
Theorem remove_from_cart_drops_every_line_of_the_product db sid s pid :
  chat_sessions db !! sid = Some s ->
  let c := ChatSession.cart s in
  let db' := (remove_from_cart sid pid db).2 in
  exists c',
    remove_from_cart sid pid db = (cart_state true c', db')
    /\ chat_sessions db' !! sid = Some (ChatSession.set_cart c' s)
    /\ lines_of pid c' = []
    /\ (forall other, other <> pid -> lines_of other c' = lines_of other c)
    /\ remove_from_cart sid pid db' = (cart_state true c', db')
    /\ (forall now q,
          pid ∉ CartLine.product_id <$> c ->
          remove_from_cart sid pid (add_to_cart now sid pid q db).2
          = (cart_state true c, db)).
Proof.
  intros Hs c db'. subst db'.
  exists (filter (fun item => ~ is_line_of pid item) c).
  rewrite (remove_from_cart_run _ _ _ _ Hs). fold c. cbn [snd].
  split; [reflexivity|]. split; [apply committed_lookup|].
  split; [apply lines_of_filter_same|].
  split; [intros other Hother; now apply lines_of_filter_other|].
  split.
  - rewrite (remove_from_cart_run _ _ _ _ (committed_lookup _ _ _ _)).
    cbn [ChatSession.cart ChatSession.set_cart]. rewrite filter_not_line_twice.
    rewrite committed_twice. reflexivity.
  - intros now q Habsent.
    rewrite (add_to_cart_run _ _ _ _ _ _ Hs). cbn [snd].
    rewrite (remove_from_cart_run _ _ _ _ (committed_lookup _ _ _ _)).
    cbn [ChatSession.cart ChatSession.set_cart]. fold c.
    rewrite (add_line_absent _ _ _ _ (absent_no_lines _ _ Habsent)).
    rewrite (filter_not_line_app _ _ _ _ (absent_no_lines _ _ Habsent)).
    f_equal. rewrite committed_twice.
    transitivity (committed sid s (ChatSession.cart s) db);
      [reflexivity | now apply committed_same].
Qed.


(** *** Adding and viewing *)

Lemma omap_add_line_unknown (products : gmap Z (Product.t F)) now pid q
    (c : list CartLine.t) :
  products !! pid = None ->
  omap (fun item => priced item <$> products !! CartLine.product_id item)
    (add_line now pid q c)
  = omap (fun item => priced item <$> products !! CartLine.product_id item) c.
Proof.
  intros Hp. induction c as [|l c IH].
  - rewrite add_line_nil. simpl. now rewrite Hp.
  - rewrite add_line_cons. destruct (decide (is_line_of pid l)) as [Hl|Hl].
    + cbn [omap list_omap CartLine.set_quantity CartLine.product_id].
      unfold is_line_of in Hl. now rewrite Hl, Hp.
    + cbn [omap list_omap]. now rewrite IH.
Qed.



(** *** Sessions *)

(** A new session gets the id ["session-" + token], is active, has the
    given customer and channel, no context, no message and an empty cart,
    whose view has subtotal zero; the other sessions and the products are
    untouched. *)
Theorem create_session_opens_an_empty_session db token customer_id channel :
  let session_id := "session-" ++ token in
  chat_sessions db !! session_id = None ->
  let db' := (create_session token customer_id channel db).2 in
  (create_session token customer_id channel db).1 = session_id
  /\ get_session session_id db'
     = (Some (ChatSession.mk customer_id channel [] [] [] true), db')
  /\ get_cart session_id db' = (CartView [] 0 0 float_zero, db')
  /\ (forall other, other <> session_id ->
        chat_sessions db' !! other = chat_sessions db !! other)
  /\ products db' = products db.
Proof.
  intros session_id _ db'. subst db'.
  unfold create_session, bind, ret, commit_session. cbn [fst snd].
  split; [reflexivity|].
  unfold get_cart, get_session, query_session, bind, ret. cbn [chat_sessions].
  rewrite lookup_insert_eq. cbn [ChatSession.cart].
  split; [reflexivity|]. split; [reflexivity|]. split; [|reflexivity].
  intros other Hother. now rewrite lookup_insert_ne.
Qed.

(** Switching the channel changes the channel of the session and nothing
    else: cart, messages and context stay, the reply counts them, and
    [get_cart] shows the same cart on the new channel. The name of the channel
    is not checked. *)
Theorem switch_channel_keeps_cart_and_history db sid s new_channel :
  chat_sessions db !! sid = Some s ->
  let db' := (switch_channel sid new_channel db).2 in
  (switch_channel sid new_channel db).1
    = Switched ("Switched from " ++ ChatSession.channel s ++ " to " ++ new_channel)
        sid new_channel (length (ChatSession.cart s)) (length (ChatSession.messages s))
  /\ chat_sessions db' !! sid
     = Some (ChatSession.mk (ChatSession.customer_id s) new_channel
               (ChatSession.context s) (ChatSession.messages s) (ChatSession.cart s)
               (ChatSession.is_active s))
  /\ (get_cart sid db').1 = (get_cart sid db).1
  /\ (forall other, other <> sid -> chat_sessions db' !! other = chat_sessions db !! other)
  /\ products db' = products db.
Proof.
  intros Hs db'. subst db'.
  unfold switch_channel, update_session, get_session, query_session, bind, ret,
    commit_session.
  cbv beta. rewrite !Hs. cbn [fst snd default]. split; [reflexivity|].
  split; [cbn [chat_sessions]; apply lookup_insert_eq|].
  split.
  - match goal with |- (get_cart sid ?d).1 = _ =>
      assert (Hs' : chat_sessions d !! sid
                    = Some (ChatSession.mk (ChatSession.customer_id s) new_channel
                              (ChatSession.context s) (ChatSession.messages s)
                              (ChatSession.cart s) (ChatSession.is_active s)))
        by (cbn [chat_sessions]; apply lookup_insert_eq);
      rewrite (get_cart_run _ _ _ Hs')
    end.
    rewrite (get_cart_run _ _ _ Hs). reflexivity.
  - split; [|reflexivity]. intros other Hother. cbn [chat_sessions].
    now rewrite lookup_insert_ne.
Qed.

(** Messages are appended to the history in the order of the calls, each
    with its role, content and time; nothing else of the session changes. *)
Theorem add_message_appends_in_order db sid s now1 role1 content1 now2 role2 content2 :
  chat_sessions db !! sid = Some s ->
  let db1 := (add_message now1 sid role1 content1 db).2 in
  let db2 := (add_message now2 sid role2 content2 db1).2 in
  add_message now1 sid role1 content1 db = (true, db1)
  /\ add_message now2 sid role2 content2 db1 = (true, db2)
  /\ chat_sessions db2 !! sid
     = Some (ChatSession.mk (ChatSession.customer_id s) (ChatSession.channel s)
               (ChatSession.context s)
               (ChatSession.messages s
                  ++ [Message.mk role1 content1 now1; Message.mk role2 content2 now2])%list
               (ChatSession.cart s) (ChatSession.is_active s))
  /\ (forall other, other <> sid -> chat_sessions db2 !! other = chat_sessions db !! other).
Proof.
  intros Hs db1 db2. subst db2 db1.
  assert (Hrun : forall (d : @DB F) s' now role content,
             chat_sessions d !! sid = Some s' ->
             add_message now sid role content d
             = (true, {| chat_sessions :=
                           <[sid := ChatSession.mk (ChatSession.customer_id s')
                                      (ChatSession.channel s') (ChatSession.context s')
                                      (ChatSession.messages s'
                                         ++ [Message.mk role content now])%list
                                      (ChatSession.cart s') (ChatSession.is_active s')]>
                             (chat_sessions d);
                         products := products d |})).
  { intros d s' now role content Hd.
    unfold add_message, update_session, get_session, query_session, bind, ret,
      commit_session.
    cbv beta. rewrite !Hd. reflexivity. }
  rewrite (Hrun _ _ _ _ _ Hs). cbn [snd].
  erewrite Hrun by (cbn [chat_sessions]; apply lookup_insert_eq).
  cbn [snd chat_sessions ChatSession.customer_id ChatSession.channel ChatSession.context
       ChatSession.messages ChatSession.cart ChatSession.is_active].
  split; [reflexivity|]. split; [reflexivity|]. split.
  - rewrite lookup_insert_eq, <- app_assoc. reflexivity.
  - intros other Hother. now rewrite !lookup_insert_ne.
Qed.

(** After [clear_cart] the cart of the session is empty and [get_cart]
    returns the empty view; clearing again changes nothing. *)
Theorem clear_cart_leaves_an_empty_view db sid s :
  chat_sessions db !! sid = Some s ->
  let db' := (clear_cart sid db).2 in
  clear_cart sid db = (true, db')
  /\ chat_sessions db' !! sid = Some (ChatSession.set_cart [] s)
  /\ get_cart sid db' = (CartView [] 0 0 float_zero, db')
  /\ clear_cart sid db' = (true, db').
Proof.
  intros Hs db'. subst db'. unfold clear_cart.
  rewrite (update_cart_run _ _ [] _ Hs). cbn [snd].
  split; [reflexivity|]. split; [apply committed_lookup|]. split.
  - unfold get_cart, get_session, query_session, bind, ret.
    now rewrite committed_lookup.
  - rewrite (update_cart_run _ _ [] _ (committed_lookup _ _ _ _)), committed_twice.
    reflexivity.
Qed.

(** [end_session] clears the activity flag and keeps the row with all its
    data; ending twice is ending once. An ended session still answers:
    [get_cart] and [add_to_cart] behave as on the active session. *)
Theorem end_session_only_deactivates db sid s :
  chat_sessions db !! sid = Some s ->
  let db' := (end_session sid db).2 in
  end_session sid db = (true, db')
  /\ chat_sessions db' !! sid
     = Some (ChatSession.mk (ChatSession.customer_id s) (ChatSession.channel s)
               (ChatSession.context s) (ChatSession.messages s) (ChatSession.cart s)
               false)
  /\ end_session sid db' = (true, db')
  /\ (get_cart sid db').1 = (get_cart sid db).1
  /\ (forall now pid q,
        (add_to_cart now sid pid q db').1 = (add_to_cart now sid pid q db).1)
  /\ (forall other, other <> sid -> chat_sessions db' !! other = chat_sessions db !! other).
Proof.
  intros Hs db'. subst db'.
  assert (Hrun : forall (d : @DB F) s',
             chat_sessions d !! sid = Some s' ->
             end_session sid d
             = (true, {| chat_sessions :=
                           <[sid := ChatSession.mk (ChatSession.customer_id s')
                                      (ChatSession.channel s') (ChatSession.context s')
                                      (ChatSession.messages s') (ChatSession.cart s')
                                      false]> (chat_sessions d);
                         products := products d |})).
  { intros d s' Hd. unfold end_session, query_session, bind, ret, commit_session.
    cbv beta. rewrite !Hd. reflexivity. }
  rewrite (Hrun _ _ Hs). cbn [snd].
  set (ended := ChatSession.mk (ChatSession.customer_id s) (ChatSession.channel s)
                  (ChatSession.context s) (ChatSession.messages s)
                  (ChatSession.cart s) false).
  set (db' := {| chat_sessions := <[sid := ended]> (chat_sessions db);
                 products := products db |}).
  assert (Hs' : chat_sessions db' !! sid = Some ended) by apply lookup_insert_eq.
  split; [reflexivity|]. split; [exact Hs'|]. split.
  - rewrite (Hrun _ _ Hs'). subst db'. cbn [chat_sessions products].
    now rewrite insert_insert_eq.
  - split; [|split].
    + now rewrite (get_cart_run _ _ _ Hs'), (get_cart_run _ _ _ Hs).
    + intros now pid q.
      now rewrite (add_to_cart_run _ _ _ _ _ _ Hs'), (add_to_cart_run _ _ _ _ _ _ Hs).
    + intros other Hother. subst db'. cbn [chat_sessions]. now rewrite lookup_insert_ne.
Qed.

(** *** The invariant of the stored carts *)

Lemma one_line_at_most pid (c : list CartLine.t) :
  one_line_per_product c -> (length (lines_of pid c) <= 1)%nat.
Proof.
  unfold lines_of. induction c as [|l c IH]; intros Hc; [simpl; lia|].
  rewrite filter_cons. destruct (decide (is_line_of pid l)) as [Hl|Hl].
  - destruct (not_line_filter pid c (one_line_tail pid l c Hc Hl)) as [_ Hnone].
    unfold lines_of in Hnone. rewrite Hnone. simpl. lia.
  - apply IH. exact (one_line_cons_inv _ _ Hc).
Qed.


End Sessions.

(** *** The properties above at the example databases *)

Lemma shop_is_reachable : reachable Examples.shop_db.
Proof.
  unfold Examples.shop_db.
  do 3 (eapply reachable_call; [|apply call_add_to_cart]).
  eapply reachable_call; [|apply call_create_session].
  apply reachable_start.
Qed.

Lemma shop_session :
  chat_sessions Examples.shop_db !! "session-abc"
  = Some (Examples.session_with Examples.three_lines).
Proof. vm_compute. reflexivity. Qed.

Lemma one_line_session (cart : list CartLine.t) :
  chat_sessions (Examples.db_with cart) !! "session-1" = Some (Examples.session_with cart).
Proof. apply lookup_insert_eq. Qed.

Lemma add_to_cart_reports_the_new_counts_witness :
  (exists c', (add_to_cart "t1" "session-abc" 2 4 Examples.shop_db).1
              = CartState true c' 3 7)
  /\ (exists c', (add_to_cart "t1" "session-abc" 8 4 Examples.shop_db).1
                 = CartState true c' 4 7).
Proof.
  split.
  - destruct (add_to_cart_reports_the_new_counts _ _ _ "t1" 2 4 shop_session)
      as (c' & Hreply & _).
    exists c'. exact Hreply.
  - destruct (add_to_cart_reports_the_new_counts _ _ _ "t1" 8 4 shop_session)
      as (c' & Hreply & _).
    exists c'. exact Hreply.
Defined.

Lemma unknown_session_is_refused_everywhere_witness :
  chat_sessions Examples.shop_db !! "session-xyz" = None
  /\ add_to_cart "t1" "session-xyz" 1 1 Examples.shop_db
     = (Failure "Session not found", Examples.shop_db)
  /\ get_cart "session-xyz" Examples.shop_db
     = (NoView "Session not found", Examples.shop_db).
Proof.
  assert (Hnone : chat_sessions Examples.shop_db !! "session-xyz" = None)
    by (vm_compute; reflexivity).
  split; [exact Hnone|].
  destruct (unknown_session_is_refused_everywhere _ _ Hnone)
    as (_ & Hadd & _ & _ & Hview & _).
  split; [apply Hadd | exact Hview].
Defined.

Lemma cart_operations_change_one_cart_only_witness :
  let db' := (remove_from_cart "session-abc" 2 Examples.shop_db).2 in
  products db' = Examples.catalog
  /\ exists c,
       chat_sessions db' !! "session-abc" = Some (ChatSession.mk None "web" [] [] c true).
Proof.
  cbv zeta.
  assert (Hin : (remove_from_cart "session-abc" 2 Examples.shop_db).2
                ∈ [ (add_to_cart "t4" "session-abc" 2 1 Examples.shop_db).2;
                    (remove_from_cart "session-abc" 2 Examples.shop_db).2;
                    (update_cart_quantity "session-abc" 2 1 Examples.shop_db).2;
                    (clear_cart "session-abc" Examples.shop_db).2 ])
    by apply list_elem_of_further, list_elem_of_here.
  destruct (cart_operations_change_one_cart_only _ _ _ _ _ _ _ shop_session Hin)
    as (Hproducts & _ & Hcart).
  split; [|exact Hcart]. rewrite Hproducts. reflexivity.
Defined.

Lemma remove_from_cart_drops_every_line_of_the_product_witness :
  exists c',
    remove_from_cart "session-abc" 2 Examples.shop_db
    = (cart_state true c', (remove_from_cart "session-abc" 2 Examples.shop_db).2)
    /\ lines_of 2 c' = []
    /\ remove_from_cart "session-abc" 8
         (add_to_cart "t4" "session-abc" 8 5 Examples.shop_db).2
       = (cart_state true Examples.three_lines, Examples.shop_db).
Proof.
  destruct (remove_from_cart_drops_every_line_of_the_product _ _ _ 2 shop_session)
    as (c' & Hrun & _ & Hnone & _).
  destruct (remove_from_cart_drops_every_line_of_the_product _ _ _ 8 shop_session)
    as (_ & _ & _ & _ & _ & _ & Hback).
  exists c'. split; [exact Hrun|]. split; [exact Hnone|].
  apply Hback. cbn. decide_by_computation.
Defined.



Lemma create_session_opens_an_empty_session_witness :
  let db := @mkDB float ∅ Examples.catalog in
  chat_sessions db !! "session-abc" = None
  /\ (create_session "abc" (Some 7%Z) "mobile" db).1 = "session-abc"
  /\ get_cart "session-abc" (create_session "abc" (Some 7%Z) "mobile" db).2
     = (CartView [] 0 0 0%float, (create_session "abc" (Some 7%Z) "mobile" db).2).
Proof.
  cbv zeta.
  assert (Hfresh : chat_sessions (@mkDB float ∅ Examples.catalog) !! ("session-" ++ "abc")
                   = None) by apply lookup_empty.
  split; [exact Hfresh|].
  destruct (create_session_opens_an_empty_session _ "abc" (Some 7%Z) "mobile" Hfresh)
    as (Hid & _ & Hview & _).
  split; [exact Hid | exact Hview].
Defined.

Lemma switch_channel_keeps_cart_and_history_witness :
  (switch_channel "session-abc" "whatsapp" Examples.shop_db).1
  = Switched "Switched from web to whatsapp" "session-abc" "whatsapp" 3 0
  /\ (get_cart "session-abc" (switch_channel "session-abc" "whatsapp" Examples.shop_db).2).1
     = (get_cart "session-abc" Examples.shop_db).1.
Proof.
  destruct (switch_channel_keeps_cart_and_history _ _ _ "whatsapp" shop_session)
    as (Hreply & _ & Hview & _).
  split; [exact Hreply | exact Hview].
Defined.

Lemma add_message_appends_in_order_witness :
  let db := (add_message "t5" "session-abc" "assistant" "Hello!"
               (add_message "t4" "session-abc" "user" "Hi" Examples.shop_db).2).2 in
  (ChatSession.messages <$> chat_sessions db !! "session-abc")
  = Some [Message.mk "user" "Hi" "t4"; Message.mk "assistant" "Hello!" "t5"]
  /\ (ChatSession.cart <$> chat_sessions db !! "session-abc")
     = Some Examples.three_lines.
Proof.
  cbv zeta.
  destruct (add_message_appends_in_order _ _ _ "t4" "user" "Hi" "t5" "assistant" "Hello!"
              shop_session) as (_ & _ & Hstored & _).
  rewrite Hstored. split; reflexivity.
Defined.

Lemma clear_cart_leaves_an_empty_view_witness :
  clear_cart "session-abc" Examples.shop_db
  = (true, (clear_cart "session-abc" Examples.shop_db).2)
  /\ get_cart "session-abc" (clear_cart "session-abc" Examples.shop_db).2
     = (CartView [] 0 0 0%float, (clear_cart "session-abc" Examples.shop_db).2).
Proof.
  destruct (clear_cart_leaves_an_empty_view _ _ _ shop_session) as (Hrun & _ & Hview & _).
  split; [exact Hrun | exact Hview].
Defined.

Lemma end_session_only_deactivates_witness :
  let db' := (end_session "session-abc" Examples.shop_db).2 in
  (ChatSession.is_active <$> chat_sessions db' !! "session-abc") = Some false
  /\ (ChatSession.cart <$> chat_sessions db' !! "session-abc") = Some Examples.three_lines
  /\ (add_to_cart "t4" "session-abc" 1 1 db').1
     = (add_to_cart "t4" "session-abc" 1 1 Examples.shop_db).1.
Proof.
  cbv zeta.
  destruct (end_session_only_deactivates _ _ _ shop_session)
    as (_ & Hstored & _ & _ & Hadd & _).
  rewrite Hstored. split; [reflexivity|]. split; [reflexivity|]. apply Hadd.
Defined.


End SessionFacts.

(** ** How a turn is dispatched *)

Module DispatchFacts.
Import Py Orchestrator OrchestratorFacts.

Section Dispatch.
Context {repr : Repr} {world : Collaborators}.

Lemma str_in_names (k : string) (names : list string) :
  str_in k (VList (VStr <$> names)) = Ok (bool_decide (k ∈ names)).
Proof.
  cbn [str_in]. f_equal. induction names as [|n names IH]; [reflexivity|].
  cbn [fmap list_fmap existsb is_str].
  destruct (String.eqb_spec n k) as [->|Hne]; cbn [orb].
  - symmetry. apply bool_decide_eq_true_2, list_elem_of_here.
  - etransitivity; [exact IH|]. apply bool_decide_ext. rewrite elem_of_cons.
    split; [tauto|]. intros [Heq|Hin]; [congruence | exact Hin].
Qed.

(** With nothing in the cart, a purchase turn checks no stock and charges
    nothing: the only worker it can consult is the loyalty agent. *)
Theorem purchase_with_an_empty_cart_only_consults_loyalty
    (c : dict) (names : list string) (loyalty : value) :
  let cart_items := default (VList []) (dict_get "cart_items" c) in
  let customer_id := default VNone (dict_get "customer_id" c) in
  truthy cart_items = false ->
  (truthy customer_id = true -> get_customer_loyalty_info customer_id = Ok loyalty) ->
  _handle_purchase (VDict c) (VList (VStr <$> names))
  = Ok (if bool_decide ("loyalty" ∈ names) && truthy customer_id
        then [("loyalty", loyalty)] else []).
Proof.
  intros cart_items customer_id Hempty Hloyalty.
  unfold _handle_purchase. cbn [get rbind]. fold cart_items customer_id.
  rewrite !str_in_names. cbn [rbind]. rewrite Hempty, !andb_false_r. cbn [rbind].
  destruct (bool_decide ("loyalty" ∈ names)); cbn [andb rbind]; [|reflexivity].
  destruct (truthy customer_id) eqn:Hid; cbn [rbind]; [|reflexivity].
  rewrite (Hloyalty eq_refl). reflexivity.
Qed.


Lemma product_ids_total (items : list value) :
  Forall (fun entry => exists d pid, entry = VDict d /\ dict_get "product_id" d = Some pid)
    items ->
  exists product_ids,
    mapM (fun entry => item entry "product_id") items = Ok product_ids
    /\ length product_ids = length items.
Proof.
  intros Hitems.
  destruct (ChannelAdapterFacts.mapM_total (fun entry => item entry "product_id") items)
    as [product_ids Hids].
  { eapply Forall_impl; [exact Hitems|]. intros entry (d & pid & -> & Hpid).
    exists pid. cbn [item]. now rewrite Hpid. }
  exists product_ids. split; [exact Hids|].
  exact (ChannelAdapterFacts.mapM_length _ _ _ Hids).
Qed.

Lemma quantities_of_total (items : list value) (acc : dict) :
  Forall (fun entry => exists d pid, entry = VDict d /\ dict_get "product_id" d = Some pid)
    items ->
  exists quantities, quantities_of items acc = Ok quantities.
Proof.
  intros Hitems. revert acc. induction Hitems as [|entry items (d & pid & -> & Hpid) _ IH];
    intros acc; [eexists; reflexivity|].
  cbn [quantities_of item get rbind]. rewrite Hpid. cbn [rbind]. apply IH.
Qed.

(** A purchase turn with items in the cart runs the checkout whatever the
    stock check answers: the inventory record is stored beside the payment
    record and is not looked at before the payment is processed. *)
Theorem checkout_is_attempted_whatever_the_stock_check_says
    (c : dict) (items : list value) (payment : value) :
  let customer_id := default VNone (dict_get "customer_id" c) in
  dict_get "cart_items" c = Some (VList items) ->
  items <> [] ->
  Forall (fun entry => exists d pid, entry = VDict d /\ dict_get "product_id" d = Some pid)
    items ->
  (truthy customer_id = true ->
   exists loyalty, get_customer_loyalty_info customer_id = Ok loyalty) ->
  process_checkout (VList items) customer_id
    (default (VStr "card") (dict_get "payment_method" c))
    (default (VBool true) (dict_get "apply_loyalty" c))
    (default VNone (dict_get "coupon_code" c)) = Ok payment ->
  exists results product_ids quantities,
    _handle_purchase (VDict c)
      (VList (VStr <$> SalesAgent._needs_worker_agents SalesAgent.purchase_intent))
    = Ok results
    /\ mapM (fun entry => item entry "product_id") items = Ok product_ids
    /\ dict_get "inventory" results
       = Some (check_multiple_products (VList product_ids) (VDict quantities)
                 (default (VStr "online") (dict_get "location" c)))
    /\ dict_get "payment" results = Some payment.
Proof.
  intros customer_id Hcart Hsome Hitems Hloyalty Hpay.
  destruct (product_ids_total items Hitems) as (product_ids & Hids & _).
  destruct (quantities_of_total items [] Hitems) as [quantities Hq].
  assert (Htruthy : truthy (VList items) = true) by (destruct items; [congruence|reflexivity]).
  unfold _handle_purchase. rewrite !str_in_names. cbn [get rbind].
  rewrite Hcart. cbn [default from_option id]. fold customer_id.
  rewrite Htruthy. cbn [SalesAgent._needs_worker_agents].
  rewrite !bool_decide_eq_true_2 by set_solver. cbn [andb rbind iter].
  rewrite Hids, Hq. cbn [rbind].
  destruct (truthy customer_id) eqn:Hid; cbn [rbind].
  - destruct (Hloyalty eq_refl) as [loyalty ->]. cbn [rbind]. rewrite Hpay. cbn [rbind].
    do 3 eexists. split; [reflexivity|]. split; [reflexivity|].
    rewrite !dict_get_set_ne by discriminate.
    split; [reflexivity | apply dict_get_set_eq].
  - rewrite Hpay. cbn [rbind].
    do 3 eexists. split; [reflexivity|]. split; [reflexivity|].
    rewrite !dict_get_set_ne by discriminate.
    split; [reflexivity | apply dict_get_set_eq].
Qed.

(** The response shows at most the first three recommendations, reports the
    worker's own total beside them, and carries the payment record as the
    payment worker returned it, failed or not. *)
Theorem synthesis_shows_three_recommendations_and_the_payment_record
    sales_response worker_results context d :
  _synthesize_response sales_response worker_results context = Ok (VDict d) ->
  (forall rec recommended,
      dict_get "recommendations" worker_results = Some (VDict rec) ->
      truthy (default VNone (dict_get "success" rec)) = true ->
      dict_get "recommendations" rec = Some (VList recommended) ->
      dict_get "recommendations" d = Some (VList (take 3 recommended))
      /\ dict_get "total_recommendations" d
         = Some (default (VInt 0) (dict_get "total_items" rec)))
  /\ (dict_get "recommendations" worker_results = None ->
      dict_get "recommendations" d = None)
  /\ dict_get "payment_result" d = dict_get "payment" worker_results.
Proof.
  unfold _synthesize_response. intros Hrun.
  step Hrun as message Hmessage. step Hrun as intent Hintent.
  step Hrun as suggestions Hsuggestions.
  step Hrun as r1 Hrec. step Hrun as r2 Hinv. step Hrun as r3 Hloy.
  step Hrun as r4 Hcart. step Hrun as actions Hactions.
  injection Hrun as <-.
  assert (Hkeep : forall k, k <> "actions" -> k <> "cart" -> k <> "payment_result" ->
                    k <> "loyalty_info" -> k <> "inventory_status" ->
                    dict_get k (dict_set "actions" actions r4) = dict_get k r1).
  { intros k H1 H2 H3 H4 H5. rewrite dict_get_set_ne by congruence.
    rewrite (add_cart_frame _ _ _ _ Hcart) by exact H2.
    rewrite add_payment_frame by exact H3.
    rewrite (add_loyalty_frame _ _ _ _ Hloy) by exact H4.
    apply (add_inventory_frame _ _ _ _ Hinv). exact H5. }
  split; [|split].
  - intros rec recommended Hworker Hok Hlist.
    rewrite !Hkeep by discriminate.
    unfold add_recommendations in Hrec. rewrite Hworker in Hrec.
    cbn [get rbind] in Hrec. rewrite Hok, Hlist in Hrec.
    cbn [default from_option id slice_to rbind] in Hrec. injection Hrec as <-.
    split; reflexivity.
  - intros Hnone. rewrite Hkeep by discriminate.
    unfold add_recommendations in Hrec. rewrite Hnone in Hrec. injection Hrec as <-.
    reflexivity.
  - rewrite dict_get_set_ne by discriminate.
    rewrite (add_cart_frame _ _ _ _ Hcart) by discriminate.
    unfold add_payment. destruct (dict_get "payment" worker_results) as [payment|].
    + apply dict_get_set_eq.
    + rewrite (add_loyalty_frame _ _ _ _ Hloy) by discriminate.
      rewrite (add_inventory_frame _ _ _ _ Hinv) by discriminate.
      rewrite (add_recommendations_frame _ _ _ _ Hrec) by discriminate.
      reflexivity.
Qed.


(** *** Turns that consult no worker *)

Lemma sales_execute_shape context sales_response :
  SalesAgent.execute _call_ai context = Ok sales_response ->
  exists prompt message reply i suggestions,
    _call_ai prompt message = VStr reply
    /\ sales_response =
       VDict [("response", VStr reply);
              ("intent", VStr (SalesAgent.intent_name i));
              ("suggestions", suggestions);
              ("next_actions", VList (VStr <$> SalesAgent._determine_next_actions i));
              ("requires_worker_agents",
               VList (VStr <$> SalesAgent._needs_worker_agents i))].
Proof.
  unfold SalesAgent.execute. intros Hrun.
  step Hrun as message Hmessage. step Hrun as customer_info Hinfo.
  step Hrun as history Hhistory. step Hrun as prompt Hprompt.
  step Hrun as i Hi. step Hrun as suggestions Hsuggestions.
  injection Hrun as <-.
  destruct (_call_ai prompt message) as [| | | |reply| |] eqn:Hreply;
    try discriminate Hsuggestions.
  exists prompt, message, reply, i, suggestions. split; [exact Hreply | reflexivity].
Qed.

Lemma synthesize_intent sales_response worker_results context d :
  _synthesize_response sales_response worker_results context = Ok (VDict d) ->
  exists intent,
    get sales_response "intent" VNone = Ok intent /\ dict_get "intent" d = Some intent.
Proof.
  unfold _synthesize_response. intros Hrun.
  step Hrun as message Hmessage. step Hrun as intent Hintent.
  step Hrun as suggestions Hsuggestions.
  step Hrun as r1 Hrec. step Hrun as r2 Hinv. step Hrun as r3 Hloy.
  step Hrun as r4 Hcart. step Hrun as actions Hactions.
  injection Hrun as <-. exists intent. split; [reflexivity|].
  rewrite dict_get_set_ne by discriminate.
  rewrite (add_cart_frame _ _ _ _ Hcart) by discriminate.
  rewrite add_payment_frame by discriminate.
  rewrite (add_loyalty_frame _ _ _ _ Hloy) by discriminate.
  rewrite (add_inventory_frame _ _ _ _ Hinv) by discriminate.
  rewrite (add_recommendations_frame _ _ _ _ Hrec) by discriminate.
  reflexivity.
Qed.

Lemma synthesize_without_workers sales_response context d :
  _synthesize_response sales_response [] context = Ok (VDict d) ->
  dict_get "recommendations" d = None
  /\ dict_get "inventory_status" d = None
  /\ dict_get "loyalty_info" d = None
  /\ dict_get "payment_result" d = None
  /\ dict_get "actions" d = Some (VList []).
Proof.
  unfold _synthesize_response. intros Hrun.
  step Hrun as message Hmessage. step Hrun as intent Hintent.
  step Hrun as suggestions Hsuggestions.
  cbn [add_recommendations add_inventory add_loyalty add_payment dict_get rbind] in Hrun.
  step Hrun as r4 Hcart. step Hrun as actions Hactions.
  injection Hrun as <-.
  assert (actions = VList []) as ->.
  { unfold _determine_next_actions in Hactions. cbn [dict_get default from_option id truthy] in Hactions.
    destruct (is_str intent "browsing"); [now injection Hactions as <-|].
    destruct (is_str intent "purchase_intent"); now injection Hactions as <-. }
  repeat split;
    try (rewrite dict_get_set_ne by discriminate;
         rewrite (add_cart_frame _ _ _ _ Hcart) by discriminate; reflexivity).
  apply dict_get_set_eq.
Qed.

(** Only the browsing, purchase and help intents run a handler. A turn of
    any other intent (also [general], for which the sales agent asks for the
    recommendation and inventory workers) answers without consulting a
    worker: the response has no recommendations, stock, loyalty or payment
    part and offers no action. *)
Theorem other_intents_consult_no_worker context d name :
  pipeline context = Ok (VDict d) ->
  dict_get "intent" d = Some (VStr name) ->
  name ∉ ["browsing"; "purchase_intent"; "needs_help"] ->
  name ∈ ["view_cart"; "greeting"; "complaint"; "general"]
  /\ dict_get "recommendations" d = None
  /\ dict_get "inventory_status" d = None
  /\ dict_get "loyalty_info" d = None
  /\ dict_get "payment_result" d = None
  /\ dict_get "actions" d = Some (VList []).
Proof.
  unfold pipeline. intros Hrun Hname Hother.
  step Hrun as message Hmessage. step Hrun as customer_id Hcustomer.
  step Hrun as session_id Hsession. step Hrun as history Hhistory.
  step Hrun as customer_info Hinfo. step Hrun as sales_response Hsales.
  destruct (sales_execute_shape _ _ Hsales)
    as (prompt & asked & reply & i & suggestions & _ & ->).
  cbn [get dict_get String.eqb Ascii.eqb Bool.eqb default from_option id rbind] in Hrun.
  assert (Hhandled : forall worker_results,
             _synthesize_response
               (VDict [("response", VStr reply);
                       ("intent", VStr (SalesAgent.intent_name i));
                       ("suggestions", suggestions);
                       ("next_actions",
                        VList (VStr <$> SalesAgent._determine_next_actions i));
                       ("requires_worker_agents",
                        VList (VStr <$> SalesAgent._needs_worker_agents i))])
               worker_results context = Ok (VDict d) ->
             name = SalesAgent.intent_name i).
  { intros worker_results Hsyn.
    destruct (synthesize_intent _ _ _ _ Hsyn) as (intent & Hget & Hd).
    cbn in Hget. injection Hget as <-. congruence. }
  step Hrun as routed Hrouted.
  destruct i; cbn [SalesAgent.intent_name is_str String.eqb Ascii.eqb Bool.eqb] in Hrouted.
  - (* view_cart *)
    destruct (truthy session_id).
    + step Hrouted as cart_data Hcart. step Hrouted as ok Hok.
      step Hrouted as filled Hfilled. step Hrouted as text Htext.
      cbn [set_item rbind] in Hrouted. injection Hrouted as <-. cbn [fst snd] in Hrun.
      destruct (synthesize_intent _ _ _ _ Hrun) as (intent & Hget & Hd).
      cbn in Hget. injection Hget as <-.
      split; [|exact (synthesize_without_workers _ _ _ Hrun)].
      rewrite Hname in Hd. injection Hd as ->. set_solver.
    + injection Hrouted as <-. cbn [fst snd] in Hrun.
      split; [|exact (synthesize_without_workers _ _ _ Hrun)].
      rewrite (Hhandled _ Hrun). set_solver.
  - step Hrouted as worker_results Hworkers. injection Hrouted as <-. cbn [fst snd] in Hrun.
    exfalso. apply Hother. rewrite (Hhandled _ Hrun). set_solver.
  - step Hrouted as worker_results Hworkers. injection Hrouted as <-. cbn [fst snd] in Hrun.
    exfalso. apply Hother. rewrite (Hhandled _ Hrun). set_solver.
  - step Hrouted as worker_results Hworkers. injection Hrouted as <-. cbn [fst snd] in Hrun.
    exfalso. apply Hother. rewrite (Hhandled _ Hrun). set_solver.
  - injection Hrouted as <-. cbn [fst snd] in Hrun.
    split; [|exact (synthesize_without_workers _ _ _ Hrun)].
    rewrite (Hhandled _ Hrun). set_solver.
  - injection Hrouted as <-. cbn [fst snd] in Hrun.
    split; [|exact (synthesize_without_workers _ _ _ Hrun)].
    rewrite (Hhandled _ Hrun). set_solver.
  - injection Hrouted as <-. cbn [fst snd] in Hrun.
    split; [|exact (synthesize_without_workers _ _ _ Hrun)].
    rewrite (Hhandled _ Hrun). set_solver.
Qed.

(** A reply of the language model that is not a text (the content of a
    completion can be [None]) makes every turn end in the error record: the
    sales agent calls [lower] on the reply. *)
Theorem reply_without_text_ends_in_the_error_record :
  (forall prompt message reply, _call_ai prompt message <> VStr reply) ->
  forall context, exists e, execute context = Ok (error_response e).
Proof.
  intros Hsilent context. unfold execute.
  destruct (pipeline context) as [r|e] eqn:Hrun; cbn [try_except]; [|eauto].
  exfalso. unfold pipeline in Hrun.
  step Hrun as message Hmessage. step Hrun as customer_id Hcustomer.
  step Hrun as session_id Hsession. step Hrun as history Hhistory.
  step Hrun as customer_info Hinfo. step Hrun as sales_response Hsales.
  destruct (sales_execute_shape _ _ Hsales) as (prompt & asked & reply & _ & _ & Hreply & _).
  exact (Hsilent _ _ _ Hreply).
Qed.


(** *** The cart turn *)

(** Asked for the cart of a session whose cart lookup reports no success
    (the context manager's answer for a session it does not know), the turn
    tells the shopper that the cart is empty; the reply of the language model
    is replaced and the response has no cart part. *)
Theorem cart_turn_reports_a_failed_lookup_as_an_empty_cart
    (text reply : string) (session_id : value) (cart_data : dict) :
  SalesAgent._detect_intent text = SalesAgent.view_cart ->
  _call_ai SalesAgent.base_prompt (VStr text) = VStr reply ->
  truthy session_id = true ->
  get_cart session_id = Ok (VDict cart_data) ->
  truthy (default VNone (dict_get "success" cart_data)) = false ->
  exists suggestions,
    handle_conversation (VStr text) VNone session_id VNone []
    = Ok (VDict [("success", VBool true);
                 ("message",
                  VStr "Your cart is empty. Would you like me to recommend some items?");
                 ("intent", VStr "view_cart");
                 ("suggestions", VList suggestions);
                 ("timestamp", VStr timestamp);
                 ("actions", VList [])]).
Proof.
  intros Hintent Hreply Hsession Hcart Hfailed.
  unfold handle_conversation, execute, pipeline, SalesAgent.execute,
    SalesAgent._build_system_prompt.
  cbn [truthy dict_update fold_left rbind get dict_get String.eqb Ascii.eqb Bool.eqb
       default from_option id length Nat.eqb negb].
  rewrite Hreply, Hintent.
  cbn [SalesAgent._extract_suggestions rbind get dict_get String.eqb Ascii.eqb Bool.eqb
       default from_option id SalesAgent.intent_name is_str].
  rewrite Hsession, Hcart. cbn [rbind get]. rewrite Hfailed.
  cbn [rbind set_item dict_set String.eqb Ascii.eqb Bool.eqb fst snd].
  unfold _synthesize_response, add_cart.
  cbn [rbind get dict_get String.eqb Ascii.eqb Bool.eqb default from_option id
       add_recommendations add_inventory add_loyalty add_payment].
  rewrite Hsession, Hcart. cbn [rbind get]. rewrite Hfailed.
  cbn [rbind _determine_next_actions is_str String.eqb Ascii.eqb Bool.eqb dict_set
       try_except].
  eexists. reflexivity.
Qed.

(** *** The browsing turn *)

(** A browsing turn checks the stock of the first three recommended
    products only, at the location of the context, with no quantities. *)
Theorem browsing_checks_the_stock_of_the_first_three_recommendations
    context required_agents results rec recommended :
  _handle_browsing context required_agents = Ok results ->
  str_in "inventory" required_agents = Ok true ->
  dict_get "recommendations" results = Some (VDict rec) ->
  dict_get "recommendations" rec = Some (VList recommended) ->
  recommended <> [] ->
  exists product_ids location,
    mapM (fun p => item p "product_id") (take 3 recommended) = Ok product_ids
    /\ get context "location" (VStr "online") = Ok location
    /\ dict_get "inventory" results
       = Some (check_multiple_products (VList product_ids) VNone location).
Proof.
  unfold _handle_browsing. intros Hrun Hwanted Hrec Hlist Hsome.
  step Hrun as wanted Hrecommend. step Hrun as r1 Hr1.
  rewrite Hwanted in Hrun. cbn [rbind andb] in Hrun.
  step Hrun as r2 Hr2. step Hrun as customer_id Hcustomer.
  assert (Hkeep : forall k, k <> "loyalty" -> dict_get k results = dict_get k r2).
  { intros k Hk. destruct (truthy customer_id).
    - step Hrun as loyalty Hloyalty. injection Hrun as <-. now rewrite dict_get_set_ne.
    - now injection Hrun as <-. }
  rewrite Hkeep in Hrec by discriminate. rewrite Hkeep by discriminate.
  assert (Hr1rec : dict_get "recommendations" r1 = Some (VDict rec)).
  { destruct (truthy (default VNone (dict_get "recommendations" r1))) eqn:Hpresent.
    - step Hr2 as products Hproducts. destruct (truthy products).
      + do 4 open_call Hr2. injection Hr2 as <-.
        now rewrite dict_get_set_ne in Hrec by discriminate.
      + now injection Hr2 as <-.
    - now injection Hr2 as <-. }
  rewrite Hr1rec in Hr2. cbn [default from_option id truthy get rbind] in Hr2.
  assert (Hnonempty : negb (length rec =? 0)%nat = true).
  { destruct rec; [discriminate Hlist | reflexivity]. }
  rewrite Hnonempty, Hlist in Hr2. cbn [default from_option id truthy] in Hr2.
  assert (Hfull : negb (length recommended =? 0)%nat = true).
  { destruct recommended; [congruence | reflexivity]. }
  rewrite Hfull in Hr2. cbn [slice_to rbind iter] in Hr2.
  step Hr2 as product_ids Hids. step Hr2 as location Hlocation. injection Hr2 as <-.
  exists product_ids, location. split; [reflexivity|]. split; [reflexivity|].
  apply dict_get_set_eq.
Qed.

End Dispatch.

(** *** The properties above at example turns *)

Lemma purchase_with_an_empty_cart_only_consults_loyalty_witness :
  _handle_purchase (repr := Examples.placeholder_repr) (world := Examples.all_up)
    (VDict [("message", VStr "I want to order"); ("customer_id", VInt 5);
            ("cart_items", VList [])])
    (VList (VStr <$> ["inventory"; "loyalty"; "payment"]))
  = Ok [("loyalty", VDict [("success", VBool false);
                           ("message", VStr "Customer not found")])].
Proof.
  apply (purchase_with_an_empty_cart_only_consults_loyalty
           (repr := Examples.placeholder_repr) (world := Examples.all_up)
           [("message", VStr "I want to order"); ("customer_id", VInt 5);
            ("cart_items", VList [])]
           ["inventory"; "loyalty"; "payment"]); reflexivity.
Defined.

Lemma checkout_is_attempted_whatever_the_stock_check_says_witness :
  exists results stock,
    _handle_purchase (repr := Examples.placeholder_repr) (world := Scenarios.sold_out)
      (VDict [("message", VStr "I want to order"); ("cart_items", Examples.checkout_cart)])
      (VList (VStr <$> SalesAgent._needs_worker_agents SalesAgent.purchase_intent))
    = Ok results
    /\ dict_get "inventory" results
       = Some (VDict [("success", VBool true);
                      ("availability", VDict [("1", stock)]);
                      ("checked_at", VStr "2025-01-01T10:00:00")])
    /\ dict_get "available" match stock with VDict d => d | _ => [] end
       = Some (VBool false)
    /\ dict_get "payment" results
       = Some (VDict [("success", VBool true); ("order_id", VStr "ORD-1")]).
Proof.
  destruct (checkout_is_attempted_whatever_the_stock_check_says
              (repr := Examples.placeholder_repr) (world := Scenarios.sold_out)
              [("message", VStr "I want to order"); ("cart_items", Examples.checkout_cart)]
              [VDict [("product_id", VInt 1); ("quantity", VInt 2)]]
              (VDict [("success", VBool true); ("order_id", VStr "ORD-1")]))
    as (results & product_ids & quantities & Hrun & Hids & Hstock & Hpaid).
  - reflexivity.
  - discriminate.
  - repeat constructor. eexists _, _. split; reflexivity.
  - discriminate.
  - reflexivity.
  - exists results, (Scenarios.out_of_stock (VInt 1) (VInt 2)).
    split; [exact Hrun|]. split; [|split; [reflexivity | exact Hpaid]].
    vm_compute in Hrun. injection Hrun as <-. reflexivity.
Defined.

Lemma synthesis_shows_three_recommendations_and_the_payment_record_witness :
  exists d shown,
    _synthesize_response (world := Examples.all_up)
      (VDict [("response", VStr "Here are some ideas."); ("intent", VStr "browsing");
              ("suggestions", VList [])])
      [("recommendations", Scenarios.recommended); ("payment", Scenarios.declined)]
      (VDict [])
    = Ok (VDict d)
    /\ dict_get "recommendations" d = Some (VList shown)
    /\ length shown = 3%nat
    /\ dict_get "total_recommendations" d = Some (VInt 10)
    /\ dict_get "payment_result" d = Some Scenarios.declined.
Proof.
  destruct (_synthesize_response (world := Examples.all_up)
              (VDict [("response", VStr "Here are some ideas."); ("intent", VStr "browsing");
                      ("suggestions", VList [])])
              [("recommendations", Scenarios.recommended); ("payment", Scenarios.declined)]
              (VDict [])) as [[| | | | | |d]|e] eqn:Hrun;
    try (vm_compute in Hrun; discriminate Hrun).
  destruct (synthesis_shows_three_recommendations_and_the_payment_record _ _ _ _ Hrun)
    as (Hshown & _ & Hpaid).
  destruct (Hshown _ Examples.ten_recommendations eq_refl eq_refl eq_refl)
    as [Hlist Htotal].
  exists d, (take 3 Examples.ten_recommendations).
  split; [reflexivity|]. split; [exact Hlist|]. split; [reflexivity|].
  split; [exact Htotal | exact Hpaid].
Defined.

Lemma other_intents_consult_no_worker_witness :
  exists d,
    pipeline (repr := Examples.placeholder_repr) (world := Examples.all_up)
      (VDict [("message", VStr "thanks a lot"); ("customer_id", VInt 5)])
    = Ok (VDict d)
    /\ dict_get "intent" d = Some (VStr "general")
    /\ SalesAgent._needs_worker_agents SalesAgent.general = ["recommendation"; "inventory"]
    /\ dict_get "recommendations" d = None
    /\ dict_get "inventory_status" d = None
    /\ dict_get "loyalty_info" d = None
    /\ dict_get "actions" d = Some (VList []).
Proof.
  destruct (pipeline (repr := Examples.placeholder_repr) (world := Examples.all_up)
              (VDict [("message", VStr "thanks a lot"); ("customer_id", VInt 5)]))
    as [[| | | | | |d]|e] eqn:Hrun; try (vm_compute in Hrun; discriminate Hrun).
  assert (Hintent : dict_get "intent" d = Some (VStr "general"))
    by (vm_compute in Hrun; injection Hrun as <-; reflexivity).
  destruct (other_intents_consult_no_worker _ d "general" Hrun Hintent)
    as (_ & Hrec & Hstock & Hloyalty & _ & Hactions).
  { decide_by_computation. }
  exists d. repeat (split; [first [reflexivity | assumption]|]). exact Hactions.
Defined.

Lemma reply_without_text_ends_in_the_error_record_witness :
  exists e,
    execute (repr := Examples.placeholder_repr) (world := Scenarios.silent_model)
      (VDict [("message", VStr "hello")])
    = Ok (error_response e).
Proof.
  apply (reply_without_text_ends_in_the_error_record
           (repr := Examples.placeholder_repr) (world := Scenarios.silent_model)).
  discriminate.
Defined.

Lemma cart_turn_reports_a_failed_lookup_as_an_empty_cart_witness :
  exists suggestions,
    handle_conversation (repr := Examples.placeholder_repr)
      (world := Scenarios.unknown_session)
      (VStr "What is in my cart?") VNone (VStr "session-xyz") VNone []
    = Ok (VDict [("success", VBool true);
                 ("message",
                  VStr "Your cart is empty. Would you like me to recommend some items?");
                 ("intent", VStr "view_cart");
                 ("suggestions", VList suggestions);
                 ("timestamp", VStr "2025-01-01T10:00:01");
                 ("actions", VList [])]).
Proof.
  apply (cart_turn_reports_a_failed_lookup_as_an_empty_cart
           (repr := Examples.placeholder_repr) (world := Scenarios.unknown_session)
           "What is in my cart?" "Happy to help." (VStr "session-xyz")
           [("success", VBool false); ("message", VStr "Session not found")]);
    reflexivity.
Defined.

Lemma browsing_checks_the_stock_of_the_first_three_recommendations_witness :
  exists results,
    _handle_browsing (repr := Examples.placeholder_repr) (world := Examples.all_up)
      (VDict [("message", VStr "show me dresses")])
      (VList (VStr <$> SalesAgent._needs_worker_agents SalesAgent.browsing))
    = Ok results
    /\ length Examples.ten_recommendations = 10%nat
    /\ dict_get "inventory" results
       = Some (check_multiple_products (repr := Examples.placeholder_repr)
                 (world := Examples.all_up)
                 (VList [VInt 1; VInt 2; VInt 3]) VNone (VStr "online")).
Proof.
  destruct (_handle_browsing (repr := Examples.placeholder_repr) (world := Examples.all_up)
              (VDict [("message", VStr "show me dresses")])
              (VList (VStr <$> SalesAgent._needs_worker_agents SalesAgent.browsing)))
    as [results|e] eqn:Hrun; [|vm_compute in Hrun; discriminate Hrun].
  assert (Hrec : dict_get "recommendations" results = Some Scenarios.recommended)
    by (vm_compute in Hrun; injection Hrun as <-; reflexivity).
  destruct (browsing_checks_the_stock_of_the_first_three_recommendations
              _ _ _ _ Examples.ten_recommendations Hrun eq_refl Hrec eq_refl)
    as (product_ids & location & Hids & Hlocation & Hstock).
  { discriminate. }
  exists results. split; [reflexivity|]. split; [reflexivity|].
  rewrite Hstock. vm_compute in Hids. injection Hids as <-.
  vm_compute in Hlocation. injection Hlocation as <-. reflexivity.
Defined.

End DispatchFacts.

(** ** The inventory check *)

Module InventoryFacts.
Import Py OrchestratorFacts.

Section Batch.
Context {repr : Repr}.
Variable check : value -> value -> value -> result value.

Lemma check_each_entries (quantities : dict) location ids acc :
  (forall pid, pid ∈ ids -> exists a, check pid (default (VInt 1) (dict_get (str pid) quantities)) location = Ok a) ->
  exists out,
    InventoryAgent.check_each check (VDict quantities) location ids acc = Ok out
    /\ (forall pid, pid ∈ ids ->
          exists pid' a,
            pid' ∈ ids /\ str pid' = str pid
            /\ check pid' (default (VInt 1) (dict_get (str pid) quantities)) location = Ok a
            /\ dict_get (str pid) out = Some a)
    /\ (forall k, k ∉ str <$> ids -> dict_get k out = dict_get k acc).
Proof.
  revert acc. induction ids as [|pid rest IH]; intros acc Hchecks.
  - exists acc. split; [reflexivity|]. split; [|reflexivity].
    intros pid Hin. inversion Hin.
  - destruct (Hchecks pid (list_elem_of_here _ _)) as [a Ha].
    destruct (IH (dict_set (str pid) a acc)) as (out & Hrun & Hin & Hout).
    { intros p Hp. apply Hchecks. now apply list_elem_of_further. }
    exists out. cbn [InventoryAgent.check_each get rbind]. rewrite Ha. cbn [rbind].
    split; [exact Hrun|]. split.
    + intros p Hp. destruct (decide (str p ∈ str <$> rest)) as [Hlater|Hlast].
      * apply list_elem_of_fmap in Hlater as (p'' & Heq & Hp'').
        destruct (Hin p'' Hp'') as (p' & a' & Hp' & Hstr & Hcheck & Hget).
        exists p', a'. rewrite Heq.
        split; [now apply list_elem_of_further|]. auto.
      * apply elem_of_cons in Hp as [->|Hp].
        -- exists pid, a. split; [apply list_elem_of_here|]. split; [reflexivity|].
           split; [exact Ha|]. rewrite (Hout _ Hlast). apply dict_get_set_eq.
        -- exfalso. apply Hlast. apply list_elem_of_fmap. now exists p.
    + intros k Hk. rewrite Hout.
      * apply dict_get_set_ne. intros ->. apply Hk. rewrite fmap_cons.
        apply list_elem_of_here.
      * intros Hin'. apply Hk. rewrite fmap_cons. now apply list_elem_of_further.
Qed.

(** When every product of the request can be checked, the agent answers
    with success and an availability map that has, for each requested
    product, the result of its check under the key [str(product_id)]; the
    quantity asked for is the product's entry in [quantities], or 1. The map
    has no other key. *)
Theorem inventory_check_covers_every_requested_product
    checked_at (c : dict) (ids : list value) (quantities : dict) :
  let location := default (VStr "online") (dict_get "customer_location" c) in
  dict_get "product_ids" c = Some (VList ids) ->
  ids <> [] ->
  default (VDict []) (dict_get "quantities" c) = VDict quantities ->
  (forall pid, pid ∈ ids -> exists a, check pid (default (VInt 1) (dict_get (str pid) quantities)) location = Ok a) ->
  exists availability,
    InventoryAgent.execute check checked_at (VDict c)
    = VDict [("success", VBool true); ("availability", VDict availability);
             ("checked_at", VStr checked_at)]
    /\ (forall pid, pid ∈ ids ->
          exists pid' a,
            pid' ∈ ids /\ str pid' = str pid
            /\ check pid' (default (VInt 1) (dict_get (str pid) quantities)) location = Ok a
            /\ dict_get (str pid) availability = Some a)
    /\ (forall k, is_Some (dict_get k availability) -> k ∈ str <$> ids).
Proof.
  intros location Hids Hsome Hquantities Hchecks.
  destruct (check_each_entries quantities location ids [] Hchecks)
    as (out & Hrun & Hin & Hout).
  exists out. unfold InventoryAgent.execute. cbn [get rbind].
  rewrite Hids, Hquantities. cbn [default from_option id truthy].
  assert (Hfull : negb (length ids =? 0)%nat = true)
    by (destruct ids; [congruence | reflexivity]).
  rewrite Hfull. cbn [negb iter rbind]. fold location. rewrite Hrun. cbn [rbind].
  split; [reflexivity|]. split; [exact Hin|].
  intros k [a Hk]. destruct (decide (k ∈ str <$> ids)) as [Hyes|Hno]; [exact Hyes|].
  rewrite (Hout k Hno) in Hk. discriminate Hk.
Qed.

Lemma check_each_failure (quantities : dict) location before pid after acc e :
  (forall p, p ∈ before -> exists a, check p (default (VInt 1) (dict_get (str p) quantities)) location = Ok a) ->
  check pid (default (VInt 1) (dict_get (str pid) quantities)) location = Raise e ->
  InventoryAgent.check_each check (VDict quantities) location (before ++ pid :: after) acc
  = Raise e.
Proof.
  revert acc. induction before as [|p before IH]; intros acc Hbefore Hfail.
  - cbn [app InventoryAgent.check_each get rbind]. now rewrite Hfail.
  - destruct (Hbefore p (list_elem_of_here _ _)) as [a Ha].
    cbn [app InventoryAgent.check_each get rbind]. rewrite Ha. cbn [rbind].
    apply IH; [|exact Hfail]. intros p' Hp'. apply Hbefore.
    now apply list_elem_of_further.
Qed.


End Batch.

(** *** The properties above at example requests *)

Lemma inventory_check_covers_every_requested_product_witness :
  exists availability,
    InventoryAgent.execute (repr := Examples.placeholder_repr)
      (Orchestrator._check_product_availability (Collaborators := Examples.all_up))
      "2025-01-01T10:00:00"
      (VDict [("product_ids", VList [VInt 1; VStr "1"; VInt 2]);
              ("quantities", VDict [("2", VInt 4)])])
    = VDict [("success", VBool true); ("availability", VDict availability);
             ("checked_at", VStr "2025-01-01T10:00:00")]
    /\ (exists a, dict_get "1" availability = Some a)
    /\ (exists a, dict_get "2" availability
                  = Some a /\ get a "quantity_requested" VNone = Ok (VInt 4))
    /\ dict_get "3" availability = None.
Proof.
  destruct (inventory_check_covers_every_requested_product
              (repr := Examples.placeholder_repr)
              (Orchestrator._check_product_availability (Collaborators := Examples.all_up))
              "2025-01-01T10:00:00"
              [("product_ids", VList [VInt 1; VStr "1"; VInt 2]);
               ("quantities", VDict [("2", VInt 4)])]
              [VInt 1; VStr "1"; VInt 2] [("2", VInt 4)])
    as (availability & Hrun & Hentries & Hkeys).
  - reflexivity.
  - discriminate.
  - reflexivity.
  - intros pid _. eexists. reflexivity.
  - exists availability. split; [exact Hrun|]. split; [|split].
    + destruct (Hentries (VInt 1)) as (pid' & a & _ & _ & _ & Ha); [set_solver|].
      exists a. exact Ha.
    + destruct (Hentries (VInt 2)) as (pid' & a & _ & _ & Hcheck & Ha); [set_solver|].
      exists a. split; [exact Ha|]. cbn in Hcheck. injection Hcheck as <-. reflexivity.
    + destruct (dict_get "3" availability) as [a|] eqn:Hthree; [|reflexivity].
      exfalso. assert (Hin : "3" ∈ str (repr := Examples.placeholder_repr)
                                    <$> [VInt 1; VStr "1"; VInt 2])
        by (apply Hkeys; now exists a).
      cbn in Hin.
      repeat (apply elem_of_cons in Hin as [Hin|Hin]; [discriminate Hin|]).
      inversion Hin.
Defined.


End InventoryFacts.

(** ** What the channels show *)

Module FormattingFacts.
Import Py ChannelAdapters OrchestratorFacts.

Lemma str_take_length (n : nat) (s : string) :
  String.length (str_take n s) = Nat.min n (String.length s).
Proof.
  revert s. induction n as [|n IH]; intros [|c s]; cbn [str_take String.length Nat.min];
    try reflexivity.
  now rewrite IH.
Qed.

Lemma append_length (a b : string) :
  String.length (a ++ b) = (String.length a + String.length b)%nat.
Proof. induction a as [|c a IH]; simpl; [reflexivity | f_equal; exact IH]. Qed.



(** *** The text the kiosk speaks *)

Lemma contains_char_cons (c b : ascii) (r : string) :
  contains (String c "") (String b r) = Ascii.eqb c b || contains (String c "") r.
Proof.
  cbn [contains startswith]. destruct (Ascii.eqb c b); [|reflexivity].
  destruct r; reflexivity.
Qed.

Lemma replace_from_adds_no_char (old : string) (c : ascii) (s : string) (skip : nat) :
  contains (String c "") s = false ->
  contains (String c "") (replace_from old "" skip s) = false.
Proof.
  revert skip. induction s as [|b r IH]; intros skip Hs; [reflexivity|].
  rewrite contains_char_cons in Hs. apply orb_false_iff in Hs as [Hb Hr].
  cbn [replace_from]. destruct skip as [|k]; [|now apply IH].
  destruct (startswith old (String b r)).
  - cbn [append]. now apply IH.
  - rewrite contains_char_cons, Hb. cbn [orb]. now apply IH.
Qed.

Lemma replace_char_removes_it (c : ascii) (s : string) :
  contains (String c "") (replace (String c "") "" s) = false.
Proof.
  unfold replace. induction s as [|b r IH]; [reflexivity|].
  cbn [replace_from startswith String.length Nat.sub].
  destruct (Ascii.eqb c b) eqn:Hb.
  - destruct r; [reflexivity | exact IH].
  - rewrite contains_char_cons, Hb. exact IH.
Qed.

Lemma replace_absent (old new s : string) :
  contains old s = false -> replace old new s = s.
Proof.
  unfold replace. induction s as [|b r IH]; intros Hs; [reflexivity|].
  cbn [contains] in Hs. apply orb_false_iff in Hs as [Hhere Hlater].
  cbn [replace_from]. rewrite Hhere. now rewrite IH.
Qed.

Lemma no_char_no_pair (c : ascii) (s : string) :
  contains (String c "") s = false -> contains (String c (String c "")) s = false.
Proof.
  induction s as [|b r IH]; intros Hs; [reflexivity|].
  rewrite contains_char_cons in Hs. apply orb_false_iff in Hs as [Hb Hr].
  cbn [contains startswith]. rewrite Hb. cbn [orb]. now apply IH.
Qed.

(** The voice text of the kiosk has no asterisk left, whatever the display
    text was, and a text with none of the marks removed (asterisks and the two
    emoji) is spoken as it is. *)
Theorem voice_text_has_no_asterisk (s : string) :
  exists t,
    InStoreAdapter._simplify_for_voice (VStr s) = Ok (VStr t)
    /\ contains "*" t = false
    /\ (contains "*" s = false -> contains "✨" s = false ->
        contains "💰" s = false -> t = s).
Proof.
  eexists. split; [reflexivity|]. split.
  - do 2 apply replace_from_adds_no_char. apply replace_char_removes_it.
  - intros Hstar Hsparkle Hmoney.
    pose proof (no_char_no_pair "*" s Hstar) as Hstars.
    now rewrite (replace_absent "**"), (replace_absent "*"), (replace_absent "✨"),
      (replace_absent "💰").
Qed.

(** *** The error record on the channels *)

(** The error record of the orchestrator carries its apology under
    [response]; the formatters read [message]. Formatted for any channel, it
    reaches the shopper as an empty text, with no sign of the failure. *)
Theorem error_record_is_formatted_as_an_empty_message {repr : Repr} (e : exn) :
  format_message web (Orchestrator.error_response e)
  = Ok (VDict [("type", VStr "chat_message"); ("channel", VStr "web");
               ("message", VStr ""); ("timestamp", VNone); ("intent", VNone)])
  /\ format_message whatsapp (Orchestrator.error_response e)
     = Ok (VDict [("type", VStr "whatsapp_message"); ("channel", VStr "whatsapp");
                  ("text", VStr ""); ("quick_replies", VList []);
                  ("timestamp", VNone)])
  /\ format_message mobile (Orchestrator.error_response e)
     = Ok (VDict [("type", VStr "mobile_message"); ("channel", VStr "mobile");
                  ("message", VStr ""); ("timestamp", VNone)])
  /\ exists rest,
       format_message instore (Orchestrator.error_response e)
       = Ok (VDict (("type", VStr "kiosk_message") :: ("channel", VStr "instore")
                    :: ("display_text", VStr "") :: ("voice_text", VStr "")
                    :: ("timestamp", VNone) :: rest)).
Proof.
  repeat split; try reflexivity. eexists. reflexivity.
Qed.


(** *** What every payload carries *)

Lemma when_present_frame ai_response key out render formatted formatted' k :
  when_present ai_response key out render formatted = Ok formatted' ->
  k <> out -> dict_get k formatted' = dict_get k formatted.
Proof.
  unfold when_present. intros Hrun Hk. step Hrun as v Hv.
  destruct (truthy v); [|now injection Hrun as <-].
  step Hrun as r Hr. injection Hrun as <-. now apply dict_get_set_ne.
Qed.

Lemma when_present_sets ai_response key out render formatted formatted' v :
  when_present ai_response key out render formatted = Ok formatted' ->
  get ai_response key VNone = Ok v -> truthy v = true ->
  exists r, render v = Ok r /\ dict_get out formatted' = Some r.
Proof.
  unfold when_present. intros Hrun Hv Htruthy. rewrite Hv in Hrun. cbn [rbind] in Hrun.
  rewrite Htruthy in Hrun. step Hrun as r Hr. injection Hrun as <-.
  exists r. split; [reflexivity | apply dict_get_set_eq].
Qed.

(** The record type each adapter stamps on its payloads. *)
Lemma payload_tags {repr : Repr} (a : adapter) (ai_response : value) (d : dict) :
  format_message a ai_response = Ok (VDict d) ->
  dict_get "channel" d = Some (VStr (channel_name a))
  /\ dict_get "type" d
     = Some (VStr match a with
                  | web => "chat_message"
                  | whatsapp => "whatsapp_message"
                  | instore => "kiosk_message"
                  | mobile => "mobile_message"
                  end).
Proof.
  destruct a; cbn [format_message channel_name]; intros Hrun.
  - unfold WebChatAdapter.format_message in Hrun.
    step Hrun as message Hmessage. step Hrun as timestamp Htimestamp.
    step Hrun as intent Hintent.
    step Hrun as f1 H1. step Hrun as f2 H2. step Hrun as f3 H3.
    step Hrun as f4 H4. step Hrun as f5 H5. injection Hrun as <-.
    split;
      rewrite (when_present_frame _ _ _ _ _ _ _ H5) by discriminate;
      rewrite (when_present_frame _ _ _ _ _ _ _ H4) by discriminate;
      rewrite (when_present_frame _ _ _ _ _ _ _ H3) by discriminate;
      rewrite (when_present_frame _ _ _ _ _ _ _ H2) by discriminate;
      rewrite (when_present_frame _ _ _ _ _ _ _ H1) by discriminate;
      reflexivity.
  - unfold WhatsAppAdapter.format_message in Hrun.
    repeat match type of Hrun with
           | rbind ?m _ = Ok _ =>
               destruct m eqn:?; cbn [rbind] in Hrun; [|discriminate Hrun]
           end.
    injection Hrun as <-. split; reflexivity.
  - unfold InStoreAdapter.format_message in Hrun.
    step Hrun as display_text Hdisplay. step Hrun as voice_text Hvoice.
    step Hrun as timestamp Htimestamp. step Hrun as f1 H1.
    step Hrun as session_id Hsession. injection Hrun as <-.
    split;
      rewrite !dict_get_set_ne by discriminate;
      rewrite (when_present_frame _ _ _ _ _ _ _ H1) by discriminate;
      reflexivity.
  - unfold MobileAdapter.format_message in Hrun.
    step Hrun as message Hmessage. step Hrun as timestamp Htimestamp.
    step Hrun as f1 H1. step Hrun as f2 H2. step Hrun as f3 H3. injection Hrun as <-.
    split;
      rewrite (when_present_frame _ _ _ _ _ _ _ H3) by discriminate;
      rewrite (when_present_frame _ _ _ _ _ _ _ H2) by discriminate;
      rewrite (when_present_frame _ _ _ _ _ _ _ H1) by discriminate;
      reflexivity.
Qed.

(** The payload of a channel conversation names the adapter that formatted
    it, not the channel that was asked for: a channel without an adapter of
    its own is answered with a payload of the web chat. *)
Theorem payload_names_the_adapter_not_the_requested_channel {repr : Repr}
    (channel : string) (ai_response : value) (d : dict) :
  format_message (get_channel_adapter channel) ai_response = Ok (VDict d) ->
  dict_get "channel" d = Some (VStr (channel_name (get_channel_adapter channel)))
  /\ (lower channel ∈ ["web"; "whatsapp"; "instore"; "mobile"] ->
      dict_get "channel" d = Some (VStr (lower channel)))
  /\ (lower channel ∉ ["web"; "whatsapp"; "instore"; "mobile"] ->
      dict_get "channel" d = Some (VStr "web")
      /\ dict_get "type" d = Some (VStr "chat_message")).
Proof.
  intros Hrun. destruct (payload_tags _ _ _ Hrun) as [Hchannel Htype].
  split; [exact Hchannel|]. split.
  - intros Hknown. rewrite Hchannel. unfold get_channel_adapter.
    repeat (apply elem_of_cons in Hknown as [->|Hknown]; [reflexivity|]).
    inversion Hknown.
  - intros Hunknown.
    assert (Hweb : get_channel_adapter channel = web).
    { unfold get_channel_adapter, adapters. cbn [table_get].
      repeat match goal with
             | |- context [String.eqb ?k (lower channel)] =>
                 destruct (String.eqb_spec k (lower channel)) as [Heq|_];
                   [exfalso; apply Hunknown; rewrite <- Heq; set_solver|]
             end.
      reflexivity. }
    rewrite Hweb in Hchannel, Htype. auto.
Qed.

(** *** The caps on quick replies and actions *)

(** The web chat offers at most four quick replies, WhatsApp at most three,
    and the mobile app at most three action buttons: the first ones of the
    response, in order. *)
Theorem quick_replies_and_actions_are_capped {repr : Repr}
    (ai_response : value) (d : dict) (offered : list value) :
  offered <> [] ->
  (get ai_response "suggestions" VNone = Ok (VList offered) ->
   WebChatAdapter.format_message ai_response = Ok (VDict d) ->
   exists replies,
     dict_get "quick_replies" d = Some (VList replies)
     /\ length replies = Nat.min 4 (length offered)
     /\ mapM WebChatAdapter.quick_reply (take 4 offered) = Ok replies)
  /\ (get ai_response "suggestions" VNone = Ok (VList offered) ->
      WhatsAppAdapter.format_message ai_response = Ok (VDict d) ->
      exists replies,
        dict_get "quick_replies" d = Some (VList replies)
        /\ length replies = Nat.min 3 (length offered)
        /\ mapM WhatsAppAdapter.reply_button (take 3 offered) = Ok replies)
  /\ (get ai_response "actions" VNone = Ok (VList offered) ->
      MobileAdapter.format_message ai_response = Ok (VDict d) ->
      exists buttons,
        dict_get "fab_actions" d = Some (VList buttons)
        /\ length buttons = Nat.min 3 (length offered)
        /\ mapM MobileAdapter.fab_action (take 3 offered) = Ok buttons).
Proof.
  intros Hsome.
  assert (Htruthy : truthy (VList offered) = true)
    by (destruct offered; [congruence | reflexivity]).
  assert (Hfirst : forall n render out,
             render_first n render (VList offered) = Ok out ->
             exists rendered,
               out = VList rendered
               /\ length rendered = Nat.min n (length offered)
               /\ mapM render (take n offered) = Ok rendered).
  { intros n render out Hout. unfold render_first in Hout.
    cbn [slice_to rbind iter] in Hout. step Hout as rendered Hrendered.
    injection Hout as <-. exists rendered. split; [reflexivity|]. split; [|reflexivity].
    rewrite (ChannelAdapterFacts.mapM_length _ _ _ Hrendered). apply length_take. }
  split; [|split].
  - intros Hoffered Hrun. unfold WebChatAdapter.format_message in Hrun.
    step Hrun as message Hmessage. step Hrun as timestamp Htimestamp.
    step Hrun as intent Hintent.
    step Hrun as f1 H1. step Hrun as f2 H2. step Hrun as f3 H3.
    step Hrun as f4 H4. step Hrun as f5 H5. injection Hrun as <-.
    destruct (when_present_sets _ _ _ _ _ _ _ H1 Hoffered Htruthy) as (r & Hr & Hset).
    destruct (Hfirst _ _ _ Hr) as (replies & -> & Hlen & Hmap).
    exists replies. split; [|auto].
    rewrite (when_present_frame _ _ _ _ _ _ _ H5) by discriminate.
    rewrite (when_present_frame _ _ _ _ _ _ _ H4) by discriminate.
    rewrite (when_present_frame _ _ _ _ _ _ _ H3) by discriminate.
    rewrite (when_present_frame _ _ _ _ _ _ _ H2) by discriminate.
    exact Hset.
  - intros Hoffered Hrun. unfold WhatsAppAdapter.format_message in Hrun.
    step Hrun as message Hmessage. step Hrun as p1 Hp1. step Hrun as p2 Hp2.
    step Hrun as p3 Hp3. step Hrun as full Hfull.
    rewrite Hoffered in Hrun. cbn [rbind] in Hrun. rewrite Htruthy in Hrun.
    step Hrun as r Hr. step Hrun as timestamp Htimestamp. injection Hrun as <-.
    destruct (Hfirst _ _ _ Hr) as (replies & -> & Hlen & Hmap).
    exists replies. split; [reflexivity | auto].
  - intros Hoffered Hrun. unfold MobileAdapter.format_message in Hrun.
    step Hrun as message Hmessage. step Hrun as timestamp Htimestamp.
    step Hrun as f1 H1. step Hrun as f2 H2. step Hrun as f3 H3. injection Hrun as <-.
    destruct (when_present_sets _ _ _ _ _ _ _ H3 Hoffered Htruthy) as (r & Hr & Hset).
    destruct (Hfirst _ _ _ Hr) as (buttons & -> & Hlen & Hmap).
    exists buttons. split; [exact Hset | auto].
Qed.


(** *** The properties above at example responses *)


Lemma payload_names_the_adapter_not_the_requested_channel_witness :
  exists d,
    format_message (repr := Examples.placeholder_repr) (get_channel_adapter "Telegram")
      Scenarios.busy_response = Ok (VDict d)
    /\ dict_get "channel" d = Some (VStr "web")
    /\ dict_get "type" d = Some (VStr "chat_message").
Proof.
  destruct (format_message (repr := Examples.placeholder_repr)
              (get_channel_adapter "Telegram") Scenarios.busy_response)
    as [[| | | | | |d]|e] eqn:Hrun; try (vm_compute in Hrun; discriminate Hrun).
  destruct (payload_names_the_adapter_not_the_requested_channel _ _ _ Hrun)
    as (_ & _ & Hweb).
  exists d. split; [reflexivity|]. apply Hweb. decide_by_computation.
Defined.

Lemma quick_replies_and_actions_are_capped_witness :
  (exists d replies,
      WebChatAdapter.format_message Scenarios.busy_response = Ok (VDict d)
      /\ dict_get "quick_replies" d = Some (VList replies)
      /\ length replies = 4%nat)
  /\ (exists d replies,
        WhatsAppAdapter.format_message (repr := Examples.placeholder_repr)
          Scenarios.busy_response = Ok (VDict d)
        /\ dict_get "quick_replies" d = Some (VList replies)
        /\ length replies = 3%nat)
  /\ (exists d buttons,
        MobileAdapter.format_message Scenarios.busy_response = Ok (VDict d)
        /\ dict_get "fab_actions" d = Some (VList buttons)
        /\ length buttons = 3%nat).
Proof.
  split; [|split].
  - destruct (WebChatAdapter.format_message Scenarios.busy_response)
      as [[| | | | | |d]|e] eqn:Hrun; try (vm_compute in Hrun; discriminate Hrun).
    destruct (quick_replies_and_actions_are_capped (repr := Examples.placeholder_repr)
                Scenarios.busy_response d
                (VStr <$> ["Browse Dresses"; "Browse Shoes"; "Browse Accessories";
                           "See Recommendations";
                           "A suggestion well over twenty characters"]))
      as (Hweb & _ & _); [discriminate|].
    destruct (Hweb eq_refl Hrun) as (replies & Hreplies & Hcount & _).
    exists d, replies. auto.
  - destruct (WhatsAppAdapter.format_message (repr := Examples.placeholder_repr)
                Scenarios.busy_response)
      as [[| | | | | |d]|e] eqn:Hrun; try (vm_compute in Hrun; discriminate Hrun).
    destruct (quick_replies_and_actions_are_capped (repr := Examples.placeholder_repr)
                Scenarios.busy_response d
                (VStr <$> ["Browse Dresses"; "Browse Shoes"; "Browse Accessories";
                           "See Recommendations";
                           "A suggestion well over twenty characters"]))
      as (_ & Hwhatsapp & _); [discriminate|].
    destruct (Hwhatsapp eq_refl Hrun) as (replies & Hreplies & Hcount & _).
    exists d, replies. auto.
  - destruct (MobileAdapter.format_message Scenarios.busy_response)
      as [[| | | | | |d]|e] eqn:Hrun; try (vm_compute in Hrun; discriminate Hrun).
    destruct (quick_replies_and_actions_are_capped (repr := Examples.placeholder_repr)
                Scenarios.busy_response d
                ((fun t => VDict [("type", VStr t); ("label", VStr t)])
                   <$> ["view_product"; "add_to_cart"; "checkout"; "view_cart"; "other"]))
      as (_ & _ & Hmobile); [discriminate|].
    destruct (Hmobile eq_refl Hrun) as (buttons & Hbuttons & Hcount & _).
    exists d, buttons. auto.
Defined.

End FormattingFacts.

(** ** Text matching *)

Module ClassifierFacts.
Import Py SalesAgent.

Lemma lower_ascii_twice (c : ascii) : lower_ascii (lower_ascii c) = lower_ascii c.
Proof. destruct c as [[] [] [] [] [] [] [] []]; reflexivity. Qed.

Lemma lower_twice (s : string) : lower (lower s) = lower s.
Proof.
  induction s as [|c s IH]; [reflexivity|].
  cbn [lower]. now rewrite lower_ascii_twice, IH.
Qed.

(** Letter case never matters: the intent of a message, the occasion read
    from it and the adapter of a channel name are those of the lower-cased
    text. *)
Theorem letter_case_is_ignored (text : string) :
  _detect_intent (lower text) = _detect_intent text
  /\ Orchestrator._extract_occasion (VStr (lower text))
     = Orchestrator._extract_occasion (VStr text)
  /\ ChannelAdapters.get_channel_adapter (lower text)
     = ChannelAdapters.get_channel_adapter text.
Proof.
  unfold _detect_intent, Orchestrator._extract_occasion,
    ChannelAdapters.get_channel_adapter.
  now rewrite lower_twice.
Qed.

(** The sales agent suggests at most three follow-ups, each a text: the
    product categories the reply mentions come first, the suggestions of the
    intent after them. For a purchase intent "Checkout" is therefore among
    them only when the reply mentions at most one category. *)
Theorem at_most_three_suggestions (reply : string) (i : intent) :
  let mentioned :=
    ((if contains "dress" (lower reply) then ["Browse Dresses"] else [])
     ++ (if contains "shoes" (lower reply) || contains "footwear" (lower reply)
         then ["Browse Shoes"] else [])
     ++ (if contains "accessories" (lower reply) || contains "jewelry" (lower reply)
         then ["Browse Accessories"] else []))%list in
  exists suggestions,
    _extract_suggestions (VStr reply) i = Ok (VList (VStr <$> suggestions))
    /\ (length suggestions <= 3)%nat
    /\ take (length mentioned) suggestions = mentioned
    /\ (i = purchase_intent ->
        ("Checkout" ∈ suggestions <-> (length mentioned <= 1)%nat)
        /\ ("View Cart" ∈ suggestions <-> (length mentioned <= 2)%nat)).
Proof.
  intros mentioned.
  set (extra := match i with
                | browsing => ["See Recommendations"]
                | purchase_intent => ["View Cart"; "Checkout"]
                | needs_help => ["Talk to Specialist"]
                | _ => []
                end).
  exists (take 3 (mentioned ++ extra)%list). split.
  { cbn [_extract_suggestions]. subst mentioned extra.
    now rewrite <- !app_assoc. }
  split; [rewrite length_take; lia|].
  assert (Hcount : (length mentioned <= 3)%nat).
  { subst mentioned.
    destruct (contains "dress" _), (contains "shoes" _ || contains "footwear" _),
      (contains "accessories" _ || contains "jewelry" _); cbn; lia. }
  split.
  - rewrite take_take, Nat.min_l by exact Hcount. now rewrite take_app_length.
  - intros ->. subst mentioned extra.
    destruct (contains "dress" _), (contains "shoes" _ || contains "footwear" _),
      (contains "accessories" _ || contains "jewelry" _);
      cbn [app take length]; split; decide_by_computation.
Qed.

End ClassifierFacts.

(** ** The checkout *)

Module PaymentFacts.
Import Py PaymentAgent OrchestratorFacts.

Section Checkout.
Context {repr : Repr}.
Variable _calculate_pricing : value -> value -> value -> value -> result value.
Variable _process_payment : value -> value -> value -> result value.
Variable _create_order : value -> value -> value -> value -> result value.

Lemma accepted_method (name : string) :
  lower name ∈ valid_methods ->
  _validate_payment_method (VStr name)
  = Ok (VDict [("valid", VBool true); ("message", VStr "Payment method accepted")]).
Proof. intros Hin. cbn [_validate_payment_method]. now rewrite bool_decide_eq_true_2. Qed.

Lemma refused_method (name : string) :
  lower name ∉ valid_methods ->
  _validate_payment_method (VStr name)
  = Ok (VDict [("valid", VBool false);
               ("message", VStr ("Payment method '" ++ name ++ "' not supported"))]).
Proof. intros Hin. cbn [_validate_payment_method]. now rewrite bool_decide_eq_false_2. Qed.

(** A checkout that cannot complete reports its cause and stops there. An
    empty cart is refused before anything is priced. With items in the cart
    the price breakdown is computed first: an error of it is reported as a
    system error whatever the payment method; then a payment method that is
    not supported is refused, with the supported ones as alternatives, each
    of which is accepted when tried; then a payment the processor declines
    is reported with the processor's error, its type and the recovery
    options for that type. None of these records has an order. *)
Theorem failed_checkout_reports_its_cause (c : dict) :
  let cart_items := default (VList []) (dict_get "cart_items" c) in
  let customer_id := default VNone (dict_get "customer_id" c) in
  let payment_method := default (VStr "card") (dict_get "payment_method" c) in
  let priced :=
    _calculate_pricing cart_items customer_id
      (default (VBool true) (dict_get "apply_loyalty" c))
      (default VNone (dict_get "coupon_code" c)) in
  let run := execute _calculate_pricing _process_payment _create_order (VDict c) in
  (truthy cart_items = false ->
   run = VDict [("success", VBool false); ("message", VStr "Cart is empty");
                ("error_type", VStr "empty_cart")])
  /\ (forall e,
        truthy cart_items = true -> priced = Raise e ->
        run = VDict [("success", VBool false);
                     ("message", VStr ("Payment processing failed: " ++ exn_str e));
                     ("error_type", VStr "system_error")])
  /\ (forall pricing name,
        truthy cart_items = true -> priced = Ok pricing ->
        payment_method = VStr name -> lower name ∉ valid_methods ->
        run = VDict [("success", VBool false);
                     ("message",
                      VStr ("Payment method '" ++ name ++ "' not supported"));
                     ("error_type", VStr "invalid_payment_method");
                     ("alternatives", VList (VStr <$> _get_alternative_payment_methods))]
        /\ Forall (fun alternative =>
                     _validate_payment_method (VStr alternative)
                     = Ok (VDict [("valid", VBool true);
                                  ("message", VStr "Payment method accepted")]))
             _get_alternative_payment_methods)
  /\ (forall pricing name amount payment error error_type recovery_options,
        truthy cart_items = true -> priced = Ok pricing ->
        payment_method = VStr name -> lower name ∈ valid_methods ->
        item pricing "final_total" = Ok amount ->
        _process_payment amount payment_method customer_id = Ok (VDict payment) ->
        truthy (default VNone (dict_get "success" payment)) = false ->
        is_Some (dict_get "success" payment) ->
        dict_get "error" payment = Some error ->
        dict_get "error_type" payment = Some error_type ->
        _get_recovery_options error_type pricing = Ok recovery_options ->
        run = VDict [("success", VBool false); ("message", error);
                     ("error_type", error_type);
                     ("recovery_options", recovery_options)]).
Proof.
  intros cart_items customer_id payment_method priced run.
  subst run. unfold execute. cbn [get rbind].
  fold cart_items customer_id payment_method. fold priced.
  split; [|split; [|split]].
  - intros ->. reflexivity.
  - intros e -> ->. reflexivity.
  - intros pricing name -> -> -> Hrefused. cbn [negb rbind]. split.
    + rewrite (refused_method _ Hrefused). reflexivity.
    + unfold _get_alternative_payment_methods.
      repeat constructor; apply accepted_method; decide_by_computation.
  - intros pricing name amount payment error error_type recovery_options
      -> -> -> Haccepted Hamount Hpayment Hdeclined [paid Hpaid] Herror Htype Hrecovery.
    cbn [negb rbind]. rewrite (accepted_method _ Haccepted). cbn [rbind item dict_get
      String.eqb Ascii.eqb Bool.eqb truthy negb].
    rewrite Hamount. cbn [rbind]. rewrite Hpayment. cbn [rbind item].
    rewrite Hpaid in *. cbn [default from_option id] in Hdeclined. cbn [rbind].
    rewrite Hdeclined, Herror, Htype. cbn [rbind]. rewrite Hrecovery. reflexivity.
Qed.

(** The payment agent reports success only for a checkout that went all the
    way: the cart has items, the price breakdown was computed, the payment
    method is one of the supported ones, the processor accepted the payment
    of the final total, and the order was created. The record then carries
    that order, the breakdown and the processor's answer. *)
Theorem payment_succeeds_only_when_charged_and_ordered (context : value) :
  get (execute _calculate_pricing _process_payment _create_order context)
    "success" VNone = Ok (VBool true) ->
  exists cart_items customer_id apply_loyalty coupon_code name pricing amount payment order,
    get context "cart_items" (VList []) = Ok cart_items
    /\ truthy cart_items = true
    /\ get context "customer_id" VNone = Ok customer_id
    /\ get context "payment_method" (VStr "card") = Ok (VStr name)
    /\ lower name ∈ valid_methods
    /\ get context "apply_loyalty" (VBool true) = Ok apply_loyalty
    /\ get context "coupon_code" VNone = Ok coupon_code
    /\ _calculate_pricing cart_items customer_id apply_loyalty coupon_code = Ok pricing
    /\ item pricing "final_total" = Ok amount
    /\ _process_payment amount (VStr name) customer_id = Ok payment
    /\ (exists paid, item payment "success" = Ok paid /\ truthy paid = true)
    /\ _create_order cart_items customer_id pricing payment = Ok order
    /\ execute _calculate_pricing _process_payment _create_order context
       = VDict [("success", VBool true); ("message", VStr "Payment successful!");
                ("order", order); ("pricing", pricing);
                ("payment_details", payment)].
Proof.
  unfold execute.
  destruct (get context "cart_items" (VList [])) as [cart_items|e] eqn:Hcart;
    cbn [rbind]; [|discriminate].
  destruct (get context "customer_id" VNone) as [customer_id|e] eqn:Hcustomer;
    cbn [rbind]; [|discriminate].
  destruct (get context "payment_method" (VStr "card")) as [payment_method|e] eqn:Hmethod;
    cbn [rbind]; [|discriminate].
  destruct (get context "apply_loyalty" (VBool true)) as [apply_loyalty|e] eqn:Hloyalty;
    cbn [rbind]; [|discriminate].
  destruct (get context "coupon_code" VNone) as [coupon_code|e] eqn:Hcoupon;
    cbn [rbind]; [|discriminate].
  destruct (truthy cart_items) eqn:Hitems; cbn [negb]; [|discriminate].
  destruct (_calculate_pricing cart_items customer_id apply_loyalty coupon_code)
    as [pricing|e] eqn:Hpricing; cbn [rbind]; [|discriminate].
  destruct payment_method as [| | | |name| |]; cbn [_validate_payment_method rbind];
    try discriminate.
  destruct (bool_decide (lower name ∈ valid_methods)) eqn:Hvalid;
    cbn [rbind item dict_get String.eqb Ascii.eqb Bool.eqb truthy negb];
    [|discriminate].
  apply bool_decide_eq_true in Hvalid.
  destruct (item pricing "final_total") as [amount|e] eqn:Hamount;
    cbn [rbind]; [|discriminate].
  destruct (_process_payment amount (VStr name) customer_id) as [payment|e] eqn:Hpayment;
    cbn [rbind]; [|discriminate].
  destruct (item payment "success") as [paid|e] eqn:Hpaid; cbn [rbind]; [|discriminate].
  destruct (truthy paid) eqn:Htruthy.
  - destruct (_create_order cart_items customer_id pricing payment) as [order|e] eqn:Horder;
      cbn [rbind]; [|discriminate].
    destruct (item order "order_id") as [order_id|e]; cbn [rbind]; [|discriminate].
    intros _. exists cart_items, customer_id, apply_loyalty, coupon_code, name, pricing,
      amount, payment, order.
    repeat (split; [first [reflexivity | assumption | eauto]|]). reflexivity.
  - destruct (item payment "error") as [error|e]; cbn [rbind]; [|discriminate].
    destruct (item payment "error_type") as [error_type|e]; cbn [rbind]; [|discriminate].
    destruct (_get_recovery_options error_type pricing) as [options|e];
      cbn [rbind]; discriminate.
Qed.

End Checkout.

(** *** The properties above at an example checkout *)

Lemma payment_succeeds_only_when_charged_and_ordered_witness :
  let paid :=
    process_checkout (repr := Examples.placeholder_repr) Scenarios.priced_at_forty
      Scenarios.accepting Scenarios.ordered
      Examples.checkout_cart (VInt 5) (VStr "PayPal") (VBool true) VNone in
  let declined :=
    process_checkout (repr := Examples.placeholder_repr) Scenarios.priced_at_forty
      Scenarios.declining Scenarios.ordered
      Examples.checkout_cart (VInt 5) (VStr "PayPal") (VBool true) VNone in
  (exists order, get paid "order" VNone = Ok order
                 /\ get order "order_id" VNone = Ok (VStr "ORD-1"))
  /\ get declined "success" VNone = Ok (VBool false)
  /\ get declined "order" VNone = Ok VNone.
Proof.
  cbv zeta. split; [|split; reflexivity].
  destruct (payment_succeeds_only_when_charged_and_ordered
              (repr := Examples.placeholder_repr) Scenarios.priced_at_forty
              Scenarios.accepting Scenarios.ordered
              (VDict [("cart_items", Examples.checkout_cart); ("customer_id", VInt 5);
                      ("payment_method", VStr "PayPal");
                      ("apply_loyalty", VBool true); ("coupon_code", VNone)]))
    as (cart_items & customer_id & apply_loyalty & coupon_code & name & pricing & amount
        & payment & order & _ & _ & _ & _ & _ & _ & _ & _ & _ & _ & _ & Horder & Hrun).
  - reflexivity.
  - exists order. unfold process_checkout. rewrite Hrun. split; [reflexivity|].
    cbn in Horder. injection Horder as <-. reflexivity.
Defined.

End PaymentFacts.
